(** * LinkedIn application bot: a shallow embedding of the interaction core

    The development follows [src/utils.py] and [src/linkedin_job_bot.py]:
    the answer resolver, the checkbox helper, the discovery loop
    ([scroll_through_jobs]), the application wizard
    ([apply_to_job], [_process_application_steps]), the recorder
    ([log_application]) and the orchestrator ([run]).

    The browser is the only external collaborator.  It is modelled as an
    oracle: a record of what every driver query observes and how every
    driver command replies, one record per wizard cycle, per application
    and per discovery cycle.  The bot's own state (notes, counters, ledger)
    and the log of driver commands are threaded explicitly. *)

From Stdlib Require Import ZArith Ascii String List Lia DecimalString.
From stdpp Require Import gmap strings list.

Open Scope string_scope.
Open Scope Z_scope.
Open Scope list_scope.

(* ===================================================================== *)
(** * Python strings *)
(* ===================================================================== *)

(** A Python [str] is a sequence of Unicode characters.  A text is kept
    here as its UTF-8 bytes: an ASCII character is one byte below 128,
    any other character a lead byte of 194 or more followed by one to
    three continuation bytes between 128 and 191.  Concatenation,
    emptiness and the search for an ASCII keyword are the same on the
    bytes as on the characters. *)

Module Py.

(** What [str.lower] does to a text of ASCII characters: the letters A-Z
    are mapped to a-z, every other character is kept.  On other texts
    [str.lower] follows the Unicode tables (U+212A, the Kelvin sign,
    becomes "k"); the functions of [utils.py] that call it take it as the
    parameter [lower], and [ascii_lower] stands for it on ASCII prompts
    only. *)
Definition lower_ascii (c : ascii) : ascii :=
  let n := nat_of_ascii c in
  if ((65 <=? n)%nat && (n <=? 90)%nat)%bool then ascii_of_nat (n + 32) else c.

Fixpoint ascii_lower (s : string) : string :=
  match s with
  | EmptyString => EmptyString
  | String c s' => String (lower_ascii c) (ascii_lower s')
  end.

(** [kw in s] on strings: [kw] occurs as a contiguous substring. *)
Fixpoint contains (kw s : string) : bool :=
  (String.prefix kw s ||
   match s with
   | EmptyString => false
   | String _ s' => contains kw s'
   end)%bool.

(** [any(kw in s for kw in kws)]. *)
Definition any_in (kws : list string) (s : string) : bool :=
  existsb (fun kw => contains kw s) kws.

(** [sep.join(l)]. *)
Definition join (sep : string) (l : list string) : string :=
  String.concat sep l.

(** [str(n)] for a non-negative integer. *)
Definition str_of_nat (n : nat) : string :=
  NilEmpty.string_of_uint (Nat.to_uint n).

(** Truth value of a string: non-empty. *)
Definition nonempty (s : string) : bool :=
  match s with EmptyString => false | String _ _ => true end.

(** The whitespace characters of [str.isspace], which [str.strip()]
    removes.  In one byte: U+0009 to U+000D, U+001C to U+001F and the
    space U+0020. *)
Definition is_space (c : ascii) : bool :=
  let n := nat_of_ascii c in
  ((n =? 32)%nat || ((9 <=? n)%nat && (n <=? 13)%nat)
   || ((28 <=? n)%nat && (n <=? 31)%nat))%bool.

(** In two bytes: U+0085 (C2 85) and the no-break space U+00A0 (C2 A0). *)
Definition is_space2 (c1 c2 : ascii) : bool :=
  let a := nat_of_ascii c1 in
  let b := nat_of_ascii c2 in
  ((a =? 194)%nat && ((b =? 133)%nat || (b =? 160)%nat))%bool.

(** In three bytes: U+1680 (E1 9A 80), U+2000 to U+200A (E2 80 80 to
    E2 80 8A), U+2028, U+2029 and U+202F (E2 80 A8, A9, AF), U+205F
    (E2 81 9F) and U+3000 (E3 80 80). *)
Definition is_space3 (c1 c2 c3 : ascii) : bool :=
  let a := nat_of_ascii c1 in
  let b := nat_of_ascii c2 in
  let c := nat_of_ascii c3 in
  (((a =? 225)%nat && (b =? 154)%nat && (c =? 128)%nat)
   || ((a =? 226)%nat && (b =? 128)%nat
       && (((128 <=? c)%nat && (c <=? 138)%nat)
           || (c =? 168)%nat || (c =? 169)%nat || (c =? 175)%nat))
   || ((a =? 226)%nat && (b =? 129)%nat && (c =? 159)%nat)
   || ((a =? 227)%nat && (b =? 128)%nat && (c =? 128)%nat))%bool.

(** The text is exactly one whitespace character. *)
Definition is_whitespace (s : string) : bool :=
  match s with
  | String c1 EmptyString => is_space c1
  | String c1 (String c2 EmptyString) => is_space2 c1 c2
  | String c1 (String c2 (String c3 EmptyString)) => is_space3 c1 c2 c3
  | _ => false
  end.

(** The text consists of whitespace characters only. *)
Inductive whitespace_only : string -> Prop :=
| ws_nil : whitespace_only ""
| ws_cons w s :
    is_whitespace w = true -> whitespace_only s -> whitespace_only (w +:+ s).

(** [str.lstrip()]: the leading whitespace characters are removed. *)
Fixpoint lstrip (s : string) : string :=
  match s with
  | EmptyString => EmptyString
  | String c1 s1 =>
      if is_space c1 then lstrip s1
      else
        match s1 with
        | String c2 s2 =>
            if is_space2 c1 c2 then lstrip s2
            else
              match s2 with
              | String c3 s3 => if is_space3 c1 c2 c3 then lstrip s3 else s
              | EmptyString => s
              end
        | EmptyString => s
        end
  end.

(** [str.rstrip()]: the trailing whitespace characters are removed.  The
    text is read from its end: what is left of the rest, with the byte in
    front of it, is dropped when it is one whitespace character. *)
Fixpoint rstrip (s : string) : string :=
  match s with
  | EmptyString => EmptyString
  | String c s' =>
      let r := String c (rstrip s') in
      if is_whitespace r then EmptyString else r
  end.

(** [str.strip()]. *)
Definition strip (s : string) : string := rstrip (lstrip s).

End Py.

(* ===================================================================== *)
(** * The browser driver as an oracle *)
(* ===================================================================== *)

Module Driver.

(** The exception classes the bot names, and [KeyError] for a missing
    dictionary key. *)
Inductive ExnClass :=
| TimeoutException
| NoSuchElementException
| ElementClickInterceptedException
| StaleElementReferenceException
| KeyError.

Record Exn := mkExn { exn_class : ExnClass; exn_str : string }.

Definition class_eqb (a b : ExnClass) : bool :=
  match a, b with
  | TimeoutException, TimeoutException
  | NoSuchElementException, NoSuchElementException
  | ElementClickInterceptedException, ElementClickInterceptedException
  | StaleElementReferenceException, StaleElementReferenceException
  | KeyError, KeyError => true
  | _, _ => false
  end.

(** [except (A, B, ...)]: is the raised exception one of the listed
    classes. *)
Definition handles (classes : list ExnClass) (e : Exn) : bool :=
  existsb (class_eqb (exn_class e)) classes.

(** What one driver call does: it answers, or it raises. *)
Inductive reply (A : Type) :=
| Ok (a : A)
| Err (e : Exn).
Arguments Ok {A} a.
Arguments Err {A} e.

(** The selectors of [linkedin_job_bot.py]. *)
Inductive Selector :=
| TopCard                (* .jobs-unified-top-card *)
| EasyApplyButton        (* button[data-control-name='jobdetails_topcard_inapply'] *)
| EasyApplyModal         (* .jobs-easy-apply-content *)
| ReviewButton           (* button[aria-label='Review your application'] *)
| SubmitButton           (* button[aria-label='Submit application'] *)
| ConfirmationModal      (* .artdeco-modal__content *)
| SuccessText            (* //*[contains(text(), 'Application submitted')] *)
| DismissButton          (* button[aria-label='Dismiss'] *)
| RequiredFieldError     (* .artdeco-text-input--error *)
| LabelFor (id : string) (* label[for='<id>'] *)
| PhoneInput             (* input[type='tel'] *)
| FileInput              (* input[type='file'] *)
| FollowCompanyLabel     (* label[for='follow-company-checkbox'] *)
| NextButton             (* button[aria-label='Continue to next step'] *)
| DiscardButton.         (* button[data-control-name='discard_application_confirm_btn'] *)

(** The log of what the bot asks of the browser, oldest first. *)
Inductive Event :=
| EGet (url : string)                    (* driver.get(url) *)
| EWait (s : Selector)                   (* wait.until(...) *)
| EFind (s : Selector)                   (* find_element / find_elements *)
| ERead (s : Selector)                   (* get_attribute / text on an element *)
| EClick (s : Selector)                  (* element.click() *)
| ESendKeys (s : Selector) (text : string)
| ESleep (lo hi : nat)                   (* time.sleep, bounds in tenths of a second *)
| EScript (code : string)                (* driver.execute_script(code, ...) *)
| EQuit.                                 (* driver.quit() *)

(** State threaded through the bot: the event log, the wizard's [notes]
    list, and the checkbox the bot is handling (in the wizard: the
    follow-company checkbox) as the page last showed or the bot last left
    it, [None] until the control has been seen. *)
Record St := mkSt {
  trace : list Event;
  notes : list string;
  dom_checkbox : option bool
}.

Definition st0 : St := mkSt [] [] None.

(** How a Python call ends: it returns, it raises, or (for the loops of
    the model) the fuel ran out before it ended. *)
Inductive result (A : Type) :=
| Returned (a : A)
| Raised (e : Exn)
| OutOfFuel.
Arguments Returned {A} a.
Arguments Raised {A} e.
Arguments OutOfFuel {A}.

(** A state and exception monad: the state survives a raise, as the
    mutated [notes] list and the browser do. *)
Definition M (A : Type) : Type := St -> result A * St.

Definition ret {A} (a : A) : M A := fun st => (Returned a, st).

Definition bind {A B} (c : M A) (k : A -> M B) : M B :=
  fun st =>
    match c st with
    | (Returned a, st') => k a st'
    | (Raised e, st') => (Raised e, st')
    | (OutOfFuel, st') => (OutOfFuel, st')
    end.

Definition raise {A} (e : Exn) : M A := fun st => (Raised e, st).

(** [try: c except classes as e: h e]. *)
Definition try_except {A} (c : M A) (classes : list ExnClass) (h : Exn -> M A) : M A :=
  fun st =>
    match c st with
    | (Raised e, st') => if handles classes e then h e st' else (Raised e, st')
    | r => r
    end.

(** [try: c except Exception: return dflt]. *)
Definition try_else {A} (c : M A) (dflt : A) : M A :=
  fun st =>
    match c st with
    | (Raised _, st') => (Returned dflt, st')
    | r => r
    end.

(** [try: c except Exception: pass]. *)
Definition try_pass (c : M unit) : M unit :=
  fun st =>
    match c st with
    | (Raised _, st') => (Returned tt, st')
    | r => r
    end.

(** The events [evs] are appended to the log. *)
Definition log (evs : list Event) (st : St) : St :=
  mkSt (trace st ++ evs) (notes st) (dom_checkbox st).

Definition emit (ev : Event) : M unit :=
  fun st => (Returned tt, log [ev] st).

(** [notes.append(s)]. *)
Definition note (s : string) : M unit :=
  fun st => (Returned tt, mkSt (trace st) (notes st ++ [s]) (dom_checkbox st)).

Definition get_notes : M (list string) :=
  fun st => (Returned (notes st), st).

(** [notes = []]. *)
Definition fresh_notes : M unit :=
  fun st => (Returned tt, mkSt (trace st) [] (dom_checkbox st)).

Definition set_checkbox (b : bool) : M unit :=
  fun st => (Returned tt, mkSt (trace st) (notes st) (Some b)).

(** Issue a driver call: it is logged, then it answers as the oracle
    says. *)
Definition perform {A} (ev : Event) (r : reply A) : M A :=
  fun st =>
    match r with
    | Ok a => (Returned a, log [ev] st)
    | Err e => (Raised e, log [ev] st)
    end.

(** Events on the controls of a required field: the flagged inputs, their
    labels and the phone inputs. *)
Definition field_selector (s : Selector) : bool :=
  match s with
  | RequiredFieldError | LabelFor _ | PhoneInput => true
  | _ => false
  end.

Definition resolves_field (ev : Event) : bool :=
  match ev with
  | EWait s | EFind s | ERead s | EClick s | ESendKeys s _ => field_selector s
  | _ => false
  end.

(** Number of clicks on the submit button in an event log. *)
Definition submit_clicks (tr : list Event) : nat :=
  length (List.filter (fun ev => match ev with
                                 | EClick SubmitButton => true
                                 | _ => false
                                 end) tr).

(** An event that touches no required-field control. *)
Definition not_field (ev : Event) : Prop := resolves_field ev = false.

(** A computation that only appends to the event log, and only events
    that satisfy [P]. *)
Definition emits {A} (P : Event -> Prop) (c : M A) : Prop :=
  forall st, exists new, trace (snd (c st)) = trace st ++ new /\ Forall P new.

Definition appends {A} (c : M A) : Prop := emits (fun _ => True) c.

(** Clicking a checkbox, or the label bound to it, toggles it: the page
    showed [shown]; after a click that does not raise it shows the
    opposite.  A click that raises leaves it as it was. *)
Definition click_checkbox (sel : Selector) (shown : bool) (r : reply unit) : M unit :=
  bind (set_checkbox shown) (fun _ =>
  bind (perform (EClick sel) r) (fun _ =>
  set_checkbox (negb shown))).

End Driver.

Notation "x <- c ;; k" := (Driver.bind c (fun x => k))
  (at level 20, c at level 99, k at level 200, only parsing).

(* ===================================================================== *)
(** * utils.py *)
(* ===================================================================== *)

Module Utils.

(** [get_answer_for_question(question, default_answers)], line by line:
    the prompt is lower-cased, the five keyword groups are tried in the
    order of the source, and the answer is [default_answers.get(field)].
    [lower] is Python's [str.lower]; nothing is assumed of it. *)
Definition get_answer_for_question (lower : string -> string)
    (question : string) (default_answers : gmap string string) : option string :=
  let question := lower question in
  if Py.any_in ["years of experience"; "how long"; "work experience"] question
  then default_answers !! "years_of_experience"
  else if Py.any_in ["education"; "degree"; "qualification"] question
  then default_answers !! "education_level"
  else if Py.any_in ["relocate"; "relocation"; "willing to move"] question
  then default_answers !! "willing_to_relocate"
  else if Py.any_in ["sponsorship"; "visa"; "work authorization"] question
  then default_answers !! "require_sponsorship"
  else if Py.any_in ["remote"; "work from home"; "telecommute"] question
  then default_answers !! "remote_work"
  else None.

(** The keyword table as the specification words it: five categories in
    a fixed order, each with its keywords and its profile field. *)
Inductive Category := Experience | Education | Relocation | Sponsorship | RemoteWork.

Definition category_order : list Category :=
  [Experience; Education; Relocation; Sponsorship; RemoteWork].

Definition keywords (c : Category) : list string :=
  match c with
  | Experience => ["years of experience"; "how long"; "work experience"]
  | Education => ["education"; "degree"; "qualification"]
  | Relocation => ["relocate"; "relocation"; "willing to move"]
  | Sponsorship => ["sponsorship"; "visa"; "work authorization"]
  | RemoteWork => ["remote"; "work from home"; "telecommute"]
  end.

Definition profile_field (c : Category) : string :=
  match c with
  | Experience => "years_of_experience"
  | Education => "education_level"
  | Relocation => "willing_to_relocate"
  | Sponsorship => "require_sponsorship"
  | RemoteWork => "remote_work"
  end.

(** First category of the table, in table order, one of whose keywords
    occurs in the (already lower-cased) text. *)
Definition first_category (text : string) : option Category :=
  List.find (fun c => Py.any_in (keywords c) text) category_order.

(** A profile that has an entry for the field of every category. *)
Definition complete_profile (profile : gmap string string) : Prop :=
  forall c, is_Some (profile !! profile_field c).

(** The resolver as the specification words it: look the first matching
    category up in the profile. *)
Definition resolve_spec (lower : string -> string)
    (promptText : string) (profile : gmap string string) : option string :=
  match first_category (lower promptText) with
  | Some c => profile !! profile_field c
  | None => None
  end.

Import Driver.

(** What the browser shows and answers for one checkbox addressed by a
    locator.  (The helper serves radio buttons as well; the state kept in
    [dom_checkbox] follows a checkbox, which a click toggles, and says
    nothing of a radio button, which a click never deselects.) *)
Record CheckboxObs := {
  cb_wait : reply unit;        (* wait.until(presence_of_element_located) *)
  cb_selected : reply bool;    (* element.is_selected() *)
  cb_scroll : reply unit;      (* execute_script(scrollIntoView) *)
  cb_click : reply unit;       (* element.click() *)
  cb_js_click : reply unit     (* execute_script(arguments[0].click()) *)
}.

(** [random_delay(lo, hi)]. *)
Definition random_delay (lo hi : nat) : M unit := emit (ESleep lo hi).

(** [wait_for_element(driver, locator)]: the element, or [None] on a
    timeout. *)
Definition wait_for_element (sel : Selector) (o : CheckboxObs) : M (option CheckboxObs) :=
  try_except
    (_ <- perform (EWait sel) (cb_wait o) ;; ret (Some o))
    [TimeoutException]
    (fun _ => ret None).

(** [safe_click(driver, element)]: a native click, with a JavaScript
    click as fallback when the native one is intercepted or stale. *)
Definition safe_click (sel : Selector) (shown : bool) (o : CheckboxObs) : M bool :=
  try_except
    (_ <- perform (EScript "arguments[0].scrollIntoView(true);") (cb_scroll o) ;;
     _ <- random_delay 5 10 ;;
     _ <- click_checkbox sel shown (cb_click o) ;;
     _ <- random_delay 10 20 ;;
     ret true)
    [ElementClickInterceptedException; StaleElementReferenceException]
    (fun _ =>
       try_else
         (_ <- perform (EScript "arguments[0].click();") (cb_js_click o) ;;
          _ <- set_checkbox (negb shown) ;;
          _ <- random_delay 10 20 ;;
          ret true)
         false).

(** [check_radio_or_checkbox(driver, locator, check)], on a checkbox. *)
Definition check_radio_or_checkbox (sel : Selector) (o : CheckboxObs) (check : bool) : M bool :=
  try_else
    (element <- wait_for_element sel o ;;
     match element with
     | None => ret false
     | Some el =>
         selected <- perform (ERead sel) (cb_selected el) ;;
         _ <- set_checkbox selected ;;
         if negb (Bool.eqb selected check)
         then safe_click sel selected el
         else ret true
     end)
    false.

End Utils.

(* ===================================================================== *)
(** * config.py *)
(* ===================================================================== *)

Module Config.

(** [os.getenv(name, dflt)], the environment being a dictionary. *)
Definition getenv (env : gmap string string) (name dflt : string) : string :=
  default dflt (env !! name).

(** [DEFAULT_ANSWERS]: every field is read from the environment with a
    default, so every field is present. *)
Definition DEFAULT_ANSWERS (env : gmap string string) : gmap string string :=
  <["years_of_experience" := getenv env "DEFAULT_YEARS_EXPERIENCE" "2"]>
  (<["education_level" := getenv env "DEFAULT_EDUCATION" "Bachelor's"]>
  (<["willing_to_relocate" := getenv env "WILLING_TO_RELOCATE" "No"]>
  (<["require_sponsorship" := getenv env "REQUIRE_SPONSORSHIP" "No"]>
  (<["remote_work" := getenv env "REMOTE_WORK" "Yes"]> ∅)))).

End Config.

(* ===================================================================== *)
(** * linkedin_job_bot.py *)
(* ===================================================================== *)

Module Bot.

Import Driver.

(** Values stored in a [job_data] dictionary. *)
Inductive value :=
| VStr (s : string)
| VBool (b : bool).

(** Python truth value. *)
Definition truthy (v : value) : bool :=
  match v with
  | VStr s => Py.nonempty s
  | VBool b => b
  end.

(** [str(v)], as an f-string formats it. *)
Definition str (v : value) : string :=
  match v with
  | VStr s => s
  | VBool true => "True"
  | VBool false => "False"
  end.

(** A listing is the dictionary built by [_extract_job_data]. *)
Abbreviation JobData := (gmap string value).

(** [job_data.get(key, default)]. *)
Definition get (job_data : JobData) (key : string) (dflt : value) : value :=
  default dflt (job_data !! key).

(** [job_data[key]]: raises [KeyError] when the key is missing. *)
Definition subscript (job_data : JobData) (key : string) : M value :=
  match job_data !! key with
  | Some v => ret v
  | None => raise (mkExn KeyError key)
  end.

(** [job_data.get("has_easy_apply", False)] as a condition. *)
Definition has_easy_apply (job_data : JobData) : bool :=
  truthy (get job_data "has_easy_apply" (VBool false)).

(** The bot's own settings read by the wizard. *)
Record Settings := {
  phone_number : string;
  resume_path : string
}.

(** ** What the browser shows during one wizard cycle *)

(** One field flagged [.artdeco-text-input--error]. *)
Record FieldObs := {
  field_id : reply string;      (* field.get_attribute("id") *)
  field_label : reply string    (* find_element(label[for=id]).text *)
}.

(** One [input[type='tel']]. *)
Record PhoneObs := {
  phone_value : reply string;   (* get_attribute("value") *)
  phone_send_keys : reply unit
}.

(** The follow-company label: whether its checkbox is selected when the
    bot reaches it, and how a click on it replies. *)
Record FollowObs := {
  follow_selected : bool;
  follow_click : reply unit
}.

(** Every query of one cycle of the step loop, in the order the loop
    asks.  A list is what [find_elements] returns; the entry of an
    element is how the command the bot issues on it replies. *)
Record Screen := {
  review_button : list (reply unit);
  submit_button : list (reply unit);
  confirmation : reply unit;            (* wait.until(.artdeco-modal__content) *)
  success_elements : list unit;
  close_button : reply (reply unit);    (* find_element(Dismiss), then click *)
  required_fields : list FieldObs;
  phone_inputs : list PhoneObs;
  resume_uploads : list (reply unit);
  follow_checkboxes : list FollowObs;
  next_button : list (reply unit);
  exit_buttons : list (reply unit);
  discard_buttons : list (reply unit)
}.

(** How one cycle of the [while] loop ends. *)
Inductive Step :=
| Return (r : bool * string)   (* return r *)
| Continue                     (* current_step += 1; continue *)
| Again.                       (* end of the body: test the loop condition again *)

(** ** The wizard, [_process_application_steps] *)

(** "Check if we're on the review step". *)
Definition review_step (s : Screen) : M unit :=
  _ <- emit (EFind ReviewButton) ;;
  match review_button s with
  | r :: _ =>
      _ <- perform (EClick ReviewButton) r ;;
      emit (ESleep 10 20)
  | [] => ret tt
  end.

(** "Wait for confirmation" and "Check for success message", after the
    submit button has been clicked: [Some r] when the loop returns from
    here. *)
Definition confirm_submission (s : Screen) : M (option (bool * string)) :=
  _ <- perform (EWait ConfirmationModal) (confirmation s) ;;
  _ <- emit (EFind SuccessText) ;;
  match success_elements s with
  | _ :: _ =>
      close <- perform (EFind DismissButton) (close_button s) ;;
      _ <- perform (EClick DismissButton) close ;;
      ret (Some (true, "Application submitted successfully"))
  | [] =>
      _ <- note "Submission status unclear" ;;
      ret None
  end.

(** "Check if we're on the submit step". *)
Definition submit_step (s : Screen) : M (option (bool * string)) :=
  _ <- emit (EFind SubmitButton) ;;
  match submit_button s with
  | r :: _ =>
      _ <- perform (EClick SubmitButton) r ;;
      confirm_submission s
  | [] => ret None
  end.

(** [for field in required_fields: ...]. *)
Fixpoint note_required_fields (fields : list FieldObs) : M unit :=
  match fields with
  | [] => ret tt
  | f :: rest =>
      id <- perform (ERead RequiredFieldError) (field_id f) ;;
      text <- perform (EFind (LabelFor id)) (field_label f) ;;
      _ <- note ("Required field: " +:+ Py.strip text) ;;
      note_required_fields rest
  end.

(** [for phone_input in phone_inputs: ...]. *)
Fixpoint fill_phone_inputs (phone : string) (inputs : list PhoneObs) : M unit :=
  match inputs with
  | [] => ret tt
  | p :: rest =>
      v <- perform (ERead PhoneInput) (phone_value p) ;;
      _ <- (if negb (Py.nonempty v)
            then _ <- perform (ESendKeys PhoneInput phone) (phone_send_keys p) ;;
                 note "Filled in phone number"
            else ret tt) ;;
      fill_phone_inputs phone rest
  end.

(** "Check for any required fields". *)
Definition required_fields_step (cfg : Settings) (s : Screen) : M unit :=
  _ <- emit (EFind RequiredFieldError) ;;
  match required_fields s with
  | _ :: _ =>
      _ <- note_required_fields (required_fields s) ;;
      _ <- emit (EFind PhoneInput) ;;
      if (match phone_inputs s with [] => false | _ => true end
          && Py.nonempty (phone_number cfg))%bool
      then fill_phone_inputs (phone_number cfg) (phone_inputs s)
      else ret tt
  | [] => ret tt
  end.

(** [for upload in resume_uploads: ...]. *)
Fixpoint upload_resumes (path : string) (uploads : list (reply unit)) : M unit :=
  match uploads with
  | [] => ret tt
  | u :: rest =>
      _ <- perform (ESendKeys FileInput path) u ;;
      _ <- note "Uploaded resume" ;;
      _ <- emit (ESleep 10 20) ;;
      upload_resumes path rest
  end.

(** "Check for resume upload". *)
Definition resume_step (cfg : Settings) (s : Screen) : M unit :=
  _ <- emit (EFind FileInput) ;;
  if (match resume_uploads s with [] => false | _ => true end
      && Py.nonempty (resume_path cfg))%bool
  then upload_resumes (resume_path cfg) (resume_uploads s)
  else ret tt.

(** "Check for follow/unfollow company checkbox": the label is clicked
    whenever it is found. *)
Definition follow_step (s : Screen) : M unit :=
  _ <- emit (EFind FollowCompanyLabel) ;;
  match follow_checkboxes s with
  | f :: _ =>
      _ <- click_checkbox FollowCompanyLabel (follow_selected f) (follow_click f) ;;
      note "Unchecked 'Follow company'"
  | [] => ret tt
  end.

(** "Try to exit the application": dismiss, then confirm the discard if
    prompted.  The same lines serve the manual-intervention branch and
    the exception handler. *)
Definition exit_application (s : Screen) : M unit :=
  _ <- emit (EFind DismissButton) ;;
  match exit_buttons s with
  | r :: _ =>
      _ <- perform (EClick DismissButton) r ;;
      _ <- emit (ESleep 10 10) ;;
      _ <- emit (EFind DiscardButton) ;;
      match discard_buttons s with
      | d :: _ => perform (EClick DiscardButton) d
      | [] => ret tt
      end
  | [] => ret tt
  end.

(** "Click the Next/Continue button", and what follows when there is
    none. *)
Definition next_step (s : Screen) : M Step :=
  _ <- emit (EFind NextButton) ;;
  match next_button s with
  | r :: _ =>
      _ <- perform (EClick NextButton) r ;;
      _ <- emit (ESleep 10 20) ;;
      ret Continue
  | [] =>
      match submit_button s with
      | [] =>
          _ <- note "Requires manual intervention" ;;
          _ <- exit_application s ;;
          ns <- get_notes ;;
          ret (Return (false, "Application requires manual intervention: "
                              +:+ Py.join ", " ns))
      | _ :: _ => ret Again
      end
  end.

(** The [try] block of one cycle. *)
Definition cycle_try (cfg : Settings) (s : Screen) : M Step :=
  _ <- review_step s ;;
  submitted <- submit_step s ;;
  match submitted with
  | Some r => ret (Return r)
  | None =>
      _ <- required_fields_step cfg s ;;
      _ <- resume_step cfg s ;;
      _ <- follow_step s ;;
      next_step s
  end.



(** The [except] clause of the step loop. *)
Definition wizard_excepts : list ExnClass :=
  [TimeoutException; NoSuchElementException; ElementClickInterceptedException].

(** One cycle: the [try] block with its [except] handler. *)
Definition cycle (cfg : Settings) (current_step : nat) (s : Screen) : M Step :=
  try_except (cycle_try cfg s) wizard_excepts
    (fun e =>
       _ <- note ("Error in step " +:+ Py.str_of_nat current_step +:+ ": " +:+ exn_str e) ;;
       _ <- try_pass (exit_application s) ;;
       ns <- get_notes ;;
       ret (Return (false, "Error during application: " +:+ Py.join ", " ns))).

Definition max_steps : nat := 10.

(** [while current_step <= max_steps: ...].  [screens n] is what the
    browser shows during the n-th cycle of this attempt, [n_cycle] counts
    the cycles run so far. *)
Fixpoint step_loop (fuel : nat) (cfg : Settings) (screens : nat -> Screen)
    (n_cycle current_step : nat) : M (bool * string) :=
  if (current_step <=? max_steps)%nat then
    match fuel with
    | O => fun st => (OutOfFuel, st)
    | S fuel' =>
        step <- cycle cfg current_step (screens n_cycle) ;;
        match step with
        | Return r => ret r
        | Continue => step_loop fuel' cfg screens (S n_cycle) (S current_step)
        | Again => step_loop fuel' cfg screens (S n_cycle) current_step
        end
    end
  else ret (false, "Application process took too many steps").

Definition _process_application_steps (fuel : nat) (cfg : Settings)
    (screens : nat -> Screen) : M (bool * string) :=
  _ <- fresh_notes ;;
  step_loop fuel cfg screens 0 1.

(** ** The navigator, [apply_to_job] *)

(** What the browser does during one application, from the navigation to
    the job page to the last wizard cycle, and the clock reading taken when
    the attempt is logged. *)
Record ApplySession := {
  page_load : reply unit;          (* driver.get(url) *)
  top_card_wait : reply unit;      (* wait.until(.jobs-unified-top-card) *)
  easy_apply_wait : reply unit;    (* wait.until(clickable Easy Apply) *)
  easy_apply_click : reply unit;
  modal_wait : reply unit;         (* wait.until(.jobs-easy-apply-content) *)
  wizard_screens : nat -> Screen;
  log_date : string                (* datetime.now().strftime(...) *)
}.

Definition apply_excepts : list ExnClass :=
  [TimeoutException; NoSuchElementException; ElementClickInterceptedException].

Definition apply_to_job (fuel : nat) (cfg : Settings) (job_data : JobData)
    (sess : ApplySession) : M (bool * string) :=
  if negb (has_easy_apply job_data) then
    ret (false, "Not an Easy Apply job")
  else
    try_except
      ((* logger.info(f"... {job_data['title']} at {job_data['company']}") *)
       _ <- subscript job_data "title" ;;
       _ <- subscript job_data "company" ;;
       url <- subscript job_data "url" ;;
       _ <- perform (EGet (str url)) (page_load sess) ;;
       _ <- perform (EWait TopCard) (top_card_wait sess) ;;
       _ <- perform (EWait EasyApplyButton) (easy_apply_wait sess) ;;
       _ <- perform (EClick EasyApplyButton) (easy_apply_click sess) ;;
       _ <- perform (EWait EasyApplyModal) (modal_wait sess) ;;
       _process_application_steps fuel cfg (wizard_screens sess))
      apply_excepts
      (fun e => ret (false, "Error: " +:+ exn_str e)).

(** ** The recorder, [log_application] *)

Record Row := {
  job_title : value;
  company : value;
  location : value;
  application_status : string;
  application_date : string;
  job_url : value;
  row_notes : string
}.

(** The in-memory list [applications_data] and the rows appended to the
    CSV file after its header. *)
Record Ledger := {
  applications_data : list Row;
  csv_rows : list Row
}.

Definition log_application (job_data : JobData) (status : bool) (notes : string)
    (now : string) (l : Ledger) : Ledger :=
  let application_data :=
    {| job_title := get job_data "title" (VStr "Unknown");
       company := get job_data "company" (VStr "Unknown");
       location := get job_data "location" (VStr "Unknown");
       application_status := if status then "Success" else "Failed";
       application_date := now;
       job_url := get job_data "url" (VStr "");
       row_notes := notes |} in
  {| applications_data := applications_data l ++ [application_data];
     csv_rows := csv_rows l ++ [application_data] |}.

(** The end-of-run summary: successful and failed applications. *)
Definition successful_applications (l : Ledger) : nat :=
  length (List.filter (fun app => String.eqb (application_status app) "Success")
                      (applications_data l)).

Definition failed_applications (l : Ledger) : nat :=
  (length (applications_data l) - successful_applications l)%nat.

(** ** The collector, [scroll_through_jobs] *)

(** The job details pane shown after a card has been clicked. *)
Record Details := {
  details_wait : reply unit;       (* wait.until(.jobs-unified-top-card) *)
  title_text : reply string;
  company_text : reply string;
  location_text : reply string;
  easy_apply_button : reply unit;  (* find_element(Easy Apply button) *)
  current_url : string
}.

(** One element of [find_elements(.jobs-search-results__list-item)]. *)
Record Card := {
  scroll_into_view : reply unit;
  card_click : reply unit;
  details : Details
}.

(** What the result list shows during one cycle of the scroll loop. *)
Record Page := {
  job_cards : reply (list Card);
  new_height : Z;                        (* scrollHeight after scrolling down *)
  show_more_button : reply (reply unit)  (* find_element(show more), then click *)
}.

Record Feed := {
  initial_wait : reply unit;
  initial_height : Z;
  pages : nat -> Page
}.

(** Exceptions in code that changes no bot state: bind on replies. *)
Definition rbind {A B} (r : reply A) (k : A -> reply B) : reply B :=
  match r with
  | Ok a => k a
  | Err e => Err e
  end.

Definition rcatch {A} (r : reply A) (classes : list ExnClass) (h : Exn -> reply A) : reply A :=
  match r with
  | Err e => if handles classes e then h e else Err e
  | ok => ok
  end.

Definition _extract_job_data (d : Details) : reply (option JobData) :=
  rcatch
    (rbind (details_wait d) (fun _ =>
     rbind (title_text d) (fun title =>
     rbind (company_text d) (fun company =>
     rbind (location_text d) (fun location =>
     rbind (rcatch (rbind (easy_apply_button d) (fun _ => Ok true))
                   [NoSuchElementException] (fun _ => Ok false))
           (fun has_easy_apply =>
     Ok (Some (<["title" := VStr (Py.strip title)]>
              (<["company" := VStr (Py.strip company)]>
              (<["location" := VStr (Py.strip location)]>
              (<["has_easy_apply" := VBool has_easy_apply]>
              (<["url" := VStr (current_url d)]> ∅))))))))))))
    [TimeoutException; NoSuchElementException]
    (fun _ => Ok None).

(** The body of the [for] loop for one card: [Ok (Some job_data)] when a
    listing is appended, [Ok None] when the card is skipped, [Err] when an
    exception leaves the loop. *)
Definition process_card (c : Card) : reply (option JobData) :=
  rcatch
    (rbind (scroll_into_view c) (fun _ =>
     rbind (card_click c) (fun _ =>
     _extract_job_data (details c))))
    [StaleElementReferenceException; ElementClickInterceptedException;
     NoSuchElementException]
    (fun _ => Ok None).

(** [for i in range(lo, hi): ... job_cards[i] ...], given the cards
    [job_cards[lo:hi]]; [job_count] and [job_listings] are updated as the
    loop goes. *)
Fixpoint process_cards (cards : list Card) (job_count : nat) (job_listings : list JobData)
  : option Exn * nat * list JobData :=
  match cards with
  | [] => (None, job_count, job_listings)
  | c :: rest =>
      match process_card c with
      | Ok (Some job_data) => process_cards rest (S job_count) (job_listings ++ [job_data])
      | Ok None => process_cards rest job_count job_listings
      | Err e => (Some e, job_count, job_listings)
      end
  end.

(** [l[lo:hi]]. *)
Definition slice {A} (l : list A) (lo hi : nat) : list A :=
  firstn (hi - lo) (skipn lo l).

(** How far a loop of the model has come. *)
Inductive Status :=
| Finished
| Aborted (e : Exn)
| Running.

(** [while job_count < max_jobs: ...]; [n_cycle] counts the cycles. *)
Fixpoint scroll_loop (fuel : nat) (pages : nat -> Page) (max_jobs : Z)
    (n_cycle : nat) (last_height : Z) (job_count : nat) (job_listings : list JobData)
  : Status * list JobData :=
  if Z.of_nat job_count <? max_jobs then
    match fuel with
    | O => (Running, job_listings)
    | S fuel' =>
        let p := pages n_cycle in
        match job_cards p with
        | Err e =>
            if handles [NoSuchElementException] e
            then (Finished, job_listings)
            else (Aborted e, job_listings)
        | Ok cards =>
            let hi := Z.to_nat (Z.min (Z.of_nat (length cards)) max_jobs) in
            match process_cards (slice cards job_count hi) job_count job_listings with
            | (Some e, _, job_listings') => (Aborted e, job_listings')
            | (None, job_count', job_listings') =>
                if new_height p =? last_height then
                  match rbind (show_more_button p) (fun click => click) with
                  | Ok _ =>
                      scroll_loop fuel' pages max_jobs (S n_cycle) (new_height p)
                                  job_count' job_listings'
                  | Err e =>
                      if handles [NoSuchElementException] e
                      then (Finished, job_listings')
                      else (Aborted e, job_listings')
                  end
                else
                  scroll_loop fuel' pages max_jobs (S n_cycle) (new_height p)
                              job_count' job_listings'
            end
        end
    end
  else (Finished, job_listings).

Definition scroll_through_jobs (fuel : nat) (feed : Feed) (max_jobs : Z)
  : Status * list JobData :=
  match initial_wait feed with
  | Err e =>
      if handles [TimeoutException] e then (Finished, []) else (Aborted e, [])
  | Ok _ => scroll_loop fuel (pages feed) max_jobs 0 (initial_height feed) 0 []
  end.

(** ** The orchestrator, [run] *)

(** The world of one run.  Session establishment and search execution
    are outside the core: the world says what they return, [True] or
    [False]; their own driver calls are modelled apart, in [Session],
    and are not part of the event log of a run, which holds the commands
    of [apply_to_job] and its wizard, the pacing pauses and the final
    [driver.quit()].  [sessions n] is what the browser does during the
    n-th call of [apply_to_job]. *)
Record World := {
  verify_login : bool;
  navigate_to_jobs : bool;
  search_jobs : string -> string -> bool -> bool;
  feed : Feed;
  sessions : nat -> ApplySession
}.

Record RunState := {
  browser : St;
  ledger : Ledger;
  application_count : Z;
  n_applied : nat               (* calls of apply_to_job so far *)
}.

Definition run_state0 : RunState :=
  {| browser := st0;
     ledger := {| applications_data := []; csv_rows := [] |};
     application_count := 0;
     n_applied := 0 |}.

(** The pacing delay between applications. *)
Definition pacing : Event := ESleep 30 70.

Definition sleep (lo hi : nat) (st : St) : St := log [ESleep lo hi] st.

(** [for job_data in job_listings: ...]. *)
Fixpoint run_loop (fuel : nat) (cfg : Settings) (w : World) (max_applications : Z)
    (job_listings : list JobData) (rs : RunState) : result unit * RunState :=
  match job_listings with
  | [] => (Returned tt, rs)
  | job_data :: rest =>
      if application_count rs >=? max_applications then (Returned tt, rs)
      else if has_easy_apply job_data then
        let sess := sessions w (n_applied rs) in
        match apply_to_job fuel cfg job_data sess (browser rs) with
        | (Returned (status, notes), st') =>
            run_loop fuel cfg w max_applications rest
              {| browser := sleep 30 70 st';
                 ledger := log_application job_data status notes (log_date sess) (ledger rs);
                 application_count :=
                   if status then application_count rs + 1 else application_count rs;
                 n_applied := S (n_applied rs) |}
        | (Raised e, st') =>
            (Raised e,
             {| browser := st'; ledger := ledger rs;
                application_count := application_count rs;
                n_applied := S (n_applied rs) |})
        | (OutOfFuel, st') =>
            (OutOfFuel,
             {| browser := st'; ledger := ledger rs;
                application_count := application_count rs;
                n_applied := S (n_applied rs) |})
        end
      else run_loop fuel cfg w max_applications rest rs
  end.

(** The listings the run discovers. *)
Definition discovered (fuel : nat) (w : World) (max_applications : Z)
  : Status * list JobData :=
  scroll_through_jobs fuel (feed w) (max_applications * 2).

(** The [try] block of [run]. *)
Definition run_try (fuel : nat) (cfg : Settings) (w : World)
    (keywords location : string) (max_applications : Z) : result unit * RunState :=
  if negb (verify_login w) then (Returned tt, run_state0)
  else if negb (navigate_to_jobs w) then (Returned tt, run_state0)
  else if negb (search_jobs w keywords location true) then (Returned tt, run_state0)
  else
    match discovered fuel w max_applications with
    | (Finished, job_listings) =>
        run_loop fuel cfg w max_applications job_listings run_state0
    | (Aborted e, _) => (Raised e, run_state0)
    | (Running, _) => (OutOfFuel, run_state0)
    end.

(** [finally: self.driver.quit()]. *)
Definition quit (rs : RunState) : RunState :=
  {| browser := log [EQuit] (browser rs);
     ledger := ledger rs;
     application_count := application_count rs;
     n_applied := n_applied rs |}.

Definition run (fuel : nat) (cfg : Settings) (w : World)
    (keywords location : string) (max_applications : Z) : result unit * RunState :=
  match run_try fuel cfg w keywords location max_applications with
  | (OutOfFuel, rs) => (OutOfFuel, rs)
  | (r, rs) => (r, quit rs)
  end.

(** The listing id: the job URL, as the recorder reads it. *)
Definition listing_url (job_data : JobData) : value :=
  get job_data "url" (VStr "").

(** Session establishment and search execution succeeded. *)
Definition session_ready (w : World) (keywords location : string) : bool :=
  (verify_login w && navigate_to_jobs w && search_jobs w keywords location true)%bool.

(** The listing a card yields when it is processed, if any. *)
Definition card_listing (c : Card) : option JobData :=
  match process_card c with
  | Ok (Some job_data) => Some job_data
  | _ => None
  end.

(** Every snapshot of the result list is an initial segment of one
    master list: the view only grows by appending. *)
Definition append_only (feed : Feed) (master : list Card) : Prop :=
  forall n cards, job_cards (pages feed n) = Ok cards ->
                  exists k, cards = firstn k master.

(** Every card of the list yields a listing. *)
Definition all_extract (cards : list Card) : bool :=
  forallb (fun c => match card_listing c with Some _ => true | None => false end) cards.

(** The listings of a list of cards, in order. *)
Definition listings_of (cards : list Card) : list JobData :=
  omap card_listing cards.

End Bot.

(* ===================================================================== *)
(** * Simulated browsers *)
(* ===================================================================== *)

Module Sim.

Import Driver Bot.

Definition cfg : Settings := {| phone_number := "5550100"; resume_path := "" |}.

Definition stale : Exn := mkExn StaleElementReferenceException "stale element reference".
Definition intercepted : Exn := mkExn ElementClickInterceptedException "click intercepted".
Definition not_found : Exn := mkExn NoSuchElementException "no such element".
Definition timed_out : Exn := mkExn TimeoutException "timeout".

(** A page on which none of the wizard's selectors matches. *)
Definition blank : Screen :=
  {| review_button := []; submit_button := []; confirmation := Err timed_out;
     success_elements := []; close_button := Err not_found;
     required_fields := []; phone_inputs := []; resume_uploads := [];
     follow_checkboxes := []; next_button := [];
     exit_buttons := []; discard_buttons := [] |}.

Definition with_next (r : reply unit) (s : Screen) : Screen :=
  {| review_button := review_button s; submit_button := submit_button s;
     confirmation := confirmation s; success_elements := success_elements s;
     close_button := close_button s; required_fields := required_fields s;
     phone_inputs := phone_inputs s; resume_uploads := resume_uploads s;
     follow_checkboxes := follow_checkboxes s; next_button := [r];
     exit_buttons := exit_buttons s; discard_buttons := discard_buttons s |}.

Definition with_follow (selected : bool) (s : Screen) : Screen :=
  {| review_button := review_button s; submit_button := submit_button s;
     confirmation := confirmation s; success_elements := success_elements s;
     close_button := close_button s; required_fields := required_fields s;
     phone_inputs := phone_inputs s; resume_uploads := resume_uploads s;
     follow_checkboxes := [{| follow_selected := selected; follow_click := Ok tt |}];
     next_button := next_button s;
     exit_buttons := exit_buttons s; discard_buttons := discard_buttons s |}.

Definition with_required (fields : list FieldObs) (s : Screen) : Screen :=
  {| review_button := review_button s; submit_button := submit_button s;
     confirmation := confirmation s; success_elements := success_elements s;
     close_button := close_button s; required_fields := fields;
     phone_inputs := phone_inputs s; resume_uploads := resume_uploads s;
     follow_checkboxes := follow_checkboxes s; next_button := next_button s;
     exit_buttons := exit_buttons s; discard_buttons := discard_buttons s |}.

(** A step that only offers "Continue to next step". *)
Definition continue_screen : Screen := with_next (Ok tt) blank.

(** A step whose "Continue" click raises a stale-element error. *)
Definition stale_continue_screen : Screen := with_next (Err stale) blank.

(** A step whose "Continue" click is intercepted, with a Dismiss button
    and a discard prompt on the page. *)
Definition intercepted_continue_screen : Screen :=
  {| review_button := []; submit_button := []; confirmation := Err timed_out;
     success_elements := []; close_button := Err not_found;
     required_fields := []; phone_inputs := []; resume_uploads := [];
     follow_checkboxes := []; next_button := [Err intercepted];
     exit_buttons := [Ok tt]; discard_buttons := [Ok tt] |}.

(** The submit step: the click works, the confirmation surface appears,
    and the page does or does not show "Application submitted". *)
Definition submit_screen (success : bool) : Screen :=
  {| review_button := []; submit_button := [Ok tt]; confirmation := Ok tt;
     success_elements := if success then [tt] else [];
     close_button := Ok (Ok tt);
     required_fields := []; phone_inputs := []; resume_uploads := [];
     follow_checkboxes := []; next_button := [];
     exit_buttons := [Ok tt]; discard_buttons := [] |}.

Definition unclear_screen : Screen := submit_screen false.
Definition success_screen : Screen := submit_screen true.

(** A submit step that still shows a required-field error left over from
    the previous step. *)
Definition leftover_field : FieldObs :=
  {| field_id := Ok "city"; field_label := Ok " City " |}.

Definition submit_with_leftover : Screen := with_required [leftover_field] unclear_screen.

(** The same page, whatever the cycle. *)
Definition always (s : Screen) : nat -> Screen := fun _ => s.

(** [n] copies of [s], then [after]. *)
Definition first_then (n : nat) (s after : Screen) : nat -> Screen :=
  fun i => if (i <? n)%nat then s else after.

(** The listing dictionaries of a small feed. *)
Definition listing (title url : string) (quick : bool) : JobData :=
  <["title" := VStr title]>
  (<["company" := VStr "Acme"]>
  (<["location" := VStr "Remote"]>
  (<["has_easy_apply" := VBool quick]>
  (<["url" := VStr url]> ∅)))).

(** An application that goes straight into the wizard. *)
Definition session (screens : nat -> Screen) : ApplySession :=
  {| page_load := Ok tt; top_card_wait := Ok tt; easy_apply_wait := Ok tt;
     easy_apply_click := Ok tt; modal_wait := Ok tt;
     wizard_screens := screens; log_date := "2024-01-01 00:00:00" |}.

(** An application whose job page never loads. *)
Definition dead_session : ApplySession :=
  {| page_load := Ok tt; top_card_wait := Err timed_out; easy_apply_wait := Ok tt;
     easy_apply_click := Ok tt; modal_wait := Ok tt;
     wizard_screens := always blank; log_date := "2024-01-01 00:00:00" |}.

(** A result card whose details pane shows the given listing. *)
Definition card (title url : string) (quick : bool) : Card :=
  {| scroll_into_view := Ok tt; card_click := Ok tt;
     details := {| details_wait := Ok tt; title_text := Ok title;
                   company_text := Ok "Acme"; location_text := Ok "Remote";
                   easy_apply_button := if quick then Ok tt else Err not_found;
                   current_url := url |} |}.

(** A card whose details pane never loads. *)
Definition broken_card : Card :=
  {| scroll_into_view := Ok tt; card_click := Ok tt;
     details := {| details_wait := Err timed_out; title_text := Ok "";
                   company_text := Ok ""; location_text := Ok "";
                   easy_apply_button := Err not_found; current_url := "" |} |}.

(** A result list: the snapshots of the first cycles, after which the list
    is empty and neither grows nor offers "show more"; while the listed
    snapshots last, every scroll makes the page taller. *)
Definition feed_of (snapshots : list (list Card)) : Feed :=
  {| initial_wait := Ok tt;
     initial_height := 0;
     pages := fun n =>
       match nth_error snapshots n with
       | Some cards =>
           {| job_cards := Ok cards; new_height := Z.of_nat (S n);
              show_more_button := Err not_found |}
       | None =>
           {| job_cards := Ok []; new_height := Z.of_nat (length snapshots);
              show_more_button := Err not_found |}
       end |}.

Definition world (f : Feed) (s : nat -> ApplySession) : World :=
  {| verify_login := true; navigate_to_jobs := true;
     search_jobs := fun _ _ _ => true; feed := f; sessions := s |}.

End Sim.

(* ===================================================================== *)
(** * utils.py: text helpers *)
(* ===================================================================== *)

Module Text.

Import Driver.

(** [parse_boolean_response(text)]: [text.lower().strip()] is one of the
    five affirmative words.  [lower] is Python's [str.lower]; nothing is
    assumed of it. *)
Definition parse_boolean_response (lower : string -> string) (text : string) : bool :=
  let text := Py.strip (lower text) in
  existsb (String.eqb text) ["yes"; "true"; "y"; "1"; "t"].

(** [extract_text_safely(element)]: the element is [None], or reading
    its [text] answers or raises. *)
Definition extract_text_safely (element : option (reply string)) : string :=
  match element with
  | None => ""
  | Some (Ok text) => Py.strip text
  | Some (Err _) => ""
  end.

End Text.

(* ===================================================================== *)
(** * linkedin_job_bot.py: session establishment and search *)
(* ===================================================================== *)

Module Session.

Import Driver Bot.

(** The replies of the driver calls of [login], in the order of the
    source. *)
Record LoginObs := {
  login_page : reply unit;        (* driver.get(.../login) *)
  username_wait : reply unit;     (* wait.until(#username) *)
  username_keys : reply unit;     (* find_element(#username).send_keys(email) *)
  password_keys : reply unit;     (* find_element(#password).send_keys(password) *)
  submit_click : reply unit;      (* find_element(button[type=submit]).click() *)
  login_feed_wait : reply unit    (* wait.until(.feed-identity-module) *)
}.

Definition session_excepts : list ExnClass :=
  [TimeoutException; NoSuchElementException].

Definition login (o : LoginObs) : reply bool :=
  rcatch
    (rbind (login_page o) (fun _ =>
     rbind (username_wait o) (fun _ =>
     rbind (username_keys o) (fun _ =>
     rbind (password_keys o) (fun _ =>
     rbind (submit_click o) (fun _ =>
     rbind (login_feed_wait o) (fun _ =>
     Ok true)))))))
    session_excepts
    (fun _ => Ok false).

(** The replies of the driver calls of [verify_login], and what a call of
    [login] would meet. *)
Record VerifyObs := {
  feed_page : reply unit;         (* driver.get(.../feed/) *)
  url_after : string;             (* driver.current_url after the 3 s sleep *)
  feed_wait : reply unit;         (* wait.until(.feed-identity-module) *)
  login_obs : LoginObs
}.

Definition verify_login (o : VerifyObs) : reply bool :=
  match
    rbind (feed_page o) (fun _ =>
      if Py.contains "/login" (url_after o)
      then login (login_obs o)
      else rbind (feed_wait o) (fun _ => Ok true))
  with
  | Err e => if handles session_excepts e then login (login_obs o) else Err e
  | ok => ok
  end.

Record JobsPageObs := {
  jobs_page : reply unit;         (* driver.get(.../jobs/) *)
  search_box_wait : reply unit    (* wait.until(.jobs-search-box) *)
}.

Definition navigate_to_jobs (o : JobsPageObs) : reply bool :=
  rcatch
    (rbind (jobs_page o) (fun _ =>
     rbind (search_box_wait o) (fun _ =>
     Ok true)))
    session_excepts
    (fun _ => Ok false).

(** The replies of the driver calls of [search_jobs]: the search itself,
    then the Easy Apply filter. *)
Record SearchObs := {
  keywords_wait : reply unit;
  keywords_clear : reply unit;
  keywords_keys : reply unit;
  location_wait : reply unit;
  location_clear : reply unit;
  location_keys : reply unit;
  search_button_wait : reply unit;
  search_button_click : reply unit;
  results_wait : reply unit;
  filters_button_wait : reply unit;
  filters_button_click : reply unit;
  filter_modal_wait : reply unit;
  easy_apply_checkbox_wait : reply unit;
  easy_apply_checkbox_click : reply unit;
  show_results_wait : reply unit;
  show_results_click : reply unit;
  filtered_results_wait : reply unit
}.

Definition search_excepts : list ExnClass :=
  [TimeoutException; NoSuchElementException; ElementClickInterceptedException].

(** "Clear and enter keywords" to "Wait for search results to load". *)
Definition search_part (o : SearchObs) : reply unit :=
  rbind (keywords_wait o) (fun _ =>
  rbind (keywords_clear o) (fun _ =>
  rbind (keywords_keys o) (fun _ =>
  rbind (location_wait o) (fun _ =>
  rbind (location_clear o) (fun _ =>
  rbind (location_keys o) (fun _ =>
  rbind (search_button_wait o) (fun _ =>
  rbind (search_button_click o) (fun _ =>
  results_wait o)))))))).

(** The body of the inner [try]: "Click on the filters button" to "Wait
    for filtered results to load". *)
Definition filter_part (o : SearchObs) : reply unit :=
  rbind (filters_button_wait o) (fun _ =>
  rbind (filters_button_click o) (fun _ =>
  rbind (filter_modal_wait o) (fun _ =>
  rbind (easy_apply_checkbox_wait o) (fun _ =>
  rbind (easy_apply_checkbox_click o) (fun _ =>
  rbind (show_results_wait o) (fun _ =>
  rbind (show_results_click o) (fun _ =>
  filtered_results_wait o))))))).

Definition search_jobs (o : SearchObs) (easy_apply_only : bool) : reply bool :=
  rcatch
    (rbind (search_part o) (fun _ =>
     rbind (if easy_apply_only
            then rcatch (filter_part o) search_excepts (fun _ => Ok tt)
            else Ok tt) (fun _ =>
     Ok true)))
    search_excepts
    (fun _ => Ok false).

(** The attribute part of [LinkedInJobBot.__init__]: [None] stands for
    the [ValueError] raised when the e-mail or the password is missing or
    empty. *)
Definition init_settings (env : gmap string string) : option Settings :=
  if (Py.nonempty (default "" (env !! "LINKEDIN_EMAIL"))
      && Py.nonempty (default "" (env !! "LINKEDIN_PASSWORD")))%bool
  then Some {| phone_number := Config.getenv env "PHONE_NUMBER" "";
               resume_path := Config.getenv env "RESUME_PATH" "" |}
  else None.

(** [config.validate_config()]; [path_exists] is [os.path.exists]. *)
Definition validate_config (env : gmap string string) (path_exists : string -> bool)
  : option string :=
  let RESUME_PATH := Config.getenv env "RESUME_PATH" "" in
  let COVER_LETTER_PATH := Config.getenv env "COVER_LETTER_PATH" "" in
  if negb (Py.nonempty (default "" (env !! "LINKEDIN_EMAIL"))) then
    Some "LinkedIn email is not set. Please set the LINKEDIN_EMAIL environment variable."
  else if negb (Py.nonempty (default "" (env !! "LINKEDIN_PASSWORD"))) then
    Some "LinkedIn password is not set. Please set the LINKEDIN_PASSWORD environment variable."
  else if (Py.nonempty RESUME_PATH && negb (path_exists RESUME_PATH))%bool then
    Some ("Resume file not found at " +:+ RESUME_PATH
          +:+ ". Please check the RESUME_PATH environment variable.")
  else if (Py.nonempty COVER_LETTER_PATH && negb (path_exists COVER_LETTER_PATH))%bool then
    Some ("Cover letter file not found at " +:+ COVER_LETTER_PATH
          +:+ ". Please check the COVER_LETTER_PATH environment variable.")
  else None.

End Session.

(* ===================================================================== *)
(** * Vocabulary of the further properties *)
(* ===================================================================== *)

Module Facts.

Import Driver Bot.

(** The driver commands the wizard may issue: it looks up, reads, waits
    for and clicks controls, pauses for 1 to 2 s or for 1 s, and types
    only the configured phone number into phone inputs and only the
    configured resume path into file inputs. *)
Definition wizard_event (cfg : Settings) (ev : Event) : Prop :=
  match ev with
  | ESendKeys PhoneInput text => text = phone_number cfg /\ phone_number cfg <> ""
  | ESendKeys FileInput text => text = resume_path cfg /\ resume_path cfg <> ""
  | ESendKeys _ _ => False
  | ESleep lo hi => lo = 10%nat /\ (hi = 20%nat \/ hi = 10%nat)
  | EGet _ | EScript _ | EQuit => False
  | EWait _ | EFind _ | ERead _ | EClick _ => True
  end.

(** The commands of a whole application: those of the wizard, and the
    navigation to the listing's own URL. *)
Definition navigator_event (cfg : Settings) (job_data : JobData) (ev : Event) : Prop :=
  match ev with
  | EGet url => url = str (listing_url job_data)
  | _ => wizard_event cfg ev
  end.

(** The pacing sleeps in an event log. *)
Definition pacing_count (tr : list Event) : nat :=
  length (List.filter (fun ev => match ev with
                                 | ESleep 30 70 => true
                                 | _ => false
                                 end) tr).

(** A listing as [_extract_job_data] builds it: the five keys, with
    strings for the texts and the URL and a boolean for the flag. *)
Definition well_formed (job_data : JobData) : Prop :=
  exists title company location url quick,
    job_data
    = <["title" := VStr title]>
      (<["company" := VStr company]>
      (<["location" := VStr location]>
      (<["has_easy_apply" := VBool quick]>
      (<["url" := VStr url]> ∅)))).

(** A cycle that ends the attempt: the loop returns a failure, or an
    exception outside the [except] clause leaves it. *)
Definition ends_in_failure (r : result Step) : Prop :=
  match r with
  | Returned (Return (false, _)) => True
  | Raised e => handles wizard_excepts e = false
  | _ => False
  end.

End Facts.

(* ===================================================================== *)
(** * Further simulated browsers *)
(* ===================================================================== *)

Module Sim2.

Import Driver Bot.

(** A login in which every call answers. *)
Definition good_login : Session.LoginObs :=
  {| Session.login_page := Ok tt; Session.username_wait := Ok tt;
     Session.username_keys := Ok tt; Session.password_keys := Ok tt;
     Session.submit_click := Ok tt; Session.login_feed_wait := Ok tt |}.

(** The feed redirects to the login page, and the login works. *)
Definition redirected : Session.VerifyObs :=
  {| Session.feed_page := Ok tt;
     Session.url_after := "https://www.linkedin.com/login?from=feed";
     Session.feed_wait := Err Sim.timed_out;
     Session.login_obs := good_login |}.

(** A search that works, with a filter button that never becomes
    clickable. *)
Definition search_without_filter : Session.SearchObs :=
  {| Session.keywords_wait := Ok tt; Session.keywords_clear := Ok tt;
     Session.keywords_keys := Ok tt; Session.location_wait := Ok tt;
     Session.location_clear := Ok tt; Session.location_keys := Ok tt;
     Session.search_button_wait := Ok tt; Session.search_button_click := Ok tt;
     Session.results_wait := Ok tt;
     Session.filters_button_wait := Err Sim.timed_out;
     Session.filters_button_click := Ok tt; Session.filter_modal_wait := Ok tt;
     Session.easy_apply_checkbox_wait := Ok tt;
     Session.easy_apply_checkbox_click := Ok tt;
     Session.show_results_wait := Ok tt; Session.show_results_click := Ok tt;
     Session.filtered_results_wait := Ok tt |}.

(** An environment with credentials and a resume path. *)
Definition env : gmap string string :=
  <["LINKEDIN_EMAIL" := "me@example.com"]>
  (<["LINKEDIN_PASSWORD" := "secret"]>
  (<["RESUME_PATH" := "cv.pdf"]> ∅)).

(** A quick-apply listing without a title. *)
Definition untitled : JobData :=
  <["has_easy_apply" := VBool true]> (<["url" := VStr "https://jobs/9"]> ∅).

(** A checkbox that is present, selected, and clickable. *)
Definition selected_checkbox : Utils.CheckboxObs :=
  {| Utils.cb_wait := Ok tt; Utils.cb_selected := Ok true; Utils.cb_scroll := Ok tt;
     Utils.cb_click := Ok tt; Utils.cb_js_click := Ok tt |}.

(** A checkbox whose native click is intercepted; the JavaScript click
    works. *)
Definition covered_checkbox : Utils.CheckboxObs :=
  {| Utils.cb_wait := Ok tt; Utils.cb_selected := Ok true; Utils.cb_scroll := Ok tt;
     Utils.cb_click := Err Sim.intercepted; Utils.cb_js_click := Ok tt |}.

(** A result list that shows one snapshot and then neither grows nor
    offers "show more". *)
Definition static_feed (cards : list Card) : Feed :=
  {| initial_wait := Ok tt;
     initial_height := 900;
     pages := fun _ =>
       {| job_cards := Ok cards; new_height := 900;
          show_more_button := Err Sim.not_found |} |}.

End Sim2.

(* ===================================================================== *)
(** * Computations that always end *)
(* ===================================================================== *)

Module Ends.

Import Driver.

(** A computation that never runs out of fuel: it returns or raises. *)
Definition never_stalls {A} (c : M A) : Prop :=
  forall st, fst (c st) <> OutOfFuel.

End Ends.

(* ===================================================================== *)
(** * The handlers of a wizard cycle *)
(* ===================================================================== *)

Module Order.

Import Driver Bot.








End Order.

(* ===================================================================== *)
(** * Where an attempt stands *)
(* ===================================================================== *)

Module Outcomes.

Import Driver Bot.

(** The state after [n] cycles in a row that each ended with
    [current_step += 1; continue], the first of them being cycle number
    [k] of the attempt, run at step [k + 1]. *)
Fixpoint after_continues (n : nat) (cfg : Settings) (screens : nat -> Screen)
    (k : nat) (st : St) : St :=
  match n with
  | O => st
  | S n' => after_continues n' cfg screens (S k) (snd (cycle cfg (S k) (screens k) st))
  end.

(** The exception of the first of the five driver calls before the
    wizard that raises, if any. *)
Definition navigation_error (sess : ApplySession) : option Exn :=
  match page_load sess with
  | Err e => Some e
  | Ok _ =>
  match top_card_wait sess with
  | Err e => Some e
  | Ok _ =>
  match easy_apply_wait sess with
  | Err e => Some e
  | Ok _ =>
  match easy_apply_click sess with
  | Err e => Some e
  | Ok _ =>
  match modal_wait sess with
  | Err e => Some e
  | Ok _ => None
  end end end end end.

(** The driver calls before the wizard, up to and including the first
    that raises. *)
Definition navigation_events (url : string) (sess : ApplySession) : list Event :=
  EGet url ::
  match page_load sess with
  | Err _ => []
  | Ok _ =>
  EWait TopCard ::
  match top_card_wait sess with
  | Err _ => []
  | Ok _ =>
  EWait EasyApplyButton ::
  match easy_apply_wait sess with
  | Err _ => []
  | Ok _ =>
  EClick EasyApplyButton ::
  match easy_apply_click sess with
  | Err _ => []
  | Ok _ => [EWait EasyApplyModal]
  end end end end.

End Outcomes.



(* ===================================================================== *)
(** * Properties of the answer resolver *)
(* ===================================================================== *)

Section Resolver.

(** Python's [str.lower], whatever it does. *)
Variable lower : string -> string.

Lemma get_answer_refines_spec q d :
  Utils.get_answer_for_question lower q d = Utils.resolve_spec lower q d.
Proof.
  unfold Utils.get_answer_for_question, Utils.resolve_spec, Utils.first_category.
  cbn [List.find Utils.category_order Utils.keywords Utils.profile_field].
  repeat match goal with
         | |- context [Py.any_in ?l ?s] => destruct (Py.any_in l s); try reflexivity
         end.
Qed.

(** The result depends on the prompt only through its lower-cased text. *)
Lemma get_answer_lower q q' d :
  lower q' = lower q ->
  Utils.get_answer_for_question lower q' d = Utils.get_answer_for_question lower q d.
Proof.
  intros H. unfold Utils.get_answer_for_question. now rewrite H.
Qed.

Lemma default_answers_complete env : Utils.complete_profile (Config.DEFAULT_ANSWERS env).
Proof.
  intros c. unfold Config.DEFAULT_ANSWERS.
  destruct c; simpl; simplify_map_eq; eauto.
Qed.

(** C8, as stated, fails: "How many YEARS of experience?" matches the
    experience category, and with a profile that has no
    [years_of_experience] entry the resolver still returns none.  The
    prompt is ASCII, so [str.lower] is [Py.ascii_lower] on it. *)
Lemma resolver_none_despite_match :
  Py.ascii_lower "How many YEARS of experience?" = "how many years of experience?"
  /\ Utils.first_category "how many years of experience?" = Some Utils.Experience
  /\ Utils.get_answer_for_question Py.ascii_lower "How many YEARS of experience?" ∅ = None
  /\ ~ (Utils.get_answer_for_question Py.ascii_lower "How many YEARS of experience?" ∅
        = None
        <-> Utils.first_category (Py.ascii_lower "How many YEARS of experience?") = None).
Proof.
  split; [reflexivity|]. split; [reflexivity|]. split; [reflexivity|].
  intros [H _]. specialize (H eq_refl). vm_compute in H. discriminate H.
Qed.

(** C8 (amended): whatever [str.lower] does to the prompt, the resolver
    depends on the prompt only through its lower-cased text (two prompts
    with the same lower-cased text get the same answer); it answers with
    the profile entry of the first category, in the order experience,
    education, relocation, sponsorship, remote work, one of whose
    keywords occurs in the lower-cased prompt; it returns none exactly
    when no category matches or the profile has no entry for the field of
    the first matching category (so, for a profile with all five fields,
    exactly when no category matches); a string it returns is the
    profile's own entry, never a substitute. *)
Theorem resolver_contract (q : string) (d : gmap string string) :
  (forall q', lower q' = lower q ->
              Utils.get_answer_for_question lower q' d
              = Utils.get_answer_for_question lower q d)
  /\ Utils.category_order
     = [Utils.Experience; Utils.Education; Utils.Relocation;
        Utils.Sponsorship; Utils.RemoteWork]
  /\ Utils.get_answer_for_question lower q d
     = match Utils.first_category (lower q) with
       | Some c => d !! Utils.profile_field c
       | None => None
       end
  /\ (Utils.get_answer_for_question lower q d = None
      <-> Utils.first_category (lower q) = None
          \/ exists c, Utils.first_category (lower q) = Some c
                       /\ d !! Utils.profile_field c = None)
  /\ (Utils.complete_profile d ->
      (Utils.get_answer_for_question lower q d = None
       <-> Utils.first_category (lower q) = None))
  /\ (forall a, Utils.get_answer_for_question lower q d = Some a
      <-> exists c, Utils.first_category (lower q) = Some c
                    /\ d !! Utils.profile_field c = Some a).
Proof.
  split; [intros q'; apply get_answer_lower|].
  split; [reflexivity|].
  rewrite get_answer_refines_spec. unfold Utils.resolve_spec.
  split; [reflexivity|].
  destruct (Utils.first_category (lower q)) as [c|]; split; [|split| |split].
  - split.
    + intros H. right. exists c. now split.
    + intros [H|[c' [Hc H]]]; [discriminate H|]. now inversion Hc; subst.
  - intros Hd. destruct (Hd c) as [a Ha]. rewrite Ha. split; discriminate.
  - intros a. split.
    + intros H. exists c. now split.
    + intros [c' [Hc H]]. now inversion Hc; subst.
  - split; [now left | reflexivity].
  - intros _. split; reflexivity.
  - intros a. split; [discriminate | intros [c' [Hc _]]; discriminate Hc].
Qed.

(** A prompt outside ASCII: "WOR", the Kelvin sign U+212A (the bytes
    E2 84 AA) and " EXPERIENCE?".  [str.lower] turns the sign into "k",
    and the resolver then answers from the experience entry. *)
Example kelvin_sign_prompt :
  lower ("WOR" +:+ String (ascii_of_nat 226) (String (ascii_of_nat 132)
                     (String (ascii_of_nat 170) " EXPERIENCE?")))
  = "work experience?" ->
  Utils.get_answer_for_question lower
    ("WOR" +:+ String (ascii_of_nat 226) (String (ascii_of_nat 132)
                 (String (ascii_of_nat 170) " EXPERIENCE?")))
    (Config.DEFAULT_ANSWERS ∅)
  = Some "2".
Proof.
  intros H. unfold Utils.get_answer_for_question. cbv zeta. rewrite H. reflexivity.
Qed.

End Resolver.

(* ===================================================================== *)
(** * The navigator's guard *)
(* ===================================================================== *)

Section Guard.

Import Driver Bot.

(** C10: called on a listing whose [has_easy_apply] entry is false (or
    missing), [apply_to_job] returns [(False, "Not an Easy Apply job")] at
    once: the event log, the notes and the page are exactly as before, so
    no navigation, click or text entry has been issued, whatever the
    browser would have answered. *)
Theorem apply_to_job_guard (fuel : nat) (cfg : Settings) (job_data : JobData)
    (sess : ApplySession) (st : St) :
  has_easy_apply job_data = false ->
  apply_to_job fuel cfg job_data sess st
  = (Returned (false, "Not an Easy Apply job"), st).
Proof.
  intros H. unfold apply_to_job. now rewrite H.
Qed.

Lemma apply_to_job_guard_witness :
  has_easy_apply (Sim.listing "Analyst" "https://jobs/1" false) = false
  /\ apply_to_job 5 Sim.cfg (Sim.listing "Analyst" "https://jobs/1" false)
       (Sim.session (Sim.always Sim.continue_screen)) st0
     = (Returned (false, "Not an Easy Apply job"), st0).
Proof.
  split; [reflexivity|].
  apply (apply_to_job_guard 5 Sim.cfg (Sim.listing "Analyst" "https://jobs/1" false)).
  reflexivity.
Defined.

End Guard.


(* ===================================================================== *)
(** * The event log only grows *)
(* ===================================================================== *)

Section Emits.

Import Driver Bot.

Context {P : Event -> Prop}.

Lemma emits_ret {A} (a : A) : emits P (ret a).
Proof. intros st. exists []. simpl. now rewrite app_nil_r. Qed.

Lemma emits_raise {A} e : emits P (@raise A e).
Proof. intros st. exists []. simpl. now rewrite app_nil_r. Qed.

Lemma emits_bind {A B} (c : M A) (k : A -> M B) :
  emits P c -> (forall a, emits P (k a)) -> emits P (bind c k).
Proof.
  intros Hc Hk st. unfold bind.
  destruct (Hc st) as [n1 [H1 F1]].
  destruct (c st) as [[a|e|] st1]; simpl in *.
  - destruct (Hk a st1) as [n2 [H2 F2]]. exists (n1 ++ n2).
    rewrite H2, H1, app_assoc. split; [reflexivity|].
    apply Forall_app; now split.
  - now exists n1.
  - now exists n1.
Qed.

Lemma emits_try_except {A} (c : M A) classes h :
  emits P c -> (forall e, emits P (h e)) -> emits P (try_except c classes h).
Proof.
  intros Hc Hh st. unfold try_except.
  destruct (Hc st) as [n1 [H1 F1]].
  destruct (c st) as [[a|e|] st1]; simpl in *; try (now exists n1).
  destruct (handles classes e); [|now exists n1].
  destruct (Hh e st1) as [n2 [H2 F2]]. exists (n1 ++ n2).
  rewrite H2, H1, app_assoc. split; [reflexivity|].
  apply Forall_app; now split.
Qed.

Lemma emits_try_pass (c : M unit) : emits P c -> emits P (try_pass c).
Proof.
  intros Hc st. unfold try_pass.
  destruct (Hc st) as [n1 H1].
  destruct (c st) as [[a|e|] st1]; simpl in *; now exists n1.
Qed.

Lemma emits_emit ev : P ev -> emits P (emit ev).
Proof. intros H st. exists [ev]. split; [reflexivity|]. now constructor. Qed.

Lemma emits_perform {A} ev (r : reply A) : P ev -> emits P (perform ev r).
Proof.
  intros H st. exists [ev]. unfold perform.
  split; [now destruct r|]. now constructor.
Qed.

Lemma emits_note s : emits P (note s).
Proof. intros st. exists []. simpl. now rewrite app_nil_r. Qed.

Lemma emits_get_notes : emits P get_notes.
Proof. intros st. exists []. simpl. now rewrite app_nil_r. Qed.

Lemma emits_fresh_notes : emits P fresh_notes.
Proof. intros st. exists []. simpl. now rewrite app_nil_r. Qed.

Lemma emits_set_checkbox b : emits P (set_checkbox b).
Proof. intros st. exists []. simpl. now rewrite app_nil_r. Qed.

Lemma emits_out_of_fuel {A} : emits P (fun st => (@OutOfFuel A, st)).
Proof. intros st. exists []. simpl. now rewrite app_nil_r. Qed.

Lemma emits_subscript job key : emits P (subscript job key).
Proof.
  unfold subscript. destruct (job !! key); [apply emits_ret | apply emits_raise].
Qed.

End Emits.

Ltac emits_step :=
  first
    [ apply emits_ret | apply emits_raise | apply emits_note
    | apply emits_get_notes | apply emits_fresh_notes | apply emits_set_checkbox
    | apply emits_out_of_fuel | apply emits_subscript
    | apply emits_emit; first [exact I | reflexivity]
    | apply emits_perform; first [exact I | reflexivity]
    | apply emits_try_pass
    | apply emits_try_except; [|intros ?]
    | apply emits_bind; [|intros ?] ].

Ltac emits_auto :=
  repeat (emits_step
          || match goal with
             | |- Driver.emits _ (match ?x with _ => _ end) => destruct x
             | |- Driver.emits _ (if ?x then _ else _) => destruct x
             end).

Section Wizard_log.

Import Driver Bot.


Lemma not_field_review_step s : emits not_field (review_step s).
Proof. unfold review_step. emits_auto. Qed.

Lemma not_field_confirm_submission s : emits not_field (confirm_submission s).
Proof. unfold confirm_submission. emits_auto. Qed.








Lemma not_field_exit_application s : emits not_field (exit_application s).
Proof. unfold exit_application. emits_auto. Qed.




End Wizard_log.

(* ===================================================================== *)
(** * The order of the handlers inside a cycle *)
(* ===================================================================== *)

Section Classification.

Import Driver Bot.

Lemma log_log l1 l2 st : log l2 (log l1 st) = log (l1 ++ l2) st.
Proof. unfold log. simpl. now rewrite app_assoc. Qed.







Lemma emits_weaken {A} (P Q : Event -> Prop) (c : M A) :
  (forall ev, P ev -> Q ev) -> emits P c -> emits Q c.
Proof.
  intros HPQ Hc st. destruct (Hc st) as [new [H F]]. exists new.
  split; [exact H|]. eapply Forall_impl; eauto.
Qed.




































(** The cycle on the simulated screen with a leftover field, event by
    event: the submit click, then the field. *)
Example leftover_cycle_trace :
  trace (snd (cycle Sim.cfg 1 Sim.submit_with_leftover st0))
  = [EFind ReviewButton; EFind SubmitButton; EClick SubmitButton;
     EWait ConfirmationModal; EFind SuccessText;
     EFind RequiredFieldError; ERead RequiredFieldError; EFind (LabelFor "city");
     EFind PhoneInput; EFind FileInput; EFind FollowCompanyLabel; EFind NextButton]
  /\ notes (snd (cycle Sim.cfg 1 Sim.submit_with_leftover st0))
     = ["Submission status unclear"; "Required field: City"].
Proof. split; reflexivity. Qed.

End Classification.

(* ===================================================================== *)
(** * The follow-company checkbox *)
(* ===================================================================== *)

Section Follow.

Import Driver Bot.

(** The follow step clicks the label whatever the checkbox shows: a click
    that goes through leaves the checkbox in the opposite state. *)
Lemma follow_step_toggles s f rest st :
  follow_checkboxes s = f :: rest ->
  follow_click f = Ok tt ->
  fst (follow_step s st) = Returned tt
  /\ dom_checkbox (snd (follow_step s st)) = Some (negb (follow_selected f)).
Proof.
  intros Hf Hc. unfold follow_step, click_checkbox. rewrite Hf, Hc. now split.
Qed.

(** The helper of [utils.py] reads the state first: whenever it reports
    success the checkbox is in the requested state. *)
Lemma check_radio_or_checkbox_sound sel o check st :
  fst (Utils.check_radio_or_checkbox sel o check st) = Returned true ->
  dom_checkbox (snd (Utils.check_radio_or_checkbox sel o check st)) = Some check.
Proof.
  unfold Utils.check_radio_or_checkbox, Utils.wait_for_element, Utils.safe_click,
    Utils.random_delay, click_checkbox, try_except, try_else, bind, perform, emit, ret,
    set_checkbox, handles.
  destruct o as [w sl sc cl js]; simpl.
  destruct w as [[]|[[] ?]]; simpl; try discriminate.
  destruct sl as [[] |?], check; simpl; try discriminate; try reflexivity;
    destruct sc as [[]|[[] ?]]; simpl; try discriminate;
    destruct cl as [[]|[[] ?]]; simpl; try discriminate; try reflexivity;
    destruct js as [[]|?]; simpl; try discriminate; reflexivity.
Qed.

(** C7 fails on the code.  On a step that shows the follow-company
    checkbox deselected, the cycle clicks its label: the checkbox ends up
    selected, and the note still says it was unchecked.  Had the page
    shown it selected, the same click would have deselected it. *)
Theorem follow_click_opts_in :
  let s := Sim.with_follow false Sim.continue_screen in
  let after := snd (cycle Sim.cfg 1 s st0) in
  map follow_selected (follow_checkboxes s) = [false]
  /\ In (EClick FollowCompanyLabel) (trace after)
  /\ dom_checkbox after = Some true
  /\ notes after = ["Unchecked 'Follow company'"]
  /\ dom_checkbox (snd (cycle Sim.cfg 1 (Sim.with_follow true Sim.continue_screen) st0))
     = Some false.
Proof.
  cbv zeta. repeat split; try reflexivity.
  vm_compute. auto 10.
Qed.

End Follow.

(* ===================================================================== *)
(** * Exceptions inside a wizard cycle *)
(* ===================================================================== *)

Section Wizard_errors.

Import Driver Bot.

Lemma notes_exit_application s st :
  notes (snd (exit_application s st)) = notes st.
Proof.
  unfold exit_application, bind, emit, perform, ret.
  destruct (exit_buttons s) as [|[[]|e] ?]; simpl; try reflexivity.
  destruct (discard_buttons s) as [|[[]|e'] ?]; reflexivity.
Qed.

Lemma exit_application_ends s st :
  fst (exit_application s st) <> OutOfFuel.
Proof.
  unfold exit_application, bind, emit, perform, ret.
  destruct (exit_buttons s) as [|[[]|e] ?]; simpl; try discriminate.
  destruct (discard_buttons s) as [|[[]|e'] ?]; discriminate.
Qed.

(** An exception of a class listed in the [except] clause ends the
    attempt inside the cycle: a note is appended, the dismiss sequence is
    tried, and the loop returns a failure that quotes all notes. *)
Lemma cycle_catches cfg current_step s st e st1 :
  cycle_try cfg s st = (Raised e, st1) ->
  handles wizard_excepts e = true ->
  exists st2,
    cycle cfg current_step s st
    = (Returned (Return (false, "Error during application: "
                               +:+ Py.join ", " (notes st2))), st2)
    /\ notes st2 = notes st1 ++ ["Error in step " +:+ Py.str_of_nat current_step
                                 +:+ ": " +:+ exn_str e].
Proof.
  intros Ht Hh. unfold cycle, try_except. rewrite Ht, Hh.
  unfold bind at 1. simpl. unfold bind at 1, try_pass.
  pose proof (notes_exit_application s
                {| trace := trace st1;
                   notes := notes st1 ++ ["Error in step " +:+ Py.str_of_nat current_step
                                          +:+ ": " +:+ exn_str e];
                   dom_checkbox := dom_checkbox st1 |}) as Hn.
  pose proof (exit_application_ends s
                {| trace := trace st1;
                   notes := notes st1 ++ ["Error in step " +:+ Py.str_of_nat current_step
                                          +:+ ": " +:+ exn_str e];
                   dom_checkbox := dom_checkbox st1 |}) as He.
  unfold note.
  destruct (exit_application s _) as [[[]|e'|] st2]; simpl in *.
  - exists st2. now split.
  - exists st2. now split.
  - now contradiction He.
Qed.

(** An exception of any other class leaves the cycle as it is. *)
Lemma cycle_lets_through cfg current_step s st e st1 :
  cycle_try cfg s st = (Raised e, st1) ->
  handles wizard_excepts e = false ->
  cycle cfg current_step s st = (Raised e, st1).
Proof.
  intros Ht Hh. unfold cycle, try_except. now rewrite Ht, Hh.
Qed.

(** Timeouts, missing elements and intercepted clicks are listed; a stale
    element reference is not, neither by the wizard nor by
    [apply_to_job]. *)
Lemma caught_classes e :
  handles wizard_excepts e
  = match exn_class e with
    | TimeoutException | NoSuchElementException
    | ElementClickInterceptedException => true
    | StaleElementReferenceException | KeyError => false
    end
  /\ handles apply_excepts e = handles wizard_excepts e.
Proof. unfold handles. now destruct (exn_class e). Qed.

(** C5 fails on the code for stale elements.  Two quick-apply listings
    are discovered; during the first application the click on "Continue"
    raises a stale-element error.  The error leaves the wizard, the
    navigator and the orchestrator: the run ends with the exception, no
    note and no ledger row is written, the dismiss sequence is not tried,
    and the second listing is never attempted. *)
Theorem stale_error_aborts_run :
  let w := Sim.world
             (Sim.feed_of [[Sim.card "Analyst" "https://jobs/1" true;
                            Sim.card "Engineer" "https://jobs/2" true]])
             (fun _ => Sim.session (Sim.always Sim.stale_continue_screen)) in
  let r := run 20 Sim.cfg w "Data Analyst" "Remote" 2 in
  length (snd (discovered 20 w 2)) = 2%nat
  /\ fst r = Raised Sim.stale
  /\ applications_data (ledger (snd r)) = []
  /\ notes (browser (snd r)) = []
  /\ n_applied (snd r) = 1%nat
  /\ ~ In (EClick DismissButton) (trace (browser (snd r))).
Proof.
  cbv zeta. repeat split; try (vm_compute; reflexivity).
  vm_compute. intuition discriminate.
Qed.

(** The same click being intercepted instead is handled inside the
    attempt. *)
Example intercepted_error_is_contained :
  _process_application_steps 20 Sim.cfg (Sim.always Sim.intercepted_continue_screen) st0
  = (Returned (false, "Error during application: Error in step 1: click intercepted"),
     mkSt [EFind ReviewButton; EFind SubmitButton; EFind RequiredFieldError;
           EFind FileInput; EFind FollowCompanyLabel; EFind NextButton;
           EClick NextButton; EFind DismissButton; EClick DismissButton;
           ESleep 10 10; EFind DiscardButton; EClick DiscardButton]
          ["Error in step 1: click intercepted"] None).
Proof. reflexivity. Qed.

End Wizard_errors.

(* ===================================================================== *)
(** * The step loop: ambiguous submissions and the step ceiling *)
(* ===================================================================== *)

Section Step_loop.

Import Driver Bot.

(** One cycle on the page that shows the submit button, the confirmation
    surface and no success text: submit is clicked, the note is appended,
    and the body ends without [return], without [continue] and without
    touching [current_step]. *)
Lemma cycle_unclear current_step st :
  exists st1,
    cycle Sim.cfg current_step Sim.unclear_screen st = (Returned Again, st1)
    /\ trace st1
       = trace st ++ [EFind ReviewButton; EFind SubmitButton; EClick SubmitButton;
                      EWait ConfirmationModal; EFind SuccessText;
                      EFind RequiredFieldError; EFind FileInput;
                      EFind FollowCompanyLabel; EFind NextButton]
    /\ notes st1 = notes st ++ ["Submission status unclear"].
Proof.
  eexists. split; [reflexivity|].
  split; simpl; [now rewrite <- !app_assoc | reflexivity].
Qed.

Lemma submit_clicks_app tr1 tr2 :
  submit_clicks (tr1 ++ tr2) = (submit_clicks tr1 + submit_clicks tr2)%nat.
Proof. unfold submit_clicks. now rewrite List.filter_app, length_app. Qed.

(** On that page the loop never leaves step 1: with fuel for [n] cycles it
    runs [n] cycles, clicks submit [n] times, and has not returned. *)
Lemma step_loop_unclear n : forall k st,
  fst (step_loop n Sim.cfg (Sim.always Sim.unclear_screen) k 1 st) = OutOfFuel
  /\ submit_clicks (trace (snd (step_loop n Sim.cfg (Sim.always Sim.unclear_screen) k 1 st)))
     = (submit_clicks (trace st) + n)%nat
  /\ length (notes (snd (step_loop n Sim.cfg (Sim.always Sim.unclear_screen) k 1 st)))
     = (length (notes st) + n)%nat.
Proof.
  induction n as [|n IH]; intros k st.
  - simpl. now rewrite !Nat.add_0_r.
  - destruct (cycle_unclear 1 st) as [st1 [Hc [Ht Hn]]].
    change (step_loop (S n) Sim.cfg (Sim.always Sim.unclear_screen) k 1 st)
      with (bind (cycle Sim.cfg 1 Sim.unclear_screen)
              (fun step =>
                 match step with
                 | Return r => ret r
                 | Continue => step_loop n Sim.cfg (Sim.always Sim.unclear_screen) (S k) 2
                 | Again => step_loop n Sim.cfg (Sim.always Sim.unclear_screen) (S k) 1
                 end) st).
    unfold bind. rewrite Hc.
    destruct (IH (S k) st1) as [H1 [H2 H3]].
    split; [exact H1|]. split.
    + rewrite H2, Ht, submit_clicks_app. unfold submit_clicks at 2. simpl. lia.
    + rewrite H3, Hn, length_app. simpl. lia.
Qed.

(** C2 fails on the code.  After an ambiguous submission the loop
    neither returns nor advances.  If the page stays as it is the attempt
    never ends, whatever the fuel; if the next cycle finds the success
    text the attempt is reported as a success and the "Submission status
    unclear" note, though appended, is not in what the caller gets; if the
    submit button is gone the attempt ends as a manual intervention. *)
Theorem ambiguous_submission_not_returned :
  (forall fuel,
     fst (_process_application_steps fuel Sim.cfg (Sim.always Sim.unclear_screen) st0)
     = OutOfFuel)
  /\ fst (_process_application_steps 20 Sim.cfg
            (Sim.first_then 1 Sim.unclear_screen Sim.success_screen) st0)
     = Returned (true, "Application submitted successfully")
  /\ notes (snd (_process_application_steps 20 Sim.cfg
                   (Sim.first_then 1 Sim.unclear_screen Sim.success_screen) st0))
     = ["Submission status unclear"]
  /\ fst (_process_application_steps 20 Sim.cfg
            (Sim.first_then 1 Sim.unclear_screen Sim.blank) st0)
     = Returned (false, "Application requires manual intervention: "
                        +:+ "Submission status unclear, Requires manual intervention").
Proof.
  split; [|repeat split; reflexivity].
  intros fuel. unfold _process_application_steps, bind, fresh_notes.
  apply (step_loop_unclear fuel 0%nat).
Qed.

(** C3 fails on the code.  [current_step] counts the clicks on
    "Continue", not the cycles: on the page of an ambiguous submission
    (submit button, confirmation surface, no success text, no "Continue")
    the loop with fuel for [n] cycles has run [n] cycles, clicked submit
    [n] times, and has not ended: the ceiling of 10 never applies. *)
Theorem step_ceiling_not_enforced (n : nat) :
  let r := _process_application_steps n Sim.cfg (Sim.always Sim.unclear_screen) st0 in
  fst r = OutOfFuel
  /\ submit_clicks (trace (snd r)) = n
  /\ length (notes (snd r)) = n.
Proof.
  cbv zeta. unfold _process_application_steps, bind, fresh_notes.
  destruct (step_loop_unclear n 0%nat (mkSt (trace st0) [] (dom_checkbox st0)))
    as [H1 [H2 H3]].
  now repeat split.
Qed.

(** Where every cycle clicks "Continue" the ceiling does apply: eleven
    continue screens end the attempt after ten clicks. *)
Example eleven_continue_screens :
  fst (_process_application_steps 11 Sim.cfg
         (Sim.first_then 11 Sim.continue_screen Sim.blank) st0)
  = Returned (false, "Application process took too many steps")
  /\ length (List.filter (fun ev => match ev with EClick NextButton => true | _ => false end)
               (trace (snd (_process_application_steps 11 Sim.cfg
                              (Sim.first_then 11 Sim.continue_screen Sim.blank) st0))))
     = 10%nat.
Proof. split; reflexivity. Qed.

End Step_loop.

(* ===================================================================== *)
(** * The orchestrator skips listings without Easy Apply *)
(* ===================================================================== *)

Section Orchestrator.

Import Driver Bot.

Lemma run_loop_budget_met fuel cfg w max jobs rs :
  (application_count rs >=? max) = true ->
  run_loop fuel cfg w max jobs rs = (Returned tt, rs).
Proof.
  intros H. destruct jobs as [|j rest]; simpl; [reflexivity|]. now rewrite H.
Qed.

(** The loop behaves as if the listings without Easy Apply were not in
    the sequence. *)
Lemma run_loop_filter fuel cfg w max jobs : forall rs,
  run_loop fuel cfg w max jobs rs
  = run_loop fuel cfg w max (List.filter has_easy_apply jobs) rs.
Proof.
  induction jobs as [|j rest IH]; intros rs; [reflexivity|].
  cbn [List.filter]. destruct (has_easy_apply j) eqn:Hq.
  - cbn [run_loop]. rewrite Hq.
    destruct (application_count rs >=? max); [reflexivity|].
    destruct (apply_to_job fuel cfg j (sessions w (n_applied rs)) (browser rs))
      as [[[status notes]|e|] st']; try reflexivity.
    apply IH.
  - cbn [run_loop]. rewrite Hq.
    destruct (application_count rs >=? max) eqn:Hb.
    + symmetry. now apply run_loop_budget_met.
    + apply IH.
Qed.

(** C9: a listing whose [has_easy_apply] entry is false leaves no mark on
    the run.  With the listing in the sequence or taken out of it, the
    loop ends the same way and in the same state: the same event log (so
    no navigation, click or pacing sleep was issued for it), the same
    ledger (no row for it), the same success counter and the same number
    of calls of [apply_to_job] (the navigator was not invoked on it). *)
Theorem non_quick_listing_skipped
    (fuel : nat) (cfg : Settings) (w : World) (max_applications : Z)
    (before after : list JobData) (job_data : JobData) (rs : RunState) :
  has_easy_apply job_data = false ->
  run_loop fuel cfg w max_applications (before ++ job_data :: after) rs
  = run_loop fuel cfg w max_applications (before ++ after) rs.
Proof.
  intros H.
  rewrite run_loop_filter, (run_loop_filter _ _ _ _ (before ++ after)).
  rewrite !List.filter_app. cbn [List.filter]. now rewrite H.
Qed.

Lemma non_quick_listing_skipped_witness :
  has_easy_apply (Sim.listing "Clerk" "https://jobs/2" false) = false
  /\ run_loop 20 Sim.cfg
       (Sim.world (Sim.feed_of []) (fun _ => Sim.session (Sim.always Sim.success_screen)))
       2
       ([Sim.listing "Analyst" "https://jobs/1" true]
        ++ Sim.listing "Clerk" "https://jobs/2" false
        :: [Sim.listing "Engineer" "https://jobs/3" true])
       run_state0
     = run_loop 20 Sim.cfg
         (Sim.world (Sim.feed_of []) (fun _ => Sim.session (Sim.always Sim.success_screen)))
         2
         ([Sim.listing "Analyst" "https://jobs/1" true]
          ++ [Sim.listing "Engineer" "https://jobs/3" true])
         run_state0.
Proof.
  split; [reflexivity|].
  apply (non_quick_listing_skipped 20 Sim.cfg
           (Sim.world (Sim.feed_of []) (fun _ => Sim.session (Sim.always Sim.success_screen)))
           2 [Sim.listing "Analyst" "https://jobs/1" true]
           [Sim.listing "Engineer" "https://jobs/3" true]
           (Sim.listing "Clerk" "https://jobs/2" false) run_state0).
  reflexivity.
Defined.

(** The run of the simulated feed above, in full: two applications, two
    ledger rows, two pacing sleeps, nothing for the listing in between. *)
Example skipped_listing_run :
  let r := run_loop 20 Sim.cfg
             (Sim.world (Sim.feed_of []) (fun _ => Sim.session (Sim.always Sim.success_screen)))
             2
             [Sim.listing "Analyst" "https://jobs/1" true;
              Sim.listing "Clerk" "https://jobs/2" false;
              Sim.listing "Engineer" "https://jobs/3" true]
             run_state0 in
  fst r = Returned tt
  /\ map job_url (applications_data (ledger (snd r)))
     = [VStr "https://jobs/1"; VStr "https://jobs/3"]
  /\ n_applied (snd r) = 2%nat
  /\ List.filter (fun ev => match ev with EGet _ | ESleep 30 70 => true | _ => false end)
       (trace (browser (snd r)))
     = [EGet "https://jobs/1"; pacing; EGet "https://jobs/3"; pacing].
Proof. cbv zeta. repeat split; vm_compute; reflexivity. Qed.

End Orchestrator.

(* ===================================================================== *)
(** * The collector *)
(* ===================================================================== *)

Section Collector.

Import Driver Bot.

Ltac case_handles :=
  match goal with
  | |- context [handles ?cl ?e] => destruct (handles cl e)
  | |- context [if ?b then _ else _] => destruct b
  end.

(** The [for] loop appends at most one listing per card, and counts what
    it appends. *)
Lemma process_cards_count cards : forall jc jl e jc' jl',
  process_cards cards jc jl = (e, jc', jl') ->
  (jc <= jc' <= jc + length cards)%nat
  /\ (length jl' + jc = length jl + jc')%nat.
Proof.
  induction cards as [|c rest IH]; intros jc jl e jc' jl' H; simpl in H.
  - inversion H; subst. simpl. lia.
  - destruct (process_card c) as [[j|]|x].
    + apply IH in H. rewrite length_app in H. simpl in *. lia.
    + apply IH in H. simpl. lia.
    + inversion H; subst. simpl. lia.
Qed.

(** The collector never returns more than [max_jobs] listings. *)
Lemma scroll_loop_length fuel pages max : forall k h jc jl,
  length jl = jc ->
  Z.of_nat jc <= Z.max 0 max ->
  Z.of_nat (length (snd (scroll_loop fuel pages max k h jc jl))) <= Z.max 0 max.
Proof.
  induction fuel as [|fuel IH]; intros k h jc jl Hl Hb; simpl.
  - destruct (Z.of_nat jc <? max); simpl; lia.
  - destruct (Z.ltb_spec (Z.of_nat jc) max) as [Hlt|Hge]; [|simpl; lia].
    destruct (job_cards (pages k)) as [cards|e].
    + destruct (process_cards _ jc jl) as [[[e|] jc'] jl'] eqn:Hp;
        apply process_cards_count in Hp as [[H1 H2] H3];
        unfold slice in H2; rewrite length_take, length_drop in H2.
      * simpl. lia.
      * assert (Hjl : length jl' = jc') by lia.
        assert (Hjc : Z.of_nat jc' <= Z.max 0 max) by lia.
        destruct (new_height (pages k) =? h).
        -- destruct (rbind (show_more_button (pages k)) (fun click => click)) as [[]|e].
           ++ now apply IH.
           ++ case_handles; simpl; lia.
        -- now apply IH.
    + case_handles; simpl; lia.
Qed.

Lemma scroll_through_jobs_length fuel feed max :
  Z.of_nat (length (snd (scroll_through_jobs fuel feed max))) <= Z.max 0 max.
Proof.
  unfold scroll_through_jobs. destruct (initial_wait feed) as [[]|e].
  - apply scroll_loop_length; [reflexivity | simpl; lia].
  - case_handles; simpl; lia.
Qed.

(** C4, as stated, fails: the collector keeps an index into the current
    snapshot and never looks at the URLs it has emitted.  The first
    snapshot shows X; the view re-renders and the second shows Y and then
    X again: X is emitted twice (and Y not at all). *)
Lemma rerendered_item_emitted_twice :
  ~ NoDup (map listing_url
             (snd (scroll_through_jobs 10
                     (Sim.feed_of [[Sim.card "X" "https://jobs/x" true];
                                   [Sim.card "Y" "https://jobs/y" true;
                                    Sim.card "X" "https://jobs/x" true]])
                     4))).
Proof.
  intros H. vm_compute in H.
  inversion H as [|? ? Hn _]. apply Hn. now left.
Qed.

Lemma process_cards_all cards :
  all_extract cards = true ->
  forall jc jl,
    process_cards cards jc jl
    = (None, (jc + length cards)%nat, jl ++ listings_of cards).
Proof.
  induction cards as [|c rest IH]; intros Ha jc jl; simpl.
  - now rewrite Nat.add_0_r, app_nil_r.
  - unfold all_extract in Ha. simpl in Ha.
    apply andb_prop in Ha as [Hc Hrest].
    unfold listings_of. simpl. unfold card_listing in *.
    destruct (process_card c) as [[j|]|e]; try discriminate Hc.
    rewrite (IH Hrest). unfold listings_of.
    f_equal; [f_equal; lia|]. now rewrite <- app_assoc.
Qed.

Lemma all_extract_take n cards :
  all_extract cards = true -> all_extract (take n cards) = true.
Proof.
  unfold all_extract. rewrite !forallb_forall. intros H c Hc. apply H.
  rewrite <- (take_drop n cards). apply in_or_app. now left.
Qed.

Lemma all_extract_drop n cards :
  all_extract cards = true -> all_extract (drop n cards) = true.
Proof.
  unfold all_extract. rewrite !forallb_forall. intros H c Hc. apply H.
  rewrite <- (take_drop n cards). apply in_or_app. now right.
Qed.

(** A slice of an initial segment of [master], appended to the first
    [lo] cards, is again an initial segment. *)
Lemma slice_of_prefix (master : list Card) m lo hi :
  take lo master ++ slice (take m master) lo hi
  = take (lo + length (slice (take m master) lo hi)) master.
Proof.
  unfold slice. rewrite skipn_firstn_comm, take_take, take_take_drop.
  rewrite length_take, length_drop.
  set (c := (Nat.min (hi - lo) (m - lo))).
  destruct (Nat.le_gt_cases c (length master - lo)) as [Hle|Hgt].
  - now rewrite (Nat.min_l c) by lia.
  - rewrite (Nat.min_r c) by lia.
    rewrite !take_ge; [reflexivity | lia | lia].
Qed.

Lemma scroll_loop_prefix fuel pages max master :
  (forall n cards, job_cards (pages n) = Ok cards -> exists k, cards = take k master) ->
  all_extract master = true ->
  forall k h jc,
  exists n,
    snd (scroll_loop fuel pages max k h jc (listings_of (take jc master)))
    = listings_of (take n master).
Proof.
  intros Happ Hall. induction fuel as [|fuel IH]; intros k h jc; simpl.
  - exists jc. now destruct (Z.of_nat jc <? max).
  - destruct (Z.of_nat jc <? max); [|now exists jc].
    destruct (job_cards (pages k)) as [cards|e] eqn:Hc;
      [|exists jc; now case_handles].
    destruct (Happ k cards Hc) as [m ->].
    set (hi := Z.to_nat (Z.min (Z.of_nat (length (take m master))) max)).
    rewrite process_cards_all
      by (unfold slice; apply all_extract_take, all_extract_drop, all_extract_take, Hall).
    assert (E : listings_of (take jc master) ++ listings_of (slice (take m master) jc hi)
                = listings_of (take (jc + length (slice (take m master) jc hi)) master)).
    { unfold listings_of. now rewrite <- omap_app, slice_of_prefix. }
    rewrite E.
    destruct (new_height (pages k) =? h).
    + destruct (rbind (show_more_button (pages k)) (fun click => click)) as [[]|e].
      * apply IH.
      * eexists. now case_handles.
    + apply IH.
Qed.

Lemma NoDup_listings_prefix (master : list Card) n :
  NoDup (map listing_url (listings_of master)) ->
  NoDup (map listing_url (listings_of (take n master))).
Proof.
  intros H. rewrite <- (take_drop n master) in H.
  unfold listings_of in *. rewrite omap_app, map_app in H.
  now apply NoDup_app in H as [H _].
Qed.

(** C4 (amended): the collector does not compare URLs; it walks an index
    over the current snapshot.  When every snapshot is an initial segment
    of one list of cards (the view only appends), every card of that list
    yields a listing, and these listings have pairwise distinct URLs, the
    listings collected so far are, at every moment, those of an initial
    segment of that list, so each URL occurs exactly once in the output. *)
Theorem collector_no_duplicates_when_append_only
    (fuel : nat) (feed : Feed) (max_jobs : Z) (master : list Card) :
  append_only feed master ->
  all_extract master = true ->
  NoDup (map listing_url (listings_of master)) ->
  exists n,
    snd (scroll_through_jobs fuel feed max_jobs) = listings_of (take n master)
    /\ NoDup (map listing_url (snd (scroll_through_jobs fuel feed max_jobs))).
Proof.
  intros Happ Hall Hnd.
  assert (H : exists n, snd (scroll_through_jobs fuel feed max_jobs)
                        = listings_of (take n master)).
  { unfold scroll_through_jobs. destruct (initial_wait feed) as [[]|e].
    - apply (scroll_loop_prefix fuel (pages feed) max_jobs master Happ Hall 0%nat
               (initial_height feed) 0%nat).
    - exists 0%nat. now case_handles. }
  destruct H as [n Hn]. exists n. split; [exact Hn|].
  rewrite Hn. now apply NoDup_listings_prefix.
Qed.

Lemma collector_no_duplicates_when_append_only_witness :
  let f := Sim.feed_of [[Sim.card "A" "https://jobs/a" true];
                        [Sim.card "A" "https://jobs/a" true;
                         Sim.card "B" "https://jobs/b" false]] in
  let master := [Sim.card "A" "https://jobs/a" true;
                 Sim.card "B" "https://jobs/b" false] in
  append_only f master
  /\ all_extract master = true
  /\ NoDup (map listing_url (listings_of master))
  /\ exists n,
       snd (scroll_through_jobs 10 f 4) = listings_of (take n master)
       /\ NoDup (map listing_url (snd (scroll_through_jobs 10 f 4))).
Proof.
  cbv zeta.
  assert (Ha : append_only
                 (Sim.feed_of [[Sim.card "A" "https://jobs/a" true];
                               [Sim.card "A" "https://jobs/a" true;
                                Sim.card "B" "https://jobs/b" false]])
                 [Sim.card "A" "https://jobs/a" true;
                  Sim.card "B" "https://jobs/b" false]).
  { intros n cards. destruct n as [|[|[|n]]]; simpl; intros H; inversion H.
    - now exists 1%nat.
    - now exists 2%nat.
    - now exists 0%nat.
    - now exists 0%nat. }
  assert (Hn : NoDup (map listing_url
                        (listings_of [Sim.card "A" "https://jobs/a" true;
                                      Sim.card "B" "https://jobs/b" false]))).
  { vm_compute. apply NoDup_cons_2; [|apply NoDup_singleton].
    intros H. apply list_elem_of_singleton in H. discriminate H. }
  split; [exact Ha|]. split; [reflexivity|]. split; [exact Hn|].
  apply (collector_no_duplicates_when_append_only 10 _ 4 _ Ha eq_refl Hn).
Defined.

End Collector.

(* ===================================================================== *)
(** * The ledger and the application budget *)
(* ===================================================================== *)

Section Budget.

Import Driver Bot.

Lemma successful_applications_log job status notes now l :
  successful_applications (log_application job status notes now l)
  = (successful_applications l + if status then 1 else 0)%nat.
Proof.
  unfold successful_applications, log_application. simpl.
  rewrite List.filter_app, length_app. now destruct status.
Qed.

(** What the [for] loop of [run] leaves behind, whenever and however it
    stops. *)
Lemma run_loop_ledger fuel cfg w max jobs : forall rs r rs',
  run_loop fuel cfg w max jobs rs = (r, rs') ->
  exists processed rest,
    jobs = processed ++ rest
    /\ map job_url (applications_data (ledger rs'))
       = map job_url (applications_data (ledger rs))
         ++ map listing_url (List.filter has_easy_apply processed)
    /\ (csv_rows (ledger rs) = applications_data (ledger rs) ->
        csv_rows (ledger rs') = applications_data (ledger rs'))
    /\ Z.of_nat (successful_applications (ledger rs')) - application_count rs'
       = Z.of_nat (successful_applications (ledger rs)) - application_count rs
    /\ application_count rs <= application_count rs'
       <= Z.max (application_count rs) max
    /\ (r = Returned tt -> rest = [] \/ max <= application_count rs').
Proof.
  induction jobs as [|j rest0 IH]; intros rs r rs' H; cbn [run_loop] in H.
  - inversion H; subst. exists [], []. simpl. rewrite app_nil_r.
    repeat split; auto; lia.
  - destruct (Z.geb_spec (application_count rs) max) as [Hge|Hlt].
    { inversion H; subst. exists [], (j :: rest0). simpl. rewrite app_nil_r.
      repeat split; auto; lia. }
    destruct (has_easy_apply j) eqn:Hq.
    + destruct (apply_to_job fuel cfg j (sessions w (n_applied rs)) (browser rs))
        as [[[status notes]|e|] st'].
      * apply IH in H as (processed & rest & -> & Hrows & Hcsv & Hs & Hc & Hstop).
        exists (j :: processed), rest. cbn [List.filter]. rewrite Hq.
        cbn [ledger application_count] in *.
        rewrite successful_applications_log in Hs.
        split; [reflexivity|]. split; [|split; [|split; [|split]]].
        -- rewrite Hrows. unfold log_application. cbn [applications_data].
           rewrite map_app, <- app_assoc. reflexivity.
        -- intros E. apply Hcsv. unfold log_application.
           cbn [applications_data csv_rows]. now rewrite E.
        -- destruct status; lia.
        -- destruct status; lia.
        -- exact Hstop.
      * inversion H; subst. exists [], (j :: rest0). simpl. rewrite app_nil_r.
        repeat split; auto; try lia. discriminate.
      * inversion H; subst. exists [], (j :: rest0). simpl. rewrite app_nil_r.
        repeat split; auto; try lia. discriminate.
    + apply IH in H as (processed & rest & -> & Hrows & Hcsv & Hs & Hc & Hstop).
      exists (j :: processed), rest. cbn [List.filter]. rewrite Hq.
      repeat split; auto; lia.
Qed.

(** C1, as stated, fails: the budget counts successes only.  With a
    budget of one and two quick-apply listings whose job pages never
    load, both attempts fail and both are recorded: two rows for a budget
    of one. *)
Lemma two_failures_exceed_budget :
  ~ (Z.of_nat (length (applications_data (ledger (snd
        (run 20 Sim.cfg
           (Sim.world
              (Sim.feed_of [[Sim.card "Analyst" "https://jobs/1" true;
                             Sim.card "Engineer" "https://jobs/2" true]])
              (fun _ => Sim.dead_session))
           "Data Analyst" "Remote" 1)))))
     <= 1).
Proof. vm_compute. intros H. now apply H. Qed.


(** A run with a budget of two over a feed of five listings, three of
    them quick-apply: the first and third application succeed, the second
    needs manual intervention.  The ledger has three rows for a budget of
    two; two are successes and the manual intervention counts as failed.
    Only four listings are collected (twice the budget). *)
Example budget_two_scenario :
  let w := Sim.world
             (Sim.feed_of [[Sim.card "A" "https://jobs/1" true;
                            Sim.card "B" "https://jobs/2" true;
                            Sim.card "C" "https://jobs/3" true;
                            Sim.card "D" "https://jobs/4" false;
                            Sim.card "E" "https://jobs/5" false]])
             (fun n => match n with
                       | 1%nat => Sim.session (Sim.always Sim.blank)
                       | _ => Sim.session (Sim.always Sim.success_screen)
                       end) in
  let r := run 20 Sim.cfg w "Data Analyst" "Remote" 2 in
  fst r = Returned tt
  /\ length (snd (discovered 20 w 2)) = 4%nat
  /\ map application_status (applications_data (ledger (snd r)))
     = ["Success"; "Failed"; "Success"]
  /\ successful_applications (ledger (snd r)) = 2%nat
  /\ failed_applications (ledger (snd r)) = 1%nat.
Proof. cbv zeta. repeat split; vm_compute; reflexivity. Qed.

Lemma run_after_finally fuel cfg w kw loc max :
  fst (run fuel cfg w kw loc max) = fst (run_try fuel cfg w kw loc max)
  /\ ledger (snd (run fuel cfg w kw loc max)) = ledger (snd (run_try fuel cfg w kw loc max))
  /\ application_count (snd (run fuel cfg w kw loc max))
     = application_count (snd (run_try fuel cfg w kw loc max)).
Proof.
  unfold run. now destruct (run_try fuel cfg w kw loc max) as [[[]|e|] rs].
Qed.

(** C1 (amended): the budget bounds the successes, not the attempts.
    In every run, however it ends, the successful rows are as many as the
    success counter says and at most [max_applications] (none for a
    budget below zero); the ledger has at most twice [max_applications]
    rows, since no more listings are collected; the CSV file holds the
    same rows; and the rows are, in order, those of the quick-apply
    listings among the listings processed, an initial part of the
    discovered sequence that, when the run returns after a successful
    search, is either the whole sequence or ends where the success budget
    is met. *)
Theorem run_ledger_within_budget
    (fuel : nat) (cfg : Settings) (w : World) (keywords location : string)
    (max_applications : Z) :
  let r := run fuel cfg w keywords location max_applications in
  let rows := applications_data (ledger (snd r)) in
  Z.of_nat (successful_applications (ledger (snd r))) = application_count (snd r)
  /\ application_count (snd r) <= Z.max 0 max_applications
  /\ Z.of_nat (length rows) <= Z.max 0 (max_applications * 2)
  /\ csv_rows (ledger (snd r)) = rows
  /\ exists processed rest,
       snd (discovered fuel w max_applications) = processed ++ rest
       /\ map job_url rows = map listing_url (List.filter has_easy_apply processed)
       /\ length rows = length (List.filter has_easy_apply processed)
       /\ (fst r = Returned tt -> session_ready w keywords location = true ->
           rest = [] \/ max_applications <= application_count (snd r)).
Proof.
  cbv zeta.
  destruct (run_after_finally fuel cfg w keywords location max_applications)
    as (-> & -> & ->).
  assert (Hidle : forall r,
    (r = Returned tt -> session_ready w keywords location = false) ->
    Z.of_nat (successful_applications (ledger run_state0)) = application_count run_state0
    /\ application_count run_state0 <= Z.max 0 max_applications
    /\ Z.of_nat (length (applications_data (ledger run_state0)))
       <= Z.max 0 (max_applications * 2)
    /\ csv_rows (ledger run_state0) = applications_data (ledger run_state0)
    /\ exists processed rest,
         snd (discovered fuel w max_applications) = processed ++ rest
         /\ map job_url (applications_data (ledger run_state0))
            = map listing_url (List.filter has_easy_apply processed)
         /\ length (applications_data (ledger run_state0))
            = length (List.filter has_easy_apply processed)
         /\ (r = Returned tt -> session_ready w keywords location = true ->
             rest = [] \/ max_applications <= application_count run_state0)).
  { intros r Hr. simpl. repeat split; try lia.
    exists [], (snd (discovered fuel w max_applications)). repeat split.
    intros E1 E2. rewrite (Hr E1) in E2. discriminate E2. }
  unfold run_try.
  destruct (verify_login w) eqn:E1;
    [|apply Hidle; intros _; unfold session_ready; now rewrite E1].
  destruct (navigate_to_jobs w) eqn:E2;
    [|apply Hidle; intros _; unfold session_ready; now rewrite E1, E2].
  destruct (search_jobs w keywords location true) eqn:E3;
    [|apply Hidle; intros _; unfold session_ready; now rewrite E1, E2, E3].
  cbn [negb].
  pose proof (scroll_through_jobs_length fuel (feed w) (max_applications * 2)) as Hlen.
  fold (discovered fuel w max_applications) in Hlen.
  destruct (discovered fuel w max_applications) as [[|e|] found];
    [|apply Hidle; discriminate|apply Hidle; discriminate].
  cbn [snd] in *.
  destruct (run_loop fuel cfg w max_applications found run_state0) as [r rs'] eqn:Hrun.
  apply run_loop_ledger in Hrun
    as (processed & rest & -> & Hrows & Hcsv & Hs & Hc & Hstop).
  cbn [fst snd]. simpl in Hrows, Hs, Hc.
  assert (Hn : length (applications_data (ledger rs'))
               = length (List.filter has_easy_apply processed)).
  { rewrite <- (length_map job_url), Hrows. apply length_map. }
  assert (E0 : successful_applications {| applications_data := []; csv_rows := [] |}
               = 0%nat) by reflexivity.
  rewrite E0 in Hs.
  split; [lia|]. split; [lia|]. split; [|split; [now apply Hcsv|]].
  - rewrite Hn. rewrite length_app in Hlen.
    pose proof (List.filter_length_le has_easy_apply processed). lia.
  - exists processed, rest. repeat split; auto.
Qed.

End Budget.

(* ===================================================================== *)
(** * Stripping whitespace *)
(* ===================================================================== *)


Ltac bytes :=
  unfold Py.is_whitespace, Py.is_space, Py.is_space2, Py.is_space3 in *;
  cbv zeta in *;
  repeat match goal with
         | |- _ = false => apply not_true_iff_false; intro
         end;
  repeat match goal with
         | H : _ |- _ =>
             progress rewrite ?orb_true_iff, ?andb_true_iff, ?Nat.eqb_eq, ?Nat.leb_le in H
         end;
  try lia.

Lemma space2_head c1 c2 : Py.is_space2 c1 c2 = true -> Py.is_space c1 = false.
Proof. intros H. bytes. Qed.

Lemma space2_tail c1 c2 : Py.is_space2 c1 c2 = true -> Py.is_space c2 = false.
Proof. intros H. bytes. Qed.

Lemma space3_head c1 c2 c3 :
  Py.is_space3 c1 c2 c3 = true -> Py.is_space c1 = false /\ Py.is_space2 c1 c2 = false.
Proof. intros H. split; bytes. Qed.

Lemma space3_tail c1 c2 c3 :
  Py.is_space3 c1 c2 c3 = true -> Py.is_space c3 = false /\ Py.is_space2 c2 c3 = false.
Proof. intros H. split; bytes. Qed.

Lemma str_app_cons c (a b : string) : String c a +:+ b = String c (a +:+ b).
Proof. reflexivity. Qed.

Lemma str_app_nil_l (b : string) : "" +:+ b = b.
Proof. reflexivity. Qed.

Lemma str_app_assoc (a b c : string) : (a +:+ b) +:+ c = a +:+ (b +:+ c).
Proof.
  induction a as [|x a IH]; [reflexivity|].
  rewrite !str_app_cons. f_equal. exact IH.
Qed.

Lemma str_app_nil_r (a : string) : a +:+ "" = a.
Proof.
  induction a as [|x a IH]; [reflexivity|].
  rewrite str_app_cons. f_equal. exact IH.
Qed.

Ltac unfold_app := rewrite ?str_app_cons, ?str_app_nil_l in *.

Lemma blank_one w : Py.is_whitespace w = true -> Py.whitespace_only w.
Proof.
  intros H. rewrite <- (str_app_nil_r w). apply Py.ws_cons; [exact H | constructor].
Qed.

Lemma blank_app a b : Py.whitespace_only a -> Py.whitespace_only b -> Py.whitespace_only (a +:+ b).
Proof.
  intros Ha Hb. induction Ha as [|w s Hw Hs IH]; [exact Hb|].
  rewrite str_app_assoc. now apply Py.ws_cons.
Qed.

(** One leading whitespace character is removed. *)
Lemma lstrip_whitespace w t : Py.is_whitespace w = true -> Py.lstrip (w +:+ t) = Py.lstrip t.
Proof.
  destruct w as [|c1 [|c2 [|c3 [|c4 w]]]]; try discriminate; cbn [Py.is_whitespace]; intros H.
  - unfold_app. cbn [Py.lstrip]. now rewrite H.
  - unfold_app. cbn [Py.lstrip]. now rewrite (space2_head _ _ H), H.
  - unfold_app. cbn [Py.lstrip].
    destruct (space3_head _ _ _ H) as [H1 H2]. now rewrite H1, H2, H.
Qed.

Lemma lstrip_blank b t : Py.whitespace_only b -> Py.lstrip (b +:+ t) = Py.lstrip t.
Proof.
  intros Hb. induction Hb as [|w s Hw Hs IH]; [reflexivity|].
  now rewrite str_app_assoc, lstrip_whitespace.
Qed.

(** What [lstrip] removes is whitespace, and what it leaves does not
    start with a whitespace character. *)
Lemma lstrip_spec_aux n : forall s, (String.length s <= n)%nat ->
  (exists before, s = before +:+ Py.lstrip s /\ Py.whitespace_only before)
  /\ (forall w rest, Py.lstrip s = w +:+ rest -> Py.is_whitespace w = false).
Proof.
  induction n as [|n IH]; intros s Hn.
  - destruct s; [|simpl in Hn; lia]. split.
    + exists "". split; [reflexivity | constructor].
    + intros [|c w] rest H; [reflexivity | unfold_app; discriminate H].
  - destruct s as [|c1 s1].
    { split.
      + exists "". split; [reflexivity | constructor].
      + intros [|c w] rest H; [reflexivity | unfold_app; discriminate H]. }
    simpl in Hn. cbn [Py.lstrip].
    destruct (Py.is_space c1) eqn:E1.
    { destruct (IH s1) as [[before [Hb Bb]] Hl]; [lia|]. split; [|exact Hl].
      exists (String c1 "" +:+ before). split.
      + unfold_app. now rewrite <- Hb.
      + apply Py.ws_cons; [exact E1 | exact Bb]. }
    destruct s1 as [|c2 s2].
    { split.
      + exists "". split; [reflexivity | constructor].
      + intros [|a [|b w]] rest H; [reflexivity | | unfold_app; discriminate H].
        unfold_app. inversion H; subst. exact E1. }
    simpl in Hn.
    destruct (Py.is_space2 c1 c2) eqn:E2.
    { destruct (IH s2) as [[before [Hb Bb]] Hl]; [lia|]. split; [|exact Hl].
      exists (String c1 (String c2 "") +:+ before). split.
      + unfold_app. now rewrite <- Hb.
      + apply Py.ws_cons; [exact E2 | exact Bb]. }
    destruct s2 as [|c3 s3].
    { split.
      + exists "". split; [reflexivity | constructor].
      + intros [|a [|b [|c w]]] rest H; try reflexivity; unfold_app; inversion H; subst;
          first [exact E1 | exact E2]. }
    simpl in Hn.
    destruct (Py.is_space3 c1 c2 c3) eqn:E3.
    { destruct (IH s3) as [[before [Hb Bb]] Hl]; [lia|]. split; [|exact Hl].
      exists (String c1 (String c2 (String c3 "")) +:+ before). split.
      + unfold_app. now rewrite <- Hb.
      + apply Py.ws_cons; [exact E3 | exact Bb]. }
    split.
    + exists "". split; [reflexivity | constructor].
    + intros [|a [|b [|c [|d w]]]] rest H; try reflexivity; unfold_app; inversion H; subst;
        first [exact E1 | exact E2 | exact E3].
Qed.

Lemma lstrip_split s : exists before, s = before +:+ Py.lstrip s /\ Py.whitespace_only before.
Proof. exact (proj1 (lstrip_spec_aux (String.length s) s (Nat.le_refl _))). Qed.

Lemma lstrip_no_leading s w rest :
  Py.lstrip s = w +:+ rest -> Py.is_whitespace w = false.
Proof. exact (proj2 (lstrip_spec_aux (String.length s) s (Nat.le_refl _)) w rest). Qed.

(** What [rstrip] removes is whitespace, and what it leaves does not end
    with a whitespace character. *)
Lemma rstrip_split s : exists after, s = Py.rstrip s +:+ after /\ Py.whitespace_only after.
Proof.
  induction s as [|c s IH].
  - exists "". split; [reflexivity | constructor].
  - destruct IH as [after [Ha Ba]]. cbn [Py.rstrip]. cbv zeta.
    destruct (Py.is_whitespace (String c (Py.rstrip s))) eqn:E.
    + exists (String c (Py.rstrip s) +:+ after). split.
      * unfold_app. now rewrite <- Ha.
      * now apply Py.ws_cons.
    + exists after. split; [unfold_app; now rewrite <- Ha | exact Ba].
Qed.

Lemma rstrip_no_trailing s : forall rest w,
  Py.rstrip s = rest +:+ w -> Py.is_whitespace w = false.
Proof.
  induction s as [|c s IH]; intros rest w.
  - destruct rest; unfold_app; [intros <-; reflexivity | discriminate].
  - cbn [Py.rstrip]. cbv zeta.
    destruct (Py.is_whitespace (String c (Py.rstrip s))) eqn:E.
    + destruct rest; unfold_app; [intros <-; reflexivity | discriminate].
    + destruct rest as [|a rest]; unfold_app.
      * intros <-. exact E.
      * intros H. inversion H; subst. eapply IH; eauto.
Qed.

(** One trailing whitespace character is removed. *)
Lemma rstrip_whitespace w s :
  Py.is_whitespace w = true -> Py.rstrip s = "" -> Py.rstrip (w +:+ s) = "".
Proof.
  destruct w as [|c1 [|c2 [|c3 [|c4 w]]]]; try discriminate; cbn [Py.is_whitespace];
    intros H Hs; unfold_app; cbn [Py.rstrip]; cbv zeta; rewrite Hs; cbn [Py.is_whitespace].
  - now rewrite H.
  - now rewrite (space2_tail _ _ H), H.
  - destruct (space3_tail _ _ _ H) as [H1 H2]. now rewrite H1, H2, H.
Qed.

Lemma rstrip_blank b : Py.whitespace_only b -> Py.rstrip b = "".
Proof.
  intros Hb. induction Hb as [|w s Hw Hs IH]; [reflexivity|].
  now apply rstrip_whitespace.
Qed.

Lemma rstrip_app t s : Py.rstrip s = "" -> Py.rstrip (t +:+ s) = Py.rstrip t.
Proof.
  intros Hs. induction t as [|c t IH]; [exact Hs|].
  unfold_app. cbn [Py.rstrip]. now rewrite IH.
Qed.

(** [strip] removes whitespace at both ends and nothing else. *)
Lemma strip_split s :
  exists before after,
    s = before +:+ Py.strip s +:+ after /\ Py.whitespace_only before /\ Py.whitespace_only after.
Proof.
  destruct (lstrip_split s) as [before [Hb Bb]].
  destruct (rstrip_split (Py.lstrip s)) as [after [Ha Ba]].
  exists before, after. unfold Py.strip. rewrite <- Ha. now split.
Qed.

Lemma strip_no_leading s w rest :
  Py.strip s = w +:+ rest -> Py.is_whitespace w = false.
Proof.
  unfold Py.strip. intros H.
  destruct (rstrip_split (Py.lstrip s)) as [after [Ha _]].
  rewrite H, str_app_assoc in Ha. exact (lstrip_no_leading _ _ _ Ha).
Qed.

(** A text that starts with an ASCII character other than whitespace is
    left alone by [lstrip]. *)
Lemma lstrip_ascii c s :
  (nat_of_ascii c < 128)%nat -> Py.is_space c = false ->
  Py.lstrip (String c s) = String c s.
Proof.
  intros Hc Hs. cbn [Py.lstrip]. rewrite Hs.
  destruct s as [|c2 [|c3 s]]; try reflexivity.
  - assert (E : Py.is_space2 c c2 = false) by bytes. now rewrite E.
  - assert (E : Py.is_space2 c c2 = false) by bytes.
    assert (E' : Py.is_space3 c c2 c3 = false) by bytes. now rewrite E, E'.
Qed.


(* ===================================================================== *)
(** * Text helpers *)
(* ===================================================================== *)

Section Text_facts.

Import Driver.

Lemma strip_word word before after :
  In word ["yes"; "true"; "y"; "1"; "t"] -> Py.whitespace_only before -> Py.whitespace_only after ->
  Py.strip (before +:+ word +:+ after) = word.
Proof.
  intros Hw Bb Ba. unfold Py.strip. rewrite lstrip_blank by exact Bb.
  assert (Hl : Py.lstrip (word +:+ after) = word +:+ after).
  { simpl in Hw.
    destruct Hw as [<-|[<-|[<-|[<-|[<-|[]]]]]]; unfold_app;
      apply lstrip_ascii; solve [vm_compute; lia | reflexivity]. }
  rewrite Hl, rstrip_app by (now apply rstrip_blank).
  simpl in Hw. destruct Hw as [<-|[<-|[<-|[<-|[<-|[]]]]]]; reflexivity.
Qed.

(** X1: whatever [str.lower] does to the text, [parse_boolean_response]
    answers [True] exactly when the lower-cased text is one of the words
    yes, true, y, 1, t with nothing but whitespace characters (those of
    [str.isspace], the Unicode ones included) before and after it. *)
Theorem parse_boolean_response_normalises (lower : string -> string) (text : string) :
  Text.parse_boolean_response lower text = true
  <-> exists before word after,
        lower text = before +:+ word +:+ after
        /\ Py.whitespace_only before /\ Py.whitespace_only after
        /\ In word ["yes"; "true"; "y"; "1"; "t"].
Proof.
  unfold Text.parse_boolean_response. cbv zeta. rewrite existsb_exists. split.
  - intros [word [Hw He]]. apply String.eqb_eq in He.
    destruct (strip_split (lower text)) as [before [after [Hs [Bb Ba]]]].
    subst word. exists before, (Py.strip (lower text)), after. now repeat split.
  - intros [before [word [after [Hs [Bb [Ba Hw]]]]]].
    exists word. split; [exact Hw|].
    rewrite Hs, strip_word by assumption. apply String.eqb_refl.
Qed.

(** X2: [extract_text_safely] returns the element's text with the
    whitespace characters at its two ends removed and nothing else: the
    result neither starts nor ends with a whitespace character (those of
    [str.isspace], the Unicode ones included), and what was cut off on
    either side is whitespace only.  It returns the empty string when
    there is no element or reading it raises. *)
Theorem extract_text_safely_stripped (element : option (reply string)) :
  (forall w rest, Text.extract_text_safely element = w +:+ rest ->
                  Py.is_whitespace w = false)
  /\ (forall rest w, Text.extract_text_safely element = rest +:+ w ->
                     Py.is_whitespace w = false)
  /\ (forall text, element = Some (Ok text) ->
        exists before after,
          text = before +:+ Text.extract_text_safely element +:+ after
          /\ Py.whitespace_only before /\ Py.whitespace_only after)
  /\ ((forall text, element <> Some (Ok text)) -> Text.extract_text_safely element = "").
Proof.
  assert (Hempty : forall w rest : string, "" = w +:+ rest -> Py.is_whitespace w = false).
  { intros [|c w] rest H; [reflexivity | discriminate H]. }
  assert (Hempty' : forall rest w : string, "" = rest +:+ w -> Py.is_whitespace w = false).
  { intros [|c rest] w H; [|discriminate H]. rewrite str_app_nil_l in H. now subst. }
  destruct element as [[text|e]|]; cbn [Text.extract_text_safely].
  - split; [apply strip_no_leading|]. split; [apply rstrip_no_trailing|]. split.
    + intros t H. inversion H; subst. apply strip_split.
    + intros H. exfalso. exact (H text eq_refl).
  - split; [exact Hempty|]. split; [exact Hempty'|]. split; [discriminate | reflexivity].
  - split; [exact Hempty|]. split; [exact Hempty'|]. split; [discriminate | reflexivity].
Qed.

(** The reply "YES" followed by a no-break space (U+00A0, the bytes
    C2 A0, which [str.lower] leaves alone as [Py.ascii_lower] does)
    counts as an affirmative answer, as it does in Python; and a title
    is stripped of the no-break space in front of it. *)
Example parse_boolean_response_no_break_space :
  Text.parse_boolean_response Py.ascii_lower
    ("YES" +:+ String (ascii_of_nat 194) (String (ascii_of_nat 160) "")) = true
  /\ Text.extract_text_safely
       (Some (Ok (String (ascii_of_nat 194) (String (ascii_of_nat 160) " Analyst  "))))
     = "Analyst".
Proof. split; reflexivity. Qed.

End Text_facts.

(* ===================================================================== *)
(** * Session establishment and search *)
(* ===================================================================== *)

Section Session_facts.

Import Driver Bot.

Lemma rcatch_err {A} (r : reply A) classes h e :
  (forall e0, exists a, h e0 = Ok a) ->
  rcatch r classes h = Err e -> handles classes e = false.
Proof.
  intros Hh. unfold rcatch. destruct r as [a|e0]; [discriminate|].
  destruct (handles classes e0) eqn:E.
  - destruct (Hh e0) as [a Ha]. rewrite Ha. discriminate.
  - intros H. inversion H; subst. exact E.
Qed.

(** X3: an exception that leaves [login], [navigate_to_jobs],
    [verify_login] or [search_jobs] is never of a class their [except]
    clauses list: a [TimeoutException] or a [NoSuchElementException]
    never leaves any of the four, nor does an
    [ElementClickInterceptedException] leave [search_jobs].  (What they
    return instead is not always [False]: [verify_login] falls back to
    [login], and [search_jobs] tolerates a failing filter.) *)
Theorem session_errors_contained (e : Exn) :
  (forall o, Session.login o = Err e -> handles Session.session_excepts e = false)
  /\ (forall o, Session.navigate_to_jobs o = Err e ->
                handles Session.session_excepts e = false)
  /\ (forall o, Session.verify_login o = Err e ->
                handles Session.session_excepts e = false)
  /\ (forall o easy, Session.search_jobs o easy = Err e ->
                     handles Session.search_excepts e = false).
Proof.
  assert (Hl : forall o, Session.login o = Err e ->
                         handles Session.session_excepts e = false).
  { intros o. apply rcatch_err. intros _. now exists false. }
  split; [exact Hl|]. split; [|split].
  - intros o. apply rcatch_err. intros _. now exists false.
  - intros o. unfold Session.verify_login.
    match goal with
    | |- match ?body with _ => _ end = _ -> _ => destruct body as [b|e0]
    end; [discriminate|].
    destruct (handles Session.session_excepts e0) eqn:E; [apply Hl|].
    intros H. inversion H; subst. exact E.
  - intros o easy. apply rcatch_err. intros _. now exists false.
Qed.

End Session_facts.

Section Session_results.

Import Driver Bot.

Lemma login_true o :
  Session.login o = Ok true ->
  Session.login_page o = Ok tt /\ Session.username_wait o = Ok tt
  /\ Session.username_keys o = Ok tt /\ Session.password_keys o = Ok tt
  /\ Session.submit_click o = Ok tt /\ Session.login_feed_wait o = Ok tt.
Proof.
  unfold Session.login, rcatch, rbind.
  destruct (Session.login_page o) as [[]|e1]; [|destruct (handles _ e1); discriminate].
  destruct (Session.username_wait o) as [[]|e2]; [|destruct (handles _ e2); discriminate].
  destruct (Session.username_keys o) as [[]|e3]; [|destruct (handles _ e3); discriminate].
  destruct (Session.password_keys o) as [[]|e4]; [|destruct (handles _ e4); discriminate].
  destruct (Session.submit_click o) as [[]|e5]; [|destruct (handles _ e5); discriminate].
  destruct (Session.login_feed_wait o) as [[]|e6]; [|destruct (handles _ e6); discriminate].
  now repeat split.
Qed.

(** X4: [verify_login] answers [True] only when the feed identity module
    has been located: either directly, on a feed page that did not
    redirect to the login page, or at the end of a login in which every
    driver call answered. *)
Theorem verify_login_true_means_feed_seen (o : Session.VerifyObs) :
  Session.verify_login o = Ok true ->
  (Session.feed_page o = Ok tt
   /\ Py.contains "/login" (Session.url_after o) = false
   /\ Session.feed_wait o = Ok tt)
  \/ (Session.login (Session.login_obs o) = Ok true
      /\ Session.login_feed_wait (Session.login_obs o) = Ok tt).
Proof.
  unfold Session.verify_login, rbind.
  assert (Hl : Session.login (Session.login_obs o) = Ok true ->
               Session.login (Session.login_obs o) = Ok true
               /\ Session.login_feed_wait (Session.login_obs o) = Ok tt).
  { intros H. split; [exact H|]. now apply login_true in H. }
  destruct (Session.feed_page o) as [[]|e].
  - destruct (Py.contains "/login" (Session.url_after o)).
    + destruct (Session.login (Session.login_obs o)) as [b|e] eqn:E.
      * intros H. right. apply Hl. congruence.
      * destruct (handles Session.session_excepts e); [|discriminate].
        intros H. right. apply Hl. congruence.
    + destruct (Session.feed_wait o) as [[]|e].
      * intros _. left. now repeat split.
      * destruct (handles Session.session_excepts e); [|discriminate].
        intros H. right. now apply Hl.
  - destruct (handles Session.session_excepts e); [|discriminate].
    intros H. right. now apply Hl.
Qed.

Lemma verify_login_true_means_feed_seen_witness :
  Session.verify_login Sim2.redirected = Ok true
  /\ ((Session.feed_page Sim2.redirected = Ok tt
       /\ Py.contains "/login" (Session.url_after Sim2.redirected) = false
       /\ Session.feed_wait Sim2.redirected = Ok tt)
      \/ (Session.login (Session.login_obs Sim2.redirected) = Ok true
          /\ Session.login_feed_wait (Session.login_obs Sim2.redirected) = Ok tt)).
Proof.
  split; [reflexivity|].
  apply (verify_login_true_means_feed_seen Sim2.redirected). reflexivity.
Defined.

(** X5: the Easy Apply filter of [search_jobs] is best effort.  Unless
    the filter raises an exception outside the listed classes, asking for
    the filter changes nothing in the result: a search that worked is
    reported as [True] whether or not the filter could be applied. *)
Theorem search_filter_is_best_effort (o : Session.SearchObs) :
  (forall e, Session.filter_part o = Err e ->
             handles Session.search_excepts e = true) ->
  Session.search_jobs o true = Session.search_jobs o false
  /\ (Session.search_part o = Ok tt -> Session.search_jobs o true = Ok true).
Proof.
  intros H. unfold Session.search_jobs.
  destruct (Session.search_part o) as [[]|e0]; [|split; [reflexivity|discriminate]].
  destruct (Session.filter_part o) as [[]|e] eqn:E; [split; reflexivity|].
  unfold rcatch, rbind. cbv beta iota. rewrite (H e eq_refl). split; reflexivity.
Qed.

Lemma search_filter_is_best_effort_witness :
  (forall e, Session.filter_part Sim2.search_without_filter = Err e ->
             handles Session.search_excepts e = true)
  /\ Session.search_jobs Sim2.search_without_filter true
     = Session.search_jobs Sim2.search_without_filter false
  /\ (Session.search_part Sim2.search_without_filter = Ok tt ->
      Session.search_jobs Sim2.search_without_filter true = Ok true).
Proof.
  assert (H : forall e, Session.filter_part Sim2.search_without_filter = Err e ->
                        handles Session.search_excepts e = true).
  { intros e He. inversion He. reflexivity. }
  split; [exact H|].
  apply (search_filter_is_best_effort Sim2.search_without_filter H).
Defined.

(** X6: a configuration that [validate_config] accepts lets the bot be
    constructed: the credential check of [__init__] passes, and the
    resume path the wizard will upload is empty or names an existing
    file. *)
Theorem validated_config_constructs_bot
    (env : gmap string string) (path_exists : string -> bool) :
  Session.validate_config env path_exists = None ->
  exists cfg,
    Session.init_settings env = Some cfg
    /\ (resume_path cfg = "" \/ path_exists (resume_path cfg) = true).
Proof.
  unfold Session.validate_config, Session.init_settings. cbv zeta.
  destruct (Py.nonempty (default "" (env !! "LINKEDIN_EMAIL"))); [|discriminate].
  destruct (Py.nonempty (default "" (env !! "LINKEDIN_PASSWORD"))); [|discriminate].
  cbn [negb andb].
  destruct (Config.getenv env "RESUME_PATH" "") as [|c p] eqn:E.
  - intros _. eexists. split; [reflexivity|]. now left.
  - cbn [Py.nonempty andb].
    destruct (path_exists (String c p)) eqn:Hp; [|discriminate].
    intros _. eexists. split; [reflexivity|]. now right.
Qed.

Lemma validated_config_constructs_bot_witness :
  Session.validate_config Sim2.env (fun _ => true) = None
  /\ exists cfg,
       Session.init_settings Sim2.env = Some cfg
       /\ (resume_path cfg = "" \/ (fun _ : string => true) (resume_path cfg) = true).
Proof.
  split; [vm_compute; reflexivity|].
  apply (validated_config_constructs_bot Sim2.env (fun _ => true)).
  vm_compute. reflexivity.
Defined.

(** X7: with the profile of [config.DEFAULT_ANSWERS], whatever the
    environment holds and whatever [str.lower] does to the prompt,
    [get_answer_for_question] has an answer for every prompt in whose
    lower-cased text a keyword occurs: it returns none exactly when no
    keyword category matches. *)
Theorem default_profile_answers_every_match
    (lower : string -> string) (env : gmap string string) (q : string) :
  Utils.get_answer_for_question lower q (Config.DEFAULT_ANSWERS env) = None
  <-> Utils.first_category (lower q) = None.
Proof.
  rewrite get_answer_refines_spec. unfold Utils.resolve_spec.
  destruct (Utils.first_category (lower q)) as [c|]; [|now split].
  destruct (default_answers_complete env c) as [a Ha]. rewrite Ha.
  split; discriminate.
Qed.

End Session_results.

(* ===================================================================== *)
(** * What the navigator asks of the browser *)
(* ===================================================================== *)

Section Navigator_commands.

Import Driver Bot Facts.

Lemma emits_bind_val {P : Event -> Prop} {A B} (c : M A) (k : A -> M B) :
  emits P c ->
  (forall a st st', c st = (Returned a, st') -> emits P (k a)) ->
  emits P (bind c k).
Proof.
  intros Hc Hk st. unfold bind.
  destruct (Hc st) as [n1 [H1 F1]].
  destruct (c st) as [[a|e|] st1] eqn:E; simpl in *.
  - destruct (Hk a st st1 E st1) as [n2 [H2 F2]]. exists (n1 ++ n2).
    rewrite H2, H1, app_assoc. split; [reflexivity|].
    apply Forall_app; now split.
  - now exists n1.
  - now exists n1.
Qed.

Ltac wizard_side := first [exact I | reflexivity | (cbn; intuition congruence)].

Ltac wizard_step :=
  first
    [ apply emits_ret | apply emits_raise | apply emits_note
    | apply emits_get_notes | apply emits_fresh_notes | apply emits_set_checkbox
    | apply emits_out_of_fuel | apply emits_subscript
    | apply emits_emit; wizard_side
    | apply emits_perform; wizard_side
    | apply emits_try_pass
    | apply emits_try_except; [|intros ?]
    | apply emits_bind; [|intros ?] ].

Ltac wizard_auto :=
  repeat (wizard_step
          || match goal with
             | |- emits _ (match ?x with _ => _ end) => destruct x
             | |- emits _ (if ?x then _ else _) => destruct x
             end).

Variable cfg : Settings.

Lemma wizard_note_required_fields fields :
  emits (wizard_event cfg) (note_required_fields fields).
Proof. induction fields as [|f rest IH]; simpl; wizard_auto. exact IH. Qed.

Lemma wizard_fill_phone_inputs inputs :
  phone_number cfg <> "" ->
  emits (wizard_event cfg) (fill_phone_inputs (phone_number cfg) inputs).
Proof.
  intros Hp. induction inputs as [|p rest IH]; simpl; wizard_auto; exact IH.
Qed.

Lemma wizard_upload_resumes uploads :
  resume_path cfg <> "" ->
  emits (wizard_event cfg) (upload_resumes (resume_path cfg) uploads).
Proof.
  intros Hp. induction uploads as [|u rest IH]; simpl; wizard_auto; exact IH.
Qed.

Lemma nonempty_ne s : Py.nonempty s = true -> s <> "".
Proof. destruct s; [discriminate | intros _; discriminate]. Qed.

Lemma wizard_required_fields_step s :
  emits (wizard_event cfg) (required_fields_step cfg s).
Proof.
  unfold required_fields_step.
  apply emits_bind; [wizard_auto | intros _].
  destruct (required_fields s) as [|f fs]; [apply emits_ret|].
  apply emits_bind; [apply wizard_note_required_fields | intros _].
  apply emits_bind; [wizard_auto | intros _].
  destruct (phone_inputs s) as [|p ps]; [apply emits_ret|].
  cbn [andb]. destruct (Py.nonempty (phone_number cfg)) eqn:E; [|apply emits_ret].
  apply wizard_fill_phone_inputs. now apply nonempty_ne.
Qed.

Lemma wizard_resume_step s : emits (wizard_event cfg) (resume_step cfg s).
Proof.
  unfold resume_step.
  apply emits_bind; [wizard_auto | intros _].
  destruct (resume_uploads s) as [|u us]; [apply emits_ret|].
  cbn [andb]. destruct (Py.nonempty (resume_path cfg)) eqn:E; [|apply emits_ret].
  apply wizard_upload_resumes. now apply nonempty_ne.
Qed.

Lemma wizard_cycle current_step s : emits (wizard_event cfg) (cycle cfg current_step s).
Proof.
  unfold cycle. apply emits_try_except; [|intros e; wizard_auto].
  unfold cycle_try.
  apply emits_bind; [unfold review_step; wizard_auto | intros _].
  apply emits_bind;
    [unfold submit_step, confirm_submission; wizard_auto | intros submitted].
  destruct submitted as [r|]; [apply emits_ret|].
  apply emits_bind; [apply wizard_required_fields_step | intros _].
  apply emits_bind; [apply wizard_resume_step | intros _].
  apply emits_bind; [unfold follow_step, click_checkbox; wizard_auto | intros _].
  unfold next_step, exit_application. wizard_auto.
Qed.

Lemma wizard_step_loop fuel screens : forall n current_step,
  emits (wizard_event cfg) (step_loop fuel cfg screens n current_step).
Proof.
  induction fuel as [|fuel IH]; intros n current_step; simpl;
    destruct (current_step <=? max_steps)%nat; try apply emits_ret.
  - apply emits_out_of_fuel.
  - apply emits_bind; [apply wizard_cycle | intros step].
    destruct step; [apply emits_ret | apply IH | apply IH].
Qed.

Lemma wizard_process fuel screens :
  emits (wizard_event cfg) (_process_application_steps fuel cfg screens).
Proof.
  unfold _process_application_steps.
  apply emits_bind; [apply emits_fresh_notes | intros _]. apply wizard_step_loop.
Qed.

Lemma navigator_apply_to_job fuel job_data sess :
  emits (navigator_event cfg job_data) (apply_to_job fuel cfg job_data sess).
Proof.
  unfold apply_to_job. destruct (has_easy_apply job_data); [|apply emits_ret].
  cbn [negb]. apply emits_try_except; [|intros e; apply emits_ret].
  apply emits_bind; [apply emits_subscript | intros _].
  apply emits_bind; [apply emits_subscript | intros _].
  apply emits_bind_val; [apply emits_subscript | intros url st st' Hurl].
  assert (Hu : listing_url job_data = url).
  { unfold subscript in Hurl. unfold listing_url, get.
    destruct (job_data !! "url") as [v|]; [|discriminate Hurl].
    inversion Hurl. reflexivity. }
  apply emits_bind; [apply emits_perform; cbn; now rewrite Hu | intros _].
  apply emits_bind; [apply emits_perform; exact I | intros _].
  apply emits_bind; [apply emits_perform; exact I | intros _].
  apply emits_bind; [apply emits_perform; exact I | intros _].
  apply emits_bind; [apply emits_perform; exact I | intros _].
  eapply emits_weaken; [|apply wizard_process].
  intros ev. destruct ev; simpl; tauto.
Qed.

End Navigator_commands.

Section Navigator_facts.

Import Driver Bot Facts.

(** X8: whatever the browser answers, an application only issues
    commands of a fixed repertoire.  It navigates to the listing's own URL
    and nowhere else; it types the configured phone number into phone
    inputs and the configured resume path into file inputs, each only
    when it is configured, and types nothing else anywhere; it pauses for
    1 to 2 s or for 1 s; it runs no script and never quits the browser. *)
Theorem navigator_commands_are_bounded
    (fuel : nat) (cfg : Settings) (job_data : JobData) (sess : ApplySession) (st : St) :
  exists new,
    trace (snd (apply_to_job fuel cfg job_data sess st)) = trace st ++ new
    /\ Forall (navigator_event cfg job_data) new
    /\ (forall sel text,
          In (ESendKeys sel text) new ->
          (sel = PhoneInput /\ text = phone_number cfg /\ text <> "")
          \/ (sel = FileInput /\ text = resume_path cfg /\ text <> ""))
    /\ (forall url, In (EGet url) new -> url = str (listing_url job_data))
    /\ (forall code, ~ In (EScript code) new)
    /\ ~ In EQuit new.
Proof.
  destruct (navigator_apply_to_job cfg fuel job_data sess st) as [new [Ht F]].
  exists new. split; [exact Ht|]. split; [exact F|].
  rewrite List.Forall_forall in F.
  split; [|split; [|split]].
  - intros sel text Hin. apply F in Hin. cbn in Hin.
    destruct sel; try contradiction.
    + left. destruct Hin as [-> Hne]. now repeat split.
    + right. destruct Hin as [-> Hne]. now repeat split.
  - intros url Hin. apply F in Hin. exact Hin.
  - intros code Hin. apply F in Hin. exact Hin.
  - intros Hin. apply F in Hin. exact Hin.
Qed.

End Navigator_facts.

(* ===================================================================== *)
(** * How an attempt ends *)
(* ===================================================================== *)

Section Attempt_results.

Import Driver Bot Facts Ends.

Lemma bind_inv {A B} (c : M A) (k : A -> M B) st r st' :
  bind c k st = (r, st') ->
  (exists a st1, c st = (Returned a, st1) /\ k a st1 = (r, st'))
  \/ (exists e, c st = (Raised e, st') /\ r = Raised e)
  \/ (c st = (OutOfFuel, st') /\ r = OutOfFuel).
Proof.
  unfold bind. destruct (c st) as [[a|e|] st1]; intros H.
  - left. now exists a, st1.
  - right. left. exists e. inversion H; subst. now split.
  - right. right. inversion H; subst. now split.
Qed.

Lemma bind_returned {A B} (c : M A) (k : A -> M B) st b st' :
  bind c k st = (Returned b, st') ->
  exists a st1, c st = (Returned a, st1) /\ k a st1 = (Returned b, st').
Proof.
  intros H. apply bind_inv in H as [H|[[e [_ H]]|[_ H]]];
    [exact H | discriminate H | discriminate H].
Qed.

Lemma appends_of {A} (c : M A) st r st' :
  appends c -> c st = (r, st') -> exists new, trace st' = trace st ++ new.
Proof.
  intros Hc E. destruct (Hc st) as [new [H _]]. rewrite E in H. now exists new.
Qed.

Lemma appends_review_step s : appends (review_step s).
Proof. eapply emits_weaken; [|apply not_field_review_step]. auto. Qed.

Lemma appends_cycle cfg current_step s : appends (cycle cfg current_step s).
Proof. eapply emits_weaken; [|apply (wizard_cycle cfg)]. auto. Qed.

(** The submit step returns from the loop only with a success, and only
    after the click. *)
Lemma submit_step_some s st r st' :
  submit_step s st = (Returned (Some r), st') ->
  r = (true, "Application submitted successfully")
  /\ exists new, trace st' = trace st ++ new /\ In (EClick SubmitButton) new.
Proof.
  unfold submit_step, confirm_submission, bind, emit, perform, note, ret.
  destruct (submit_button s) as [|[[]|e1] ?]; try discriminate.
  destruct (confirmation s) as [[]|e2]; try discriminate.
  destruct (success_elements s) as [|x xs]; try discriminate.
  destruct (close_button s) as [[[]|e3]|e4]; try discriminate.
  intros H. inversion H; subst. split; [reflexivity|].
  eexists. split; [simpl; rewrite <- !app_assoc; reflexivity|].
  simpl. auto.
Qed.

(** What follows the follow step never returns a success. *)
Lemma next_step_not_success s st m st' :
  next_step s st <> (Returned (Return (true, m)), st').
Proof.
  unfold next_step, exit_application, bind, emit, perform, note, get_notes, ret.
  destruct (next_button s) as [|[[]|e1] ?]; try discriminate.
  destruct (submit_button s); try discriminate.
  destruct (exit_buttons s) as [|[[]|e2] ?]; try discriminate.
  destruct (discard_buttons s) as [|[[]|e3] ?]; discriminate.
Qed.

(** Nor does the exception handler of a cycle. *)
Lemma handler_fails current_step s e st r st' :
  (_ <- note ("Error in step " +:+ Py.str_of_nat current_step +:+ ": " +:+ exn_str e) ;;
   _ <- try_pass (exit_application s) ;;
   ns <- get_notes ;;
   ret (Return (false, "Error during application: " +:+ Py.join ", " ns))) st
  = (r, st') ->
  exists m, r = Returned (Return (false, m)).
Proof.
  unfold bind at 1. unfold note at 1. unfold bind at 1, try_pass.
  pose proof (exit_application_ends s
                {| trace := trace st;
                   notes := notes st ++ ["Error in step " +:+ Py.str_of_nat current_step
                                         +:+ ": " +:+ exn_str e];
                   dom_checkbox := dom_checkbox st |}) as He.
  destruct (exit_application s _) as [[[]|e'|] st2]; simpl in *.
  - intros H. inversion H. eauto.
  - intros H. inversion H. eauto.
  - now contradiction He.
Qed.

Lemma cycle_success cfg current_step s st m st' :
  cycle cfg current_step s st = (Returned (Return (true, m)), st') ->
  m = "Application submitted successfully"
  /\ exists new, trace st' = trace st ++ new /\ In (EClick SubmitButton) new.
Proof.
  unfold cycle, try_except.
  destruct (cycle_try cfg s st) as [[step|e|] st1] eqn:Ht.
  - intros H. inversion H; subst. unfold cycle_try in Ht.
    apply bind_returned in Ht as (a & st2 & Hr & Ht).
    apply bind_returned in Ht as (sub & st3 & Hs & Ht).
    destruct (appends_of _ _ _ _ (appends_review_step s) Hr) as [n1 H1].
    destruct sub as [r|].
    + inversion Ht; subst.
      apply submit_step_some in Hs as [Hm [n2 [H2 Hin]]].
      inversion Hm; subst. split; [reflexivity|].
      exists (n1 ++ n2). split; [now rewrite H2, H1, app_assoc|].
      apply in_or_app. now right.
    + apply bind_returned in Ht as (? & st4 & _ & Ht).
      apply bind_returned in Ht as (? & st5 & _ & Ht).
      apply bind_returned in Ht as (? & st6 & _ & Ht).
      now apply next_step_not_success in Ht.
  - destruct (handles wizard_excepts e); [|discriminate].
    intros H. apply handler_fails in H as [m' H]. discriminate H.
  - discriminate.
Qed.

Lemma step_loop_success fuel cfg screens : forall n current_step st m st',
  step_loop fuel cfg screens n current_step st = (Returned (true, m), st') ->
  m = "Application submitted successfully"
  /\ exists new, trace st' = trace st ++ new /\ In (EClick SubmitButton) new.
Proof.
  induction fuel as [|fuel IH]; intros n current_step st m st' H; simpl in H;
    destruct (current_step <=? max_steps)%nat; try discriminate H.
  apply bind_returned in H as (step & st1 & Hc & H).
  destruct (appends_of _ _ _ _ (appends_cycle cfg current_step (screens n)) Hc)
    as [n1 H1].
  destruct step as [r| |].
  - inversion H; subst. now apply cycle_success in Hc.
  - apply IH in H as [Hm [n2 [H2 Hin]]]. split; [exact Hm|].
    exists (n1 ++ n2). split; [now rewrite H2, H1, app_assoc|].
    apply in_or_app. now right.
  - apply IH in H as [Hm [n2 [H2 Hin]]]. split; [exact Hm|].
    exists (n1 ++ n2). split; [now rewrite H2, H1, app_assoc|].
    apply in_or_app. now right.
Qed.

(** X9: [_process_application_steps] reports a success only with the
    message "Application submitted successfully", and only when, during
    this very call, it has clicked the submit button. *)
Theorem success_requires_submit_click
    (fuel : nat) (cfg : Settings) (screens : nat -> Screen) (st : St)
    (m : string) (st' : St) :
  _process_application_steps fuel cfg screens st = (Returned (true, m), st') ->
  m = "Application submitted successfully"
  /\ exists new, trace st' = trace st ++ new /\ In (EClick SubmitButton) new.
Proof.
  unfold _process_application_steps. intros H.
  apply bind_returned in H as ([] & st1 & Hf & H).
  apply step_loop_success in H. unfold fresh_notes in Hf.
  inversion Hf; subst. exact H.
Qed.

Lemma success_requires_submit_click_witness :
  _process_application_steps 5 Sim.cfg (Sim.always Sim.success_screen) st0
  = (Returned (true, "Application submitted successfully"),
     mkSt [EFind ReviewButton; EFind SubmitButton; EClick SubmitButton;
           EWait ConfirmationModal; EFind SuccessText;
           EFind DismissButton; EClick DismissButton] [] None)
  /\ "Application submitted successfully" = "Application submitted successfully"
  /\ exists new,
       trace (mkSt [EFind ReviewButton; EFind SubmitButton; EClick SubmitButton;
                    EWait ConfirmationModal; EFind SuccessText;
                    EFind DismissButton; EClick DismissButton] [] None)
       = trace st0 ++ new
       /\ In (EClick SubmitButton) new.
Proof.
  split; [reflexivity|].
  apply (success_requires_submit_click 5 Sim.cfg (Sim.always Sim.success_screen) st0).
  reflexivity.
Defined.

End Attempt_results.

Section Never_stalls.

Import Driver Bot Facts Ends.

Lemma ns_ret {A} (a : A) : never_stalls (ret a).
Proof. intros st. discriminate. Qed.

Lemma ns_raise {A} e : never_stalls (@raise A e).
Proof. intros st. discriminate. Qed.

Lemma ns_emit ev : never_stalls (emit ev).
Proof. intros st. discriminate. Qed.

Lemma ns_note s : never_stalls (note s).
Proof. intros st. discriminate. Qed.

Lemma ns_get_notes : never_stalls get_notes.
Proof. intros st. discriminate. Qed.

Lemma ns_set_checkbox b : never_stalls (set_checkbox b).
Proof. intros st. discriminate. Qed.

Lemma ns_perform {A} ev (r : reply A) : never_stalls (perform ev r).
Proof. intros st. unfold perform. destruct r; discriminate. Qed.

Lemma ns_bind {A B} (c : M A) (k : A -> M B) :
  never_stalls c -> (forall a, never_stalls (k a)) -> never_stalls (bind c k).
Proof.
  intros Hc Hk st. unfold bind. specialize (Hc st).
  destruct (c st) as [[a|e|] st1]; simpl in *;
    [apply Hk | discriminate | contradiction].
Qed.

Lemma ns_try_except {A} (c : M A) classes h :
  never_stalls c -> (forall e, never_stalls (h e)) -> never_stalls (try_except c classes h).
Proof.
  intros Hc Hh st. unfold try_except. specialize (Hc st).
  destruct (c st) as [[a|e|] st1]; simpl in *; try discriminate; try contradiction.
  destruct (handles classes e); [apply Hh | discriminate].
Qed.

Lemma ns_try_pass (c : M unit) : never_stalls c -> never_stalls (try_pass c).
Proof.
  intros Hc st. unfold try_pass. specialize (Hc st).
  destruct (c st) as [[a|e|] st1]; simpl in *; try discriminate; contradiction.
Qed.

Lemma ns_try_else {A} (c : M A) dflt : never_stalls c -> never_stalls (try_else c dflt).
Proof.
  intros Hc st. unfold try_else. specialize (Hc st).
  destruct (c st) as [[a|e|] st1]; simpl in *; try discriminate; contradiction.
Qed.

Ltac ns_step :=
  first
    [ apply ns_ret | apply ns_raise | apply ns_emit | apply ns_note
    | apply ns_get_notes | apply ns_set_checkbox | apply ns_perform
    | apply ns_try_pass | apply ns_try_else
    | apply ns_try_except; [|intros ?]
    | apply ns_bind; [|intros ?] ].

Ltac ns_auto :=
  repeat (ns_step
          || match goal with
             | |- never_stalls (match ?x with _ => _ end) => destruct x
             | |- never_stalls (if ?x then _ else _) => destruct x
             end).

Lemma ns_note_required_fields fields : never_stalls (note_required_fields fields).
Proof. induction fields as [|f rest IH]; simpl; ns_auto. exact IH. Qed.

Lemma ns_fill_phone_inputs phone inputs : never_stalls (fill_phone_inputs phone inputs).
Proof. induction inputs as [|p rest IH]; simpl; ns_auto; exact IH. Qed.

Lemma ns_upload_resumes path uploads : never_stalls (upload_resumes path uploads).
Proof. induction uploads as [|u rest IH]; simpl; ns_auto. exact IH. Qed.

(** One cycle of the step loop always ends: only the loop around it can
    go on for ever. *)
Lemma ns_cycle cfg current_step s : never_stalls (cycle cfg current_step s).
Proof.
  unfold cycle. apply ns_try_except; [|intros e; ns_auto].
  unfold cycle_try.
  apply ns_bind; [unfold review_step; ns_auto | intros _].
  apply ns_bind; [unfold submit_step, confirm_submission; ns_auto | intros sub].
  destruct sub; [apply ns_ret|].
  apply ns_bind; [|intros _].
  { unfold required_fields_step. apply ns_bind; [apply ns_emit | intros _].
    destruct (required_fields s); [apply ns_ret|].
    apply ns_bind; [apply ns_note_required_fields | intros _].
    apply ns_bind; [apply ns_emit | intros _].
    match goal with |- never_stalls (if ?b then _ else _) => destruct b end;
      [apply ns_fill_phone_inputs | apply ns_ret]. }
  apply ns_bind; [|intros _].
  { unfold resume_step. apply ns_bind; [apply ns_emit | intros _].
    match goal with |- never_stalls (if ?b then _ else _) => destruct b end;
      [apply ns_upload_resumes | apply ns_ret]. }
  apply ns_bind; [unfold follow_step, click_checkbox; ns_auto | intros _].
  unfold next_step, exit_application. ns_auto.
Qed.

Lemma ns_check_radio_or_checkbox sel o check :
  never_stalls (Utils.check_radio_or_checkbox sel o check).
Proof.
  unfold Utils.check_radio_or_checkbox, Utils.wait_for_element, Utils.safe_click,
    Utils.random_delay, click_checkbox.
  ns_auto.
Qed.

End Never_stalls.

Section Attempt_failures.

Import Driver Bot Facts Ends.

Lemma submit_step_absent s st :
  submit_button s = [] ->
  submit_step s st = (Returned None, log [EFind SubmitButton] st).
Proof. intros H. unfold submit_step. now rewrite H. Qed.

Lemma next_step_absent s st step st' :
  submit_button s = [] -> next_button s = [] ->
  next_step s st = (Returned step, st') ->
  exists m, step = Return (false, m).
Proof.
  intros Hs Hn. unfold next_step. rewrite Hs, Hn.
  unfold exit_application, bind, emit, perform, note, get_notes, ret.
  destruct (exit_buttons s) as [|[[]|e2] ?]; try discriminate;
    try (intros H; inversion H; eauto; fail).
  destruct (discard_buttons s) as [|[[]|e3] ?]; try discriminate;
    intros H; inversion H; eauto.
Qed.

(** X10: on a screen that offers neither a submit button nor a
    "Continue" button the attempt ends in this very cycle, and as a
    failure: the loop returns [False] (manual intervention, or a listed
    error), or an exception outside the [except] clause leaves it.  The
    cycle neither continues nor repeats. *)
Theorem no_controls_ends_attempt
    (cfg : Settings) (current_step : nat) (s : Screen) (st : St) :
  submit_button s = [] ->
  next_button s = [] ->
  ends_in_failure (fst (cycle cfg current_step s st)).
Proof.
  intros Hs Hn.
  pose proof (ns_cycle cfg current_step s st) as Hns.
  unfold cycle, try_except in *.
  destruct (cycle_try cfg s st) as [[step|e|] st1] eqn:Ht.
  - cbn [fst]. unfold cycle_try in Ht.
    apply bind_returned in Ht as (a & st2 & _ & Ht).
    apply bind_returned in Ht as (sub & st3 & Hsub & Ht).
    rewrite (submit_step_absent s st2 Hs) in Hsub. inversion Hsub; subst.
    apply bind_returned in Ht as (? & st4 & _ & Ht).
    apply bind_returned in Ht as (? & st5 & _ & Ht).
    apply bind_returned in Ht as (? & st6 & _ & Ht).
    apply (next_step_absent s _ _ _ Hs Hn) in Ht as [m ->]. exact I.
  - destruct (handles wizard_excepts e) eqn:E; [|exact E].
    match goal with
    | |- ends_in_failure (fst ?x) => destruct x as [r st2] eqn:Hh
    end.
    apply handler_fails in Hh as [m ->]. exact I.
  - exfalso. now apply Hns.
Qed.

Lemma no_controls_ends_attempt_witness :
  submit_button Sim.blank = []
  /\ next_button Sim.blank = []
  /\ ends_in_failure (fst (cycle Sim.cfg 1 Sim.blank st0)).
Proof.
  split; [reflexivity|]. split; [reflexivity|].
  apply (no_controls_ends_attempt Sim.cfg 1 Sim.blank st0); reflexivity.
Defined.



Lemma step_loop_ceiling cfg screens :
  (forall n current_step st,
     fst (cycle cfg current_step (screens n) st) = Returned Continue) ->
  forall left fuel n st,
    (S n + left = 11)%nat ->
    ((left <= fuel)%nat ->
     step_loop fuel cfg screens n (S n) st
     = (Returned (false, "Application process took too many steps"),
        Outcomes.after_continues left cfg screens n st))
    /\ ((fuel < left)%nat ->
        step_loop fuel cfg screens n (S n) st
        = (OutOfFuel, Outcomes.after_continues fuel cfg screens n st)).
Proof.
  intros Hc. induction left as [|left IH]; intros fuel n st Hsum.
  - assert (n = 10%nat) as -> by lia. split; [|lia].
    intros _. destruct fuel; reflexivity.
  - assert (Hle : (S n <=? max_steps)%nat = true)
      by (apply Nat.leb_le; unfold max_steps; lia).
    destruct fuel as [|fuel].
    + split; [lia|]. intros _. cbn [step_loop Outcomes.after_continues].
      now rewrite Hle.
    + cbn [step_loop Outcomes.after_continues]. rewrite Hle.
      unfold bind. specialize (Hc n (S n) st).
      destruct (cycle cfg (S n) (screens n) st) as [r st1]. cbn [fst snd] in *. subst r.
      destruct (IH fuel (S n) st1) as [H1 H2]; [lia|].
      split; intros H; [apply H1 | apply H2]; lia.
Qed.

(** X12: the step ceiling.  On a form whose every cycle ends with a
    click on "Continue", the wizard gives up after exactly ten cycles:
    with fuel for ten cycles or more it returns [False] with "Application
    process took too many steps", in the state that cycles 0 to 9, run at
    steps 1 to 10, have left; with fuel for fewer cycles it has not
    returned yet when the fuel is used up. *)
Theorem ceiling_after_ten_continues
    (fuel : nat) (cfg : Settings) (screens : nat -> Screen) (st : St) :
  (forall n current_step st',
     fst (cycle cfg current_step (screens n) st') = Returned Continue) ->
  ((10 <= fuel)%nat ->
   _process_application_steps fuel cfg screens st
   = (Returned (false, "Application process took too many steps"),
      Outcomes.after_continues 10 cfg screens 0 (snd (fresh_notes st))))
  /\ ((fuel < 10)%nat ->
      _process_application_steps fuel cfg screens st
      = (OutOfFuel,
         Outcomes.after_continues fuel cfg screens 0 (snd (fresh_notes st)))).
Proof.
  intros Hc. unfold _process_application_steps, bind, fresh_notes. cbn [snd].
  apply (step_loop_ceiling cfg screens Hc 10%nat). reflexivity.
Qed.

Lemma ceiling_after_ten_continues_witness :
  (forall n current_step st',
     fst (cycle Sim.cfg current_step (Sim.always Sim.continue_screen n) st')
     = Returned Continue)
  /\ _process_application_steps 12 Sim.cfg (Sim.always Sim.continue_screen) st0
     = (Returned (false, "Application process took too many steps"),
        Outcomes.after_continues 10 Sim.cfg (Sim.always Sim.continue_screen) 0
          (snd (fresh_notes st0)))
  /\ _process_application_steps 7 Sim.cfg (Sim.always Sim.continue_screen) st0
     = (OutOfFuel,
        Outcomes.after_continues 7 Sim.cfg (Sim.always Sim.continue_screen) 0
          (snd (fresh_notes st0))).
Proof.
  assert (H : forall n current_step st',
             fst (cycle Sim.cfg current_step (Sim.always Sim.continue_screen n) st')
             = Returned Continue) by reflexivity.
  split; [exact H|]. split.
  - apply (proj1 (ceiling_after_ten_continues 12 Sim.cfg
                    (Sim.always Sim.continue_screen) st0 H)). lia.
  - apply (proj2 (ceiling_after_ten_continues 7 Sim.cfg
                    (Sim.always Sim.continue_screen) st0 H)). lia.
Defined.

(** Ten "Continue" clicks are issued before the wizard gives up, and nine
    cycles are not enough for it to give up. *)
Example ten_continue_clicks :
  length (List.filter (fun ev => match ev with EClick NextButton => true | _ => false end)
            (trace (Outcomes.after_continues 10 Sim.cfg (Sim.always Sim.continue_screen) 0
                      (snd (fresh_notes st0)))))
  = 10%nat
  /\ fst (_process_application_steps 9 Sim.cfg (Sim.always Sim.continue_screen) st0)
     = OutOfFuel.
Proof. split; reflexivity. Qed.

(** X13: a quick-apply listing that lacks the "title", "company" or
    "url" key makes [apply_to_job] raise [KeyError] before any driver
    call: the exception is not caught, and the browser state is as
    before. *)
Theorem missing_key_raises_before_any_call
    (fuel : nat) (cfg : Settings) (job_data : JobData) (sess : ApplySession) (st : St) :
  has_easy_apply job_data = true ->
  job_data !! "title" = None \/ job_data !! "company" = None
  \/ job_data !! "url" = None ->
  exists e,
    apply_to_job fuel cfg job_data sess st = (Raised e, st)
    /\ exn_class e = KeyError.
Proof.
  intros Hq Hk. unfold apply_to_job. rewrite Hq. cbn [negb].
  unfold try_except, bind, subscript, ret, raise.
  destruct (job_data !! "title") as [t|].
  - destruct (job_data !! "company") as [c|].
    + destruct (job_data !! "url") as [u|].
      * destruct Hk as [H|[H|H]]; discriminate H.
      * eexists. split; reflexivity.
    + eexists. split; reflexivity.
  - eexists. split; reflexivity.
Qed.

Lemma missing_key_raises_before_any_call_witness :
  has_easy_apply Sim2.untitled = true
  /\ (Sim2.untitled !! "title" = None \/ Sim2.untitled !! "company" = None
      \/ Sim2.untitled !! "url" = None)
  /\ exists e,
       apply_to_job 5 Sim.cfg Sim2.untitled
         (Sim.session (Sim.always Sim.success_screen)) st0
       = (Raised e, st0)
       /\ exn_class e = KeyError.
Proof.
  split; [reflexivity|]. split; [left; reflexivity|].
  apply (missing_key_raises_before_any_call 5 Sim.cfg Sim2.untitled
           (Sim.session (Sim.always Sim.success_screen)) st0);
    [reflexivity | left; reflexivity].
Defined.

End Attempt_failures.

Section Navigation_failure.

Import Driver Bot Facts.

(** X14: when one of the five driver calls that lead to the wizard fails
    (loading the page, waiting for the top card, waiting for and clicking
    the Easy Apply button, waiting for the modal), the wizard is never
    started: the calls up to the failing one are all that is asked of the
    browser, and no note is taken.  When the exception the failing call
    raised is of a listed class the attempt returns [(False, "Error: " +
    str(e))] with that very exception's text; otherwise that exception
    leaves the call. *)
Theorem navigation_failure_is_reported
    (fuel : nat) (cfg : Settings) (job_data : JobData) (sess : ApplySession) (st : St)
    (e : Exn) :
  has_easy_apply job_data = true ->
  is_Some (job_data !! "title") ->
  is_Some (job_data !! "company") ->
  is_Some (job_data !! "url") ->
  Outcomes.navigation_error sess = Some e ->
  apply_to_job fuel cfg job_data sess st
  = (if handles apply_excepts e
     then Returned (false, "Error: " +:+ exn_str e)
     else Raised e,
     log (Outcomes.navigation_events (str (listing_url job_data)) sess) st).
Proof.
  intros Hq [t Ht] [c Hc] [u Hu] Hnav.
  unfold apply_to_job. rewrite Hq. cbn [negb].
  unfold listing_url, get. rewrite Hu. cbn [default].
  unfold try_except, bind, subscript, perform, ret. rewrite Ht, Hc, Hu.
  unfold Outcomes.navigation_error in Hnav. unfold Outcomes.navigation_events.
  destruct (page_load sess) as [[]|e1];
    [destruct (top_card_wait sess) as [[]|e2];
     [destruct (easy_apply_wait sess) as [[]|e3];
      [destruct (easy_apply_click sess) as [[]|e4];
       [destruct (modal_wait sess) as [[]|e5]; [discriminate Hnav|] | ] | ] | ] | ];
    inversion Hnav; subst e;
    match goal with
    | |- context [handles apply_excepts ?e] =>
        destruct (handles apply_excepts e) eqn:E
    end;
    rewrite ?log_log; reflexivity.
Qed.

Lemma navigation_failure_is_reported_witness :
  has_easy_apply (Sim.listing "Analyst" "https://jobs/1" true) = true
  /\ is_Some (Sim.listing "Analyst" "https://jobs/1" true !! "title")
  /\ is_Some (Sim.listing "Analyst" "https://jobs/1" true !! "company")
  /\ is_Some (Sim.listing "Analyst" "https://jobs/1" true !! "url")
  /\ Outcomes.navigation_error Sim.dead_session = Some Sim.timed_out
  /\ apply_to_job 5 Sim.cfg (Sim.listing "Analyst" "https://jobs/1" true)
       Sim.dead_session st0
     = (if handles apply_excepts Sim.timed_out
        then Returned (false, "Error: " +:+ exn_str Sim.timed_out)
        else Raised Sim.timed_out,
        log (Outcomes.navigation_events
               (str (listing_url (Sim.listing "Analyst" "https://jobs/1" true)))
               Sim.dead_session) st0).
Proof.
  assert (H1 : is_Some (Sim.listing "Analyst" "https://jobs/1" true !! "title"))
    by (vm_compute; eauto).
  assert (H2 : is_Some (Sim.listing "Analyst" "https://jobs/1" true !! "company"))
    by (vm_compute; eauto).
  assert (H3 : is_Some (Sim.listing "Analyst" "https://jobs/1" true !! "url"))
    by (vm_compute; eauto).
  split; [reflexivity|]. split; [exact H1|]. split; [exact H2|]. split; [exact H3|].
  split; [reflexivity|].
  apply (navigation_failure_is_reported 5 Sim.cfg
           (Sim.listing "Analyst" "https://jobs/1" true) Sim.dead_session st0
           Sim.timed_out eq_refl H1 H2 H3 eq_refl).
Defined.

(** The attempt on a job page that never loads: two driver calls, and the
    timeout's text in the result. *)
Example dead_session_attempt :
  apply_to_job 5 Sim.cfg (Sim.listing "Analyst" "https://jobs/1" true)
    Sim.dead_session st0
  = (Returned (false, "Error: timeout"),
     mkSt [EGet "https://jobs/1"; EWait TopCard] [] None).
Proof. reflexivity. Qed.

End Navigation_failure.

(* ===================================================================== *)
(** * The recorder *)
(* ===================================================================== *)

Section Recorder.

Import Driver Bot Facts.

Lemma successes_le_rows l :
  (successful_applications l <= length (applications_data l))%nat.
Proof. unfold successful_applications. apply List.filter_length_le. Qed.

(** X15: logging an attempt adds exactly one row, and the same one, at
    the end of the in-memory list and at the end of the file, every
    earlier row staying where it was; the row carries "Success" for a
    success and "Failed" otherwise.  The summary follows: exactly one of
    the two counts goes up by one, the successes for a success, the
    failures otherwise, and successes and failures sum to the number of
    rows. *)
Theorem log_application_counts
    (job_data : JobData) (status : bool) (notes now : string) (l : Ledger) :
  let l' := log_application job_data status notes now l in
  (exists row,
     applications_data l' = applications_data l ++ [row]
     /\ csv_rows l' = csv_rows l ++ [row]
     /\ application_status row = (if status then "Success" else "Failed")
     /\ job_url row = listing_url job_data
     /\ row_notes row = notes
     /\ application_date row = now)
  /\ length (csv_rows l') = S (length (csv_rows l))
  /\ length (applications_data l') = S (length (applications_data l))
  /\ successful_applications l'
     = (successful_applications l + if status then 1 else 0)%nat
  /\ failed_applications l'
     = (failed_applications l + if status then 0 else 1)%nat
  /\ (successful_applications l' + failed_applications l')%nat
     = length (applications_data l').
Proof.
  cbv zeta.
  pose proof (successes_le_rows l) as Hle.
  pose proof (successes_le_rows (log_application job_data status notes now l)) as Hle'.
  pose proof (successful_applications_log job_data status notes now l) as Hs.
  unfold failed_applications. rewrite Hs in *.
  unfold log_application in *. cbn [applications_data csv_rows] in *.
  rewrite !length_app in *. cbn [length] in *.
  split; [eexists; repeat split; reflexivity|].
  split; [lia|]. split; [lia|].
  split; [reflexivity|]. destruct status; lia.
Qed.

End Recorder.

(* ===================================================================== *)
(** * The collector: bounds, listings, end of results *)
(* ===================================================================== *)

Section Collector_facts.

Import Driver Bot Facts.

(** X16: the collector returns at most [max_jobs] listings, whatever the
    result list shows and however long it scrolls; for a bound of zero or
    less it returns none. *)
Theorem collector_respects_max_jobs (fuel : nat) (feed : Feed) (max_jobs : Z) :
  Z.of_nat (length (snd (scroll_through_jobs fuel feed max_jobs))) <= Z.max 0 max_jobs
  /\ (max_jobs <= 0 -> snd (scroll_through_jobs fuel feed max_jobs) = []).
Proof.
  pose proof (scroll_through_jobs_length fuel feed max_jobs) as H.
  split; [exact H|]. intros Hm.
  destruct (snd (scroll_through_jobs fuel feed max_jobs)) as [|j l]; [reflexivity|].
  simpl in H. lia.
Qed.

Lemma extract_well_formed d j :
  _extract_job_data d = Ok (Some j) -> well_formed j.
Proof.
  unfold _extract_job_data, rcatch, rbind.
  destruct (details_wait d) as [[]|e0]; [|destruct (handles _ e0); discriminate].
  destruct (title_text d) as [t|e1]; [|destruct (handles _ e1); discriminate].
  destruct (company_text d) as [c|e2]; [|destruct (handles _ e2); discriminate].
  destruct (location_text d) as [l|e3]; [|destruct (handles _ e3); discriminate].
  destruct (easy_apply_button d) as [[]|e4].
  - intros H. inversion H. now exists (Py.strip t), (Py.strip c), (Py.strip l),
                                  (current_url d), true.
  - destruct (handles [NoSuchElementException] e4).
    + intros H. inversion H. now exists (Py.strip t), (Py.strip c), (Py.strip l),
                                    (current_url d), false.
    + destruct (handles _ e4); discriminate.
Qed.

Lemma process_card_well_formed c j :
  process_card c = Ok (Some j) -> well_formed j.
Proof.
  unfold process_card, rcatch, rbind.
  destruct (scroll_into_view c) as [[]|e0]; [|destruct (handles _ e0); discriminate].
  destruct (card_click c) as [[]|e1]; [|destruct (handles _ e1); discriminate].
  destruct (_extract_job_data (details c)) as [[j'|]|e2] eqn:E.
  - intros H. inversion H; subst. now apply extract_well_formed in E.
  - discriminate.
  - destruct (handles _ e2); discriminate.
Qed.

Lemma process_cards_well_formed cards : forall jc jl,
  Forall well_formed jl ->
  Forall well_formed (snd (process_cards cards jc jl)).
Proof.
  induction cards as [|c rest IH]; intros jc jl Hjl; simpl; [exact Hjl|].
  destruct (process_card c) as [[j|]|e] eqn:E; [| now apply IH | exact Hjl].
  apply IH. apply Forall_app. split; [exact Hjl|].
  constructor; [|constructor]. now apply process_card_well_formed in E.
Qed.

Lemma scroll_loop_well_formed fuel pages max : forall k h jc jl,
  Forall well_formed jl ->
  Forall well_formed (snd (scroll_loop fuel pages max k h jc jl)).
Proof.
  induction fuel as [|fuel IH]; intros k h jc jl Hjl; cbn [scroll_loop].
  - now destruct (Z.of_nat jc <? max).
  - destruct (Z.of_nat jc <? max); [|exact Hjl].
    destruct (job_cards (pages k)) as [cards|e];
      [|now destruct (handles [NoSuchElementException] e)].
    match goal with
    | |- context [process_cards ?cs jc jl] =>
        pose proof (process_cards_well_formed cs jc jl Hjl) as Hp;
        destruct (process_cards cs jc jl) as [[[e|] jc'] jl']
    end; simpl in Hp; [exact Hp|].
    destruct (new_height (pages k) =? h); [|now apply IH].
    destruct (rbind (show_more_button (pages k)) (fun click => click)) as [[]|e];
      [now apply IH|].
    now destruct (handles [NoSuchElementException] e).
Qed.

(** X17: every listing the collector returns is a complete record: it
    has the five keys "title", "company", "location", "has_easy_apply"
    and "url", with strings for the texts and the URL and a boolean for
    the flag.  In particular the three keys [apply_to_job] subscripts are
    there. *)
Theorem collected_listings_are_complete (fuel : nat) (feed : Feed) (max_jobs : Z) :
  Forall (fun job_data =>
            well_formed job_data
            /\ is_Some (job_data !! "title")
            /\ is_Some (job_data !! "company")
            /\ is_Some (job_data !! "url"))
         (snd (scroll_through_jobs fuel feed max_jobs)).
Proof.
  assert (H : Forall well_formed (snd (scroll_through_jobs fuel feed max_jobs))).
  { unfold scroll_through_jobs. destruct (initial_wait feed) as [[]|e].
    - apply scroll_loop_well_formed. constructor.
    - destruct (handles [TimeoutException] e); constructor. }
  eapply Forall_impl; [exact H|].
  intros j Hj. split; [exact Hj|].
  destruct Hj as (t & c & l & u & q & ->).
  repeat split; simplify_map_eq; eauto.
Qed.

(** X18: end of results.  When, after the first scroll, the page is no
    taller than before and there is no "show more" button, the collector
    stops after that one cycle: it has finished (or an exception has left
    it), and more fuel changes nothing. *)
Theorem collector_stops_at_end_of_results
    (fuel : nat) (feed : Feed) (max_jobs : Z) (e : Exn) :
  initial_wait feed = Ok tt ->
  new_height (pages feed 0) = initial_height feed ->
  show_more_button (pages feed 0) = Err e ->
  exn_class e = NoSuchElementException ->
  scroll_through_jobs (S fuel) feed max_jobs = scroll_through_jobs 1 feed max_jobs
  /\ fst (scroll_through_jobs (S fuel) feed max_jobs) <> Running.
Proof.
  intros Hw Hh Hm He. unfold scroll_through_jobs. rewrite Hw.
  cbn [scroll_loop]. rewrite Hh, Hm, Z.eqb_refl. cbn [rbind].
  assert (Hc : handles [NoSuchElementException] e = true)
    by (unfold handles; now rewrite He).
  rewrite Hc.
  destruct (Z.of_nat 0 <? max_jobs); [|split; [reflexivity|discriminate]].
  destruct (job_cards (pages feed 0)) as [cards|e0].
  - destruct (process_cards _ 0%nat []) as [[[e1|] jc'] jl'];
      (split; [reflexivity|discriminate]).
  - destruct (handles [NoSuchElementException] e0);
      (split; [reflexivity|discriminate]).
Qed.

Lemma collector_stops_at_end_of_results_witness :
  initial_wait (Sim2.static_feed [Sim.card "A" "https://jobs/a" true]) = Ok tt
  /\ new_height (pages (Sim2.static_feed [Sim.card "A" "https://jobs/a" true]) 0)
     = initial_height (Sim2.static_feed [Sim.card "A" "https://jobs/a" true])
  /\ show_more_button (pages (Sim2.static_feed [Sim.card "A" "https://jobs/a" true]) 0)
     = Err Sim.not_found
  /\ exn_class Sim.not_found = NoSuchElementException
  /\ scroll_through_jobs 8 (Sim2.static_feed [Sim.card "A" "https://jobs/a" true]) 4
     = scroll_through_jobs 1 (Sim2.static_feed [Sim.card "A" "https://jobs/a" true]) 4
  /\ fst (scroll_through_jobs 8 (Sim2.static_feed [Sim.card "A" "https://jobs/a" true]) 4)
     <> Running.
Proof.
  split; [reflexivity|]. split; [reflexivity|]. split; [reflexivity|].
  split; [reflexivity|].
  apply (collector_stops_at_end_of_results 7
           (Sim2.static_feed [Sim.card "A" "https://jobs/a" true]) 4 Sim.not_found);
    reflexivity.
Defined.

End Collector_facts.

(* ===================================================================== *)
(** * The orchestrator: browser, pauses and calls *)
(* ===================================================================== *)

Section Orchestrator_facts.

Import Driver Bot Facts.

Lemma pacing_count_app tr1 tr2 :
  pacing_count (tr1 ++ tr2) = (pacing_count tr1 + pacing_count tr2)%nat.
Proof. unfold pacing_count. now rewrite List.filter_app, length_app. Qed.

(** An application neither quits the browser nor takes a pacing pause. *)
Lemma navigator_log_is_plain cfg job_data new :
  Forall (navigator_event cfg job_data) new ->
  ~ In EQuit new /\ pacing_count new = 0%nat.
Proof.
  induction new as [|ev new IH]; intros F; [split; [intros []|reflexivity]|].
  inversion F as [|? ? Hev F']; subst. destruct (IH F') as [Hq Hp].
  split.
  - intros [->|Hin]; [exact Hev | now apply Hq].
  - change (ev :: new) with ([ev] ++ new). rewrite pacing_count_app, Hp.
    destruct ev as [| | | | | |lo hi| |]; try reflexivity.
    cbn in Hev. destruct Hev as [-> _]. reflexivity.
Qed.

(** The log, the ledger and the call counter of the application loop,
    whenever and however it stops. *)
Lemma run_loop_log fuel cfg w max jobs : forall rs,
  exists new,
    trace (browser (snd (run_loop fuel cfg w max jobs rs)))
    = trace (browser rs) ++ new
    /\ ~ In EQuit new
    /\ (pacing_count new + length (applications_data (ledger rs)))%nat
       = length (applications_data (ledger (snd (run_loop fuel cfg w max jobs rs))))
    /\ (n_applied (snd (run_loop fuel cfg w max jobs rs))
        + length (applications_data (ledger rs)))%nat
       = (n_applied rs
          + length (applications_data (ledger (snd (run_loop fuel cfg w max jobs rs))))
          + match fst (run_loop fuel cfg w max jobs rs) with
            | Returned _ => 0
            | _ => 1
            end)%nat.
Proof.
  assert (Hnil : forall rs : RunState,
             exists new,
               trace (browser rs) = trace (browser rs) ++ new
               /\ ~ In EQuit new
               /\ (pacing_count new + length (applications_data (ledger rs)))%nat
                  = length (applications_data (ledger rs))
               /\ (n_applied rs + length (applications_data (ledger rs)))%nat
                  = (n_applied rs + length (applications_data (ledger rs)) + 0)%nat).
  { intros rs. exists []. rewrite app_nil_r.
    split; [reflexivity|]. split; [intros []|]. split; [reflexivity|lia]. }
  induction jobs as [|j rest IH]; intros rs; cbn [run_loop]; [apply Hnil|].
  destruct (application_count rs >=? max); [apply Hnil|].
  destruct (has_easy_apply j); [|apply IH].
  destruct (navigator_apply_to_job cfg fuel j (sessions w (n_applied rs)) (browser rs))
    as [n1 [H1 F1]].
  destruct (navigator_log_is_plain cfg j n1 F1) as [Hq1 Hp1].
  destruct (apply_to_job fuel cfg j (sessions w (n_applied rs)) (browser rs))
    as [[[status notes]|e|] st']; cbn [fst snd] in *.
  - match goal with
    | |- context [run_loop fuel cfg w max rest ?rs1] =>
        destruct (IH rs1) as [n2 (H2 & Hq2 & Hp2 & Hn2)]
    end.
    cbn [browser ledger n_applied] in *.
    unfold log_application in *. cbn [applications_data] in *.
    rewrite length_app in *. cbn [length] in *.
    exists (n1 ++ [pacing] ++ n2).
    split; [|split; [|split]].
    + rewrite H2. unfold sleep, log. cbn [trace]. rewrite H1.
      now rewrite <- !app_assoc.
    + intros Hin. apply in_app_or in Hin as [Hin|Hin]; [now apply Hq1|].
      apply in_app_or in Hin as [[Hin|[]]|Hin]; [discriminate Hin | now apply Hq2].
    + rewrite !pacing_count_app, Hp1.
      change (pacing_count [pacing]) with 1%nat. lia.
    + lia.
  - exists n1. cbn [browser ledger n_applied]. repeat split; auto; lia.
  - exists n1. cbn [browser ledger n_applied]. repeat split; auto; lia.
Qed.

(** X19: [run] closes the browser exactly once, as its last driver
    command, however it ends: after a normal return or an exception the
    event log ends with the one and only [driver.quit()].  (While a run
    is still going on, nothing has quit the browser.) *)
Theorem run_quits_browser_exactly_once
    (fuel : nat) (cfg : Settings) (w : World) (keywords location : string)
    (max_applications : Z) :
  match fst (run fuel cfg w keywords location max_applications) with
  | OutOfFuel =>
      ~ In EQuit (trace (browser (snd (run fuel cfg w keywords location
                                          max_applications))))
  | _ =>
      exists before,
        trace (browser (snd (run fuel cfg w keywords location max_applications)))
        = before ++ [EQuit]
        /\ ~ In EQuit before
  end.
Proof.
  assert (Hq : ~ In EQuit (trace (browser (snd (run_try fuel cfg w keywords location
                                                  max_applications))))).
  { unfold run_try.
    destruct (verify_login w); [|intros []].
    destruct (navigate_to_jobs w); [|intros []].
    destruct (search_jobs w keywords location true); [|intros []].
    cbn [negb].
    destruct (discovered fuel w max_applications) as [[|e|] found];
      [|intros []|intros []].
    destruct (run_loop_log fuel cfg w max_applications found run_state0)
      as [new (Ht & Hn & _)].
    rewrite Ht. exact Hn. }
  unfold run.
  destruct (run_try fuel cfg w keywords location max_applications) as [[[]|e|] rs];
    cbn [fst snd] in *; try exact Hq;
    exists (trace (browser rs)); (split; [reflexivity | exact Hq]).
Qed.

(** X20: in the application loop every completed attempt is followed by
    exactly one pacing pause and leaves exactly one ledger row: the
    pauses added to the log are as many as the rows added to the ledger,
    and the calls of [apply_to_job] are as many too, plus one when the
    last call raised or did not come back. *)
Theorem one_row_and_one_pause_per_attempt
    (fuel : nat) (cfg : Settings) (w : World) (max_applications : Z)
    (job_listings : list JobData) (rs : RunState) :
  let out := run_loop fuel cfg w max_applications job_listings rs in
  (pacing_count (trace (browser (snd out)))
   + length (applications_data (ledger rs)))%nat
  = (pacing_count (trace (browser rs))
     + length (applications_data (ledger (snd out))))%nat
  /\ (n_applied (snd out) + length (applications_data (ledger rs)))%nat
     = (n_applied rs + length (applications_data (ledger (snd out)))
        + match fst out with
          | Returned _ => 0
          | _ => 1
          end)%nat.
Proof.
  cbv zeta.
  destruct (run_loop_log fuel cfg w max_applications job_listings rs)
    as [new (Ht & _ & Hp & Hn)].
  split; [|exact Hn].
  rewrite Ht, pacing_count_app. lia.
Qed.

Lemma scroll_without_budget fuel feed max :
  max <= 0 ->
  snd (scroll_through_jobs fuel feed max) = []
  /\ fst (scroll_through_jobs fuel feed max) <> Running.
Proof.
  intros Hm. unfold scroll_through_jobs.
  destruct (initial_wait feed) as [[]|e].
  - assert (E : (Z.of_nat 0 <? max) = false) by (apply Z.ltb_ge; simpl; lia).
    destruct fuel; cbn [scroll_loop]; rewrite E; (split; [reflexivity|discriminate]).
  - destruct (handles [TimeoutException] e); split; try reflexivity; discriminate.
Qed.

(** X21: when [verify_login], [navigate_to_jobs] or [search_jobs]
    answers [False], and likewise with a budget of zero or less, a run
    starts no application: it ends (it does not hang), [apply_to_job] is
    never called, the ledger stays empty and the success counter stays
    at zero. *)
Theorem idle_run_starts_no_application
    (fuel : nat) (cfg : Settings) (w : World) (keywords location : string)
    (max_applications : Z) :
  session_ready w keywords location = false \/ max_applications <= 0 ->
  fst (run fuel cfg w keywords location max_applications) <> OutOfFuel
  /\ n_applied (snd (run fuel cfg w keywords location max_applications)) = 0%nat
  /\ ledger (snd (run fuel cfg w keywords location max_applications))
     = {| applications_data := []; csv_rows := [] |}
  /\ application_count (snd (run fuel cfg w keywords location max_applications)) = 0.
Proof.
  intros H.
  assert (E : exists r, r <> OutOfFuel
                        /\ run_try fuel cfg w keywords location max_applications
                           = (r, run_state0)).
  { unfold run_try, session_ready in *.
    destruct (verify_login w); [|exists (Returned tt); now split].
    destruct (navigate_to_jobs w); [|exists (Returned tt); now split].
    destruct (search_jobs w keywords location true);
      [|exists (Returned tt); now split].
    destruct H as [H|H]; [discriminate H|]. cbn [negb].
    unfold discovered.
    destruct (scroll_without_budget fuel (feed w) (max_applications * 2)) as [Hs Hf];
      [lia|].
    destruct (scroll_through_jobs fuel (feed w) (max_applications * 2))
      as [[|e|] found]; cbn [fst snd] in *; subst.
    - exists (Returned tt). now split.
    - exists (Raised e). now split.
    - now contradiction Hf. }
  destruct E as [r [Hr E]]. unfold run. rewrite E.
  destruct r as [[]|e|]; [| |now contradiction Hr]; repeat split; discriminate.
Qed.

Lemma idle_run_starts_no_application_witness :
  (session_ready
     (Sim.world (Sim.feed_of [[Sim.card "A" "https://jobs/a" true]])
        (fun _ => Sim.session (Sim.always Sim.success_screen)))
     "Data Analyst" "Remote" = false
   \/ 0 <= 0)
  /\ fst (run 20 Sim.cfg
            (Sim.world (Sim.feed_of [[Sim.card "A" "https://jobs/a" true]])
               (fun _ => Sim.session (Sim.always Sim.success_screen)))
            "Data Analyst" "Remote" 0)
     <> OutOfFuel
  /\ n_applied (snd (run 20 Sim.cfg
                       (Sim.world (Sim.feed_of [[Sim.card "A" "https://jobs/a" true]])
                          (fun _ => Sim.session (Sim.always Sim.success_screen)))
                       "Data Analyst" "Remote" 0))
     = 0%nat
  /\ ledger (snd (run 20 Sim.cfg
                    (Sim.world (Sim.feed_of [[Sim.card "A" "https://jobs/a" true]])
                       (fun _ => Sim.session (Sim.always Sim.success_screen)))
                    "Data Analyst" "Remote" 0))
     = {| applications_data := []; csv_rows := [] |}
  /\ application_count
       (snd (run 20 Sim.cfg
               (Sim.world (Sim.feed_of [[Sim.card "A" "https://jobs/a" true]])
                  (fun _ => Sim.session (Sim.always Sim.success_screen)))
               "Data Analyst" "Remote" 0))
     = 0.
Proof.
  split; [right; lia|].
  apply (idle_run_starts_no_application 20 Sim.cfg
           (Sim.world (Sim.feed_of [[Sim.card "A" "https://jobs/a" true]])
              (fun _ => Sim.session (Sim.always Sim.success_screen)))
           "Data Analyst" "Remote" 0).
  right. lia.
Defined.

End Orchestrator_facts.

(* ===================================================================== *)
(** * utils.py: clicking and checking *)
(* ===================================================================== *)

Section Click_facts.

Import Driver Bot Facts Ends.

Lemma emits_try_else {P : Event -> Prop} {A} (c : M A) dflt :
  emits P c -> emits P (try_else c dflt).
Proof.
  intros Hc st. unfold try_else.
  destruct (Hc st) as [n1 H1].
  destruct (c st) as [[a|e|] st1]; simpl in *; now exists n1.
Qed.

Lemma appends_check_radio_or_checkbox sel o check :
  appends (Utils.check_radio_or_checkbox sel o check).
Proof.
  unfold Utils.check_radio_or_checkbox, Utils.wait_for_element, Utils.safe_click,
    Utils.random_delay, click_checkbox, appends.
  apply emits_try_else. emits_auto; apply emits_try_else; emits_auto.
Qed.

(** X22: [check_radio_or_checkbox] always answers with a boolean: it
    never raises and never hangs.  It clicks, natively or through the
    JavaScript fallback, only after it has found the element and read a
    selection state other than the requested one.  When the element
    already is in the requested state it answers [True] after the wait
    and the read alone; when the element is not found in time it answers
    [False] after the wait alone. *)
Theorem check_radio_or_checkbox_contract
    (sel : Selector) (o : Utils.CheckboxObs) (check : bool) (st : St) :
  (exists b, fst (Utils.check_radio_or_checkbox sel o check st) = Returned b)
  /\ (exists new,
        trace (snd (Utils.check_radio_or_checkbox sel o check st)) = trace st ++ new
        /\ (In (EClick sel) new \/ In (EScript "arguments[0].click();") new ->
            Utils.cb_wait o = Ok tt /\ Utils.cb_selected o = Ok (negb check)))
  /\ (Utils.cb_wait o = Ok tt -> Utils.cb_selected o = Ok check ->
      Utils.check_radio_or_checkbox sel o check st
      = (Returned true,
         mkSt (trace st ++ [EWait sel; ERead sel]) (notes st) (Some check)))
  /\ (forall e, Utils.cb_wait o = Err e ->
      Utils.check_radio_or_checkbox sel o check st
      = (Returned false, log [EWait sel] st)).
Proof.
  assert (H3 : Utils.cb_wait o = Ok tt -> Utils.cb_selected o = Ok check ->
               Utils.check_radio_or_checkbox sel o check st
               = (Returned true,
                  mkSt (trace st ++ [EWait sel; ERead sel]) (notes st) (Some check))).
  { intros Hw Hs.
    unfold Utils.check_radio_or_checkbox, Utils.wait_for_element, try_else,
      try_except, bind, perform, set_checkbox, ret.
    rewrite Hw, Hs. cbn. rewrite Bool.eqb_reflx. cbn.
    now rewrite <- app_assoc. }
  assert (H4 : forall e, Utils.cb_wait o = Err e ->
               Utils.check_radio_or_checkbox sel o check st
               = (Returned false, log [EWait sel] st)).
  { intros e Hw.
    unfold Utils.check_radio_or_checkbox, Utils.wait_for_element, try_else,
      try_except, bind, perform, ret.
    rewrite Hw. now destruct (handles [TimeoutException] e). }
  split; [|split; [|split; [exact H3 | exact H4]]].
  - pose proof (ns_check_radio_or_checkbox sel o check st) as Hns.
    unfold Utils.check_radio_or_checkbox, try_else in *.
    match goal with
    | |- exists b, fst (match ?c with _ => _ end) = _ =>
        destruct c as [[b|e|] st1]
    end; cbn [fst] in *; eauto. now contradiction Hns.
  - destruct (Utils.cb_wait o) as [[]|e] eqn:Hw.
    + destruct (Utils.cb_selected o) as [b|e] eqn:Hs.
      * destruct (Bool.eqb b check) eqn:Hb.
        { apply Bool.eqb_prop in Hb. subst b. rewrite (H3 eq_refl eq_refl).
          exists [EWait sel; ERead sel]. split; [reflexivity|].
          simpl. intros [[H|[H|[]]]|[H|[H|[]]]]; discriminate H. }
        { destruct (appends_check_radio_or_checkbox sel o check st) as [new [Hn _]].
          exists new. split; [exact Hn|]. intros _. split; [reflexivity|].
          now destruct b, check. }
      * exists [EWait sel; ERead sel]. split.
        { unfold Utils.check_radio_or_checkbox, Utils.wait_for_element, try_else,
            try_except, bind, perform, ret.
          rewrite Hw, Hs. simpl. now rewrite <- app_assoc. }
        { simpl. intros [[H|[H|[]]]|[H|[H|[]]]]; discriminate H. }
    + rewrite (H4 e eq_refl). exists [EWait sel]. split; [reflexivity|].
      simpl. intros [[H|[]]|[H|[]]]; discriminate H.
Qed.

(** X23: [safe_click] contains an intercepted or stale click: such
    an exception never leaves it, since the JavaScript fallback answers
    [False] on any failure of its own.  When the native click is
    intercepted or stale and the JavaScript click works it answers
    [True], and whenever it answers [True] the clicked checkbox has
    changed state. *)
Theorem safe_click_contract
    (sel : Selector) (shown : bool) (o : Utils.CheckboxObs) (st : St) (e : Exn) :
  (fst (Utils.safe_click sel shown o st) = Raised e ->
   handles [ElementClickInterceptedException; StaleElementReferenceException] e = false)
  /\ (fst (Utils.safe_click sel shown o st) = Returned true ->
      dom_checkbox (snd (Utils.safe_click sel shown o st)) = Some (negb shown))
  /\ (Utils.cb_scroll o = Ok tt -> Utils.cb_click o = Err e ->
      handles [ElementClickInterceptedException; StaleElementReferenceException] e = true ->
      Utils.cb_js_click o = Ok tt ->
      fst (Utils.safe_click sel shown o st) = Returned true).
Proof.
  unfold Utils.safe_click, Utils.random_delay, click_checkbox, try_except, try_else,
    bind, perform, emit, set_checkbox, ret.
  remember [ElementClickInterceptedException; StaleElementReferenceException] as cl.
  split; [|split].
  - destruct (Utils.cb_scroll o) as [[]|e1]; cbv beta iota.
    + destruct (Utils.cb_click o) as [[]|e2]; cbv beta iota; [discriminate|].
      destruct (handles cl e2) eqn:E2.
      * destruct (Utils.cb_js_click o) as [[]|e3]; discriminate.
      * intros H. inversion H; subst e. exact E2.
    + destruct (handles cl e1) eqn:E1.
      * destruct (Utils.cb_js_click o) as [[]|e3]; discriminate.
      * intros H. inversion H; subst e. exact E1.
  - destruct (Utils.cb_scroll o) as [[]|e1]; cbv beta iota.
    + destruct (Utils.cb_click o) as [[]|e2]; cbv beta iota; [reflexivity|].
      destruct (handles cl e2); [|discriminate].
      destruct (Utils.cb_js_click o) as [[]|e3]; [reflexivity|discriminate].
    + destruct (handles cl e1); [|discriminate].
      destruct (Utils.cb_js_click o) as [[]|e3]; [reflexivity|discriminate].
  - intros -> -> -> ->. reflexivity.
Qed.

End Click_facts.

(* ===================================================================== *)
(** * The collector's cursor *)
(* ===================================================================== *)

Section Cursor.

Import Driver Bot Facts.

Lemma process_cards_extends cards : forall jc jl,
  exists more, snd (process_cards cards jc jl) = jl ++ more.
Proof.
  induction cards as [|c rest IH]; intros jc jl; simpl.
  - exists []. now rewrite app_nil_r.
  - destruct (process_card c) as [[j|]|e].
    + destruct (IH (S jc) (jl ++ [j])) as [more H]. exists ([j] ++ more).
      now rewrite H, <- app_assoc.
    + apply IH.
    + exists []. now rewrite app_nil_r.
Qed.

(** Listings, once collected, stay where they are: the loop only
    appends. *)
Lemma scroll_loop_extends fuel pages max : forall k h jc jl,
  exists more, snd (scroll_loop fuel pages max k h jc jl) = jl ++ more.
Proof.
  assert (Hnil : forall jl : list JobData, exists more, jl = jl ++ more).
  { intros jl. exists []. now rewrite app_nil_r. }
  induction fuel as [|fuel IH]; intros k h jc jl; cbn [scroll_loop].
  - destruct (Z.of_nat jc <? max); apply Hnil.
  - destruct (Z.of_nat jc <? max); [|apply Hnil].
    destruct (job_cards (pages k)) as [cards|e];
      [|destruct (handles [NoSuchElementException] e); apply Hnil].
    match goal with
    | |- context [process_cards ?cs jc jl] =>
        destruct (process_cards_extends cs jc jl) as [m1 H1];
        destruct (process_cards cs jc jl) as [[[e|] jc'] jl']
    end; cbn [snd] in H1; subst jl'; [now exists m1|].
    assert (Hgo : exists more,
               snd (scroll_loop fuel pages max (S k) (new_height (pages k)) jc'
                      (jl ++ m1))
               = jl ++ more).
    { destruct (IH (S k) (new_height (pages k)) jc' (jl ++ m1)) as [m2 H2].
      exists (m1 ++ m2). now rewrite H2, <- app_assoc. }
    destruct (new_height (pages k) =? h); [|exact Hgo].
    destruct (rbind (show_more_button (pages k)) (fun click => click)) as [[]|e];
      [exact Hgo|].
    destruct (handles [NoSuchElementException] e); now exists m1.
Qed.

(** X24: the collector's cursor counts listings, not cards.  When a card
    is skipped (its click or its extraction fails) the cursor lags behind
    the cards already visited, and the next cycle visits the cards after
    the lag again: with a snapshot of a skipped card followed by a good
    one, shown again unchanged in the next cycle while the page has grown,
    the good card's listing is collected twice. *)
Theorem skipped_card_makes_cursor_lag
    (fuel : nat) (feed : Feed) (max_jobs : Z) (bad good : Card) (job_data : JobData) :
  initial_wait feed = Ok tt ->
  job_cards (pages feed 0) = Ok [bad; good] ->
  job_cards (pages feed 1) = Ok [bad; good] ->
  new_height (pages feed 0) <> initial_height feed ->
  process_card bad = Ok None ->
  process_card good = Ok (Some job_data) ->
  2 <= max_jobs ->
  exists more,
    snd (scroll_through_jobs (S (S fuel)) feed max_jobs)
    = [job_data; job_data] ++ more.
Proof.
  intros Hw H0 H1 Hh Hbad Hgood Hmax.
  unfold scroll_through_jobs. rewrite Hw.
  assert (Hhi : Z.to_nat (Z.min (Z.of_nat (length [bad; good])) max_jobs) = 2%nat)
    by (simpl; lia).
  cbn [scroll_loop].
  destruct (Z.ltb_spec (Z.of_nat 0) max_jobs) as [_|Hge]; [|simpl in Hge; lia].
  rewrite H0, Hhi. unfold slice. cbn [Nat.sub drop take process_cards].
  rewrite Hbad, Hgood. cbn [app].
  destruct (Z.eqb_spec (new_height (pages feed 0)) (initial_height feed)) as [E|_];
    [contradiction|].
  destruct (Z.ltb_spec (Z.of_nat 1) max_jobs) as [_|Hge]; [|simpl in Hge; lia].
  rewrite H1, Hhi. cbn [Nat.sub drop take process_cards].
  rewrite Hgood. cbn [app].
  assert (Hgo : forall k h,
             exists more,
               snd (scroll_loop fuel (pages feed) max_jobs k h 2 [job_data; job_data])
               = [job_data; job_data] ++ more) by (intros; apply scroll_loop_extends).
  destruct (new_height (pages feed 1) =? new_height (pages feed 0)); [|apply Hgo].
  destruct (rbind (show_more_button (pages feed 1)) (fun click => click)) as [[]|e];
    [apply Hgo|].
  destruct (handles [NoSuchElementException] e); now exists [].
Qed.

Lemma skipped_card_makes_cursor_lag_witness :
  let feed := Sim.feed_of [[Sim.broken_card; Sim.card "B" "https://jobs/b" true];
                           [Sim.broken_card; Sim.card "B" "https://jobs/b" true]] in
  initial_wait feed = Ok tt
  /\ job_cards (pages feed 0) = Ok [Sim.broken_card; Sim.card "B" "https://jobs/b" true]
  /\ job_cards (pages feed 1) = Ok [Sim.broken_card; Sim.card "B" "https://jobs/b" true]
  /\ new_height (pages feed 0) <> initial_height feed
  /\ process_card Sim.broken_card = Ok None
  /\ process_card (Sim.card "B" "https://jobs/b" true)
     = Ok (Some (Sim.listing "B" "https://jobs/b" true))
  /\ 2 <= 4
  /\ exists more,
       snd (scroll_through_jobs 5 feed 4)
       = [Sim.listing "B" "https://jobs/b" true; Sim.listing "B" "https://jobs/b" true]
         ++ more.
Proof.
  cbv zeta.
  assert (Hh : new_height (pages (Sim.feed_of
                 [[Sim.broken_card; Sim.card "B" "https://jobs/b" true];
                  [Sim.broken_card; Sim.card "B" "https://jobs/b" true]]) 0)
               <> initial_height (Sim.feed_of
                 [[Sim.broken_card; Sim.card "B" "https://jobs/b" true];
                  [Sim.broken_card; Sim.card "B" "https://jobs/b" true]]))
    by discriminate.
  assert (Hm : 2 <= 4) by lia.
  split; [reflexivity|]. split; [reflexivity|]. split; [reflexivity|].
  split; [exact Hh|]. split; [reflexivity|]. split; [reflexivity|].
  split; [exact Hm|].
  apply (skipped_card_makes_cursor_lag 3
           (Sim.feed_of [[Sim.broken_card; Sim.card "B" "https://jobs/b" true];
                         [Sim.broken_card; Sim.card "B" "https://jobs/b" true]])
           4 Sim.broken_card (Sim.card "B" "https://jobs/b" true)
           (Sim.listing "B" "https://jobs/b" true)
           eq_refl eq_refl eq_refl Hh eq_refl eq_refl Hm).
Defined.

End Cursor.
